(** * Financial-statement normalizer and ratio extraction (aksmes)

  A shallow embedding of the statement pipeline of [app.py]
  (snapshot [.history/app_20250323223652.py]): the per-cell numeric
  coercions, the row lookups, [convert_em_to_sina_format],
  [get_financial_metrics], [plot_financial_metrics],
  [get_financial_ratios] and [download_financial_reports]; then
  [load_existing_reports], [download_financial_reports_em], the saving
  stage of [download_annual_reports_em] and the row selection of
  [plot_financial_ratios].

  Conventions of the embedding.
  - Python [str] is a Rocq [string] holding the UTF-8 bytes of the text.
    Substring tests on bytes agree with substring tests on code points
    because UTF-8 is self-synchronising; [len] and slicing count code
    points and are written out as such ([utf8_len], [utf8_take]).
    The regular expressions match code point by code point, and [\d] is
    every decimal digit of Unicode (category Nd, as of Unicode 14);
    [float] reads those digits as well and skips white space around the
    number, the parser of [pd.to_numeric] reads ASCII only.
  - A Python float is [nan], an infinity, or a rational that is a
    binary64 number: reading a text and every arithmetic operation round
    to the nearest such number, ties to even, with overflow to [inf] and
    underflow to [0.0].  The sign of a zero is not modelled.
  - A table cell holding a float is identified by its [repr], the
    shortest literal Python prints for it ([float(repr(x)) == x]).
  - Calls into the presentation layer ([st.write], [st.dataframe],
    progress bars) are omitted, except the messages of the download
    operation, which are its user-visible report, and the drawing calls of
    [plot_financial_metrics], which are kept as the checks they make on
    the lengths and signs of their data. *)

From Stdlib Require Import String Ascii List ZArith QArith Qreduction Bool Lia.
From Stdlib Require Import Permutation Sorted DecimalString.
Import ListNotations.

Set Implicit Arguments.

Open Scope string_scope.
Open Scope Z_scope.

(* ================================================================== *)
(** * Python text *)

Module PyStr.

Definition nl : string := String (ascii_of_nat 10) EmptyString.

(** [needle in hay] *)
Fixpoint contains (needle hay : string) : bool :=
  String.prefix needle hay ||
  match hay with
  | EmptyString => false
  | String _ t => contains needle t
  end.

(** [s.replace(c, '')] for a one-character [c] *)
Fixpoint remove_char (c : ascii) (s : string) : string :=
  match s with
  | EmptyString => EmptyString
  | String a t =>
      if Ascii.eqb a c then remove_char c t else String a (remove_char c t)
  end.

Definition is_digit (c : ascii) : bool :=
  let n := nat_of_ascii c in (48 <=? n)%nat && (n <=? 57)%nat.

Definition digit_val (c : ascii) : option Z :=
  if is_digit c then Some (Z.of_nat (nat_of_ascii c) - 48) else None.

(** The white space that [float] and the number parser of pandas skip
    around a number ([Py_ISSPACE]): the space and the bytes 9 to 13. *)
Definition is_space (c : ascii) : bool :=
  let n := nat_of_ascii c in
  ((9 <=? n)%nat && (n <=? 13)%nat) || Nat.eqb n 32.

Fixpoint lstrip (s : string) : string :=
  match s with
  | String a t => if is_space a then lstrip t else s
  | EmptyString => EmptyString
  end.

Fixpoint rstrip (s : string) : string :=
  match s with
  | EmptyString => EmptyString
  | String a t =>
      match rstrip t with
      | EmptyString => if is_space a then EmptyString else String a EmptyString
      | t' => String a t'
      end
  end.

(** [s.strip()] *)
Definition strip (s : string) : string := rstrip (lstrip s).

Definition lower_char (c : ascii) : ascii :=
  let n := nat_of_ascii c in
  if (65 <=? n)%nat && (n <=? 90)%nat then ascii_of_nat (n + 32) else c.

Fixpoint lower (s : string) : string :=
  match s with
  | EmptyString => EmptyString
  | String a t => String (lower_char a) (lower t)
  end.

(** a UTF-8 continuation byte, [10xxxxxx] *)
Definition is_cont (c : ascii) : bool :=
  let n := nat_of_ascii c in (128 <=? n)%nat && (n <=? 191)%nat.

(** [len(s)]: the number of code points *)
Fixpoint utf8_len (s : string) : nat :=
  match s with
  | EmptyString => O
  | String a t => if is_cont a then utf8_len t else S (utf8_len t)
  end.

(** [s[:n]]: the first [n] code points *)
Fixpoint utf8_take (n : nat) (s : string) : string :=
  match s with
  | EmptyString => EmptyString
  | String a t =>
      if is_cont a then String a (utf8_take n t)
      else match n with
           | O => EmptyString
           | S n' => String a (utf8_take n' t)
           end
  end.

(** ** Code points *)

Fixpoint read_cont (k : nat) (acc : N) (s : string) : option (N * string) :=
  match k with
  | O => Some (acc, s)
  | S k' =>
      match s with
      | String c t =>
          if is_cont c
          then read_cont k' (64 * acc + (N_of_ascii c - 128))%N t
          else None
      | EmptyString => None
      end
  end.

(** The first code point of [s] and the text after it; [None] at the end
    of the text (and on bytes that are not UTF-8, which no [str] holds). *)
Definition next_char (s : string) : option (N * string) :=
  match s with
  | EmptyString => None
  | String a t =>
      let n := N_of_ascii a in
      if (n <? 128)%N then Some (n, t)
      else if (n <? 192)%N then None
      else if (n <? 224)%N then read_cont 1 (n - 192)%N t
      else if (n <? 240)%N then read_cont 2 (n - 224)%N t
      else if (n <? 248)%N then read_cont 3 (n - 240)%N t
      else None
  end.

(** The code points of a text, byte by byte: [pending] continuation
    bytes are still to come for the code point collected in [acc]. *)
Fixpoint code_points_from (pending : nat) (acc : N) (s : string)
  : option (list N) :=
  match s with
  | EmptyString =>
      match pending with
      | O => Some []
      | S _ => None
      end
  | String a t =>
      let n := N_of_ascii a in
      match pending with
      | S p =>
          if is_cont a then
            let acc' := (64 * acc + (n - 128))%N in
            match p with
            | O => option_map (cons acc') (code_points_from O 0%N t)
            | S _ => code_points_from p acc' t
            end
          else None
      | O =>
          if (n <? 128)%N then option_map (cons n) (code_points_from O 0%N t)
          else if (n <? 192)%N then None
          else if (n <? 224)%N then code_points_from 1 (n - 192)%N t
          else if (n <? 240)%N then code_points_from 2 (n - 224)%N t
          else if (n <? 248)%N then code_points_from 3 (n - 240)%N t
          else None
      end
  end.

Definition code_points (s : string) : option (list N) :=
  code_points_from O 0%N s.

(** The decimal digits of Unicode (category Nd, Unicode 14) come in runs
    of ten, zero to nine; these are the code points of the zeros. *)
Definition decimal_zeros : list N :=
  [48; 1632; 1776; 1984; 2406; 2534; 2662; 2790; 2918; 3046; 3174; 3302;
   3430; 3558; 3664; 3792; 3872; 4160; 4240; 6112; 6160; 6470; 6608; 6784;
   6800; 6992; 7088; 7232; 7248; 42528; 43216; 43264; 43472; 43504; 43600;
   44016; 65296; 66720; 68912; 69734; 69872; 69942; 70096; 70384; 70736;
   70864; 71248; 71360; 71472; 71904; 72016; 72784; 73040; 73120; 92768;
   92864; 93008; 120782; 120792; 120802; 120812; 120822; 123200; 123632;
   125264; 130032]%N.

(** [unicodedata.decimal]: the value of a decimal digit *)
Definition decimal_value (cp : N) : option Z :=
  match find (fun z => (z <=? cp)%N && (cp <=? z + 9)%N) decimal_zeros with
  | Some z => Some (Z.of_N (cp - z))
  | None => None
  end.

(** [\d] of [re] on a [str], and [str.isdecimal] of one character *)
Definition is_decimal (cp : N) : bool :=
  match decimal_value cp with
  | Some _ => true
  | None => false
  end.

(** The white space of [str.isspace] from code point 127 on *)
Definition unicode_spaces : list N :=
  [133; 160; 5760; 8192; 8193; 8194; 8195; 8196; 8197; 8198; 8199; 8200;
   8201; 8202; 8232; 8233; 8239; 8287; 12288]%N.

Definition is_unicode_space (cp : N) : bool :=
  existsb (N.eqb cp) unicode_spaces.

Definition is_char (c : ascii) : N -> bool := fun cp => N.eqb cp (N_of_ascii c).

Definition is_ascii_digit (cp : N) : bool := (48 <=? cp)%N && (cp <=? 57)%N.

(** One regular-expression atom per character: [match_seq ps s] consumes
    [length ps] characters of [s], the i-th satisfying the i-th predicate,
    and returns what is left. *)
Fixpoint match_seq (ps : list (N -> bool)) (s : string) : option string :=
  match ps with
  | [] => Some s
  | p :: ps' =>
      match next_char s with
      | Some (cp, t) => if p cp then match_seq ps' t else None
      | None => None
      end
  end.

(** [$] in the default mode: the end of the text or just before a final
    newline *)
Definition at_dollar (rest : string) : bool :=
  String.eqb rest EmptyString || String.eqb rest nl.

Definition full_match (ps : list (N -> bool)) (s : string) : bool :=
  match match_seq ps s with
  | Some rest => at_dollar rest
  | None => false
  end.

(** [str.startswith] with a tuple of prefixes *)
Definition startswith_any (ps : list string) (s : string) : bool :=
  existsb (fun p => String.prefix p s) ps.

End PyStr.

(* ================================================================== *)
(** * Python floats *)

Module PyFloat.
Import PyStr.

Inductive pyfloat : Type :=
| FNaN
| FInf (negative : bool)
| FFin (q : Q).

(** ** Rounding to binary64 *)

(** [n / d >= 2^e], for positive [n] and [d] *)
Definition ge_pow2 (n d e : Z) : bool :=
  if 0 <=? e then d * 2 ^ e <=? n else d <=? n * 2 ^ (- e).

(** The [e] with [2^e <= q < 2^(e+1)], for a positive [q] *)
Definition ilog2 (q : Q) : Z :=
  let n := Qnum q in
  let d := Zpos (Qden q) in
  let e0 := Z.log2 n - Z.log2 d in
  if ge_pow2 n d e0 then e0 else e0 - 1.

(** [m * 2^k] *)
Definition scale2 (m k : Z) : Q :=
  if 0 <=? k then inject_Z (m * 2 ^ k)
  else Qred (Qmake m (Z.to_pos (2 ^ (- k)))).

(** The float nearest to a positive rational, ties to the even
    significand: 53 bits, steps of [2^-1074] at the bottom of the range,
    [inf] once the rounded value reaches [2^1024]. *)
Definition round_pos (q : Q) : pyfloat :=
  let k := Z.max (ilog2 q - 52) (- 1074) in
  let n := if 0 <=? k then Qnum q else Qnum q * 2 ^ (- k) in
  let d := if 0 <=? k then Zpos (Qden q) * 2 ^ k else Zpos (Qden q) in
  let f := n / d in
  let r := n mod d in
  let m :=
    if 2 * r <? d then f
    else if d <? 2 * r then f + 1
    else if Z.even f then f else f + 1 in
  if m =? 0 then FFin 0
  else if 1024 <=? Z.log2 m + k then FInf false
  else FFin (scale2 m k).

(** The float nearest to a rational.  (The sign of a zero is not
    modelled: [-0.0 == 0.0].) *)
Definition fin (q : Q) : pyfloat :=
  match Qnum q with
  | Z0 => FFin 0
  | Zpos _ => round_pos q
  | Zneg _ =>
      match round_pos (- q) with
      | FFin p => FFin (Qred (- p))
      | FInf _ => FInf true
      | FNaN => FNaN
      end
  end.

(** [float(z)] of an integer *)
Definition of_Z (z : Z) : pyfloat := fin (inject_Z z).

Definition is_nan (x : pyfloat) : bool :=
  match x with FNaN => true | _ => false end.

Definition q_is_zero (q : Q) : bool := Z.eqb (Qnum q) 0.
Definition q_is_neg (q : Q) : bool := Z.ltb (Qnum q) 0.

(** [x != 0] *)
Definition nonzero (x : pyfloat) : bool :=
  match x with
  | FFin q => negb (q_is_zero q)
  | _ => true
  end.

(** [x == y] *)
Definition feqb (x y : pyfloat) : bool :=
  match x, y with
  | FFin a, FFin b => Qeq_bool a b
  | FInf s, FInf t => Bool.eqb s t
  | _, _ => false
  end.

(** [x / y] for [y != 0]: the divisions of the growth rates and of the
    ratios are guarded by that test, so the [ZeroDivisionError] case is not
    reached. *)
Definition fdiv (x y : pyfloat) : pyfloat :=
  match x, y with
  | FNaN, _ | _, FNaN => FNaN
  | FInf _, FInf _ => FNaN
  | FInf s, FFin b => FInf (xorb s (q_is_neg b))
  | FFin _, FInf _ => FFin 0
  | FFin a, FFin b => fin (a / b)
  end.

(** [x / y] of two numpy floats: a division by zero gives an infinity, or
    [nan] for [0 / 0], and raises nothing. *)
Definition np_div (x y : pyfloat) : pyfloat :=
  match y with
  | FFin b =>
      if q_is_zero b then
        match x with
        | FFin a => if q_is_zero a then FNaN else FInf (q_is_neg a)
        | _ => x
        end
      else fdiv x y
  | _ => fdiv x y
  end.

(** [x < 0] *)
Definition is_negative (x : pyfloat) : bool :=
  match x with
  | FNaN => false
  | FInf s => s
  | FFin q => q_is_neg q
  end.

Definition fmul (x y : pyfloat) : pyfloat :=
  match x, y with
  | FNaN, _ | _, FNaN => FNaN
  | FInf s, FInf t => FInf (xorb s t)
  | FInf s, FFin b => if q_is_zero b then FNaN else FInf (xorb s (q_is_neg b))
  | FFin a, FInf t => if q_is_zero a then FNaN else FInf (xorb t (q_is_neg a))
  | FFin a, FFin b => fin (a * b)
  end.

Definition fsub (x y : pyfloat) : pyfloat :=
  match x, y with
  | FNaN, _ | _, FNaN => FNaN
  | FInf s, FInf t => if Bool.eqb s t then FNaN else FInf s
  | FInf s, FFin _ => FInf s
  | FFin _, FInf t => FInf (negb t)
  | FFin a, FFin b => fin (a - b)
  end.

Definition fadd (x y : pyfloat) : pyfloat :=
  match x, y with
  | FNaN, _ | _, FNaN => FNaN
  | FInf s, FInf t => if Bool.eqb s t then FInf s else FNaN
  | FInf s, FFin _ => FInf s
  | FFin _, FInf t => FInf t
  | FFin a, FFin b => fin (a + b)
  end.

(** ** Reading a float from text *)

(** [digitpart ::= digit (["_"] digit)*]; [us] says whether the grouping
    underscore is allowed.  Returns the accumulated value, the number of
    digits read and the unread text. *)
Fixpoint scan_digits (us : bool) (acc : Z) (cnt : nat) (s : string)
  : Z * nat * string :=
  match s with
  | EmptyString => (acc, cnt, s)
  | String c t =>
      match digit_val c with
      | Some d => scan_digits us (10 * acc + d) (S cnt) t
      | None =>
          if us && Ascii.eqb c "_" && negb (Nat.eqb cnt 0) then
            match t with
            | String c' t' =>
                match digit_val c' with
                | Some d => scan_digits us (10 * acc + d) (S cnt) t'
                | None => (acc, cnt, s)
                end
            | EmptyString => (acc, cnt, s)
            end
          else (acc, cnt, s)
      end
  end.

(** [sign ::= "+" | "-"], optional *)
Definition scan_sign (s : string) : bool * string :=
  match s with
  | String c t =>
      if Ascii.eqb c "-" then (true, t)
      else if Ascii.eqb c "+" then (false, t)
      else (false, s)
  | EmptyString => (false, s)
  end.

(** [exponent ::= ("e" | "E") [sign] digitpart]; [None] when an exponent
    mark is not followed by digits *)
Definition scan_exponent (us : bool) (s : string) : option (Z * string) :=
  match s with
  | String c t =>
      if Ascii.eqb c "e" || Ascii.eqb c "E" then
        let '(neg, t1) := scan_sign t in
        let '(e, n, rest) := scan_digits us 0 O t1 in
        if Nat.eqb n 0 then None
        else Some (if neg then - e else e, rest)
      else Some (0, s)
  | EmptyString => Some (0, s)
  end.

(** [m * 10^e] *)
Definition scale10 (m e : Z) : Q :=
  if 0 <=? e then inject_Z (m * 10 ^ e)
  else Qmake m (Z.to_pos (10 ^ (- e))).

(** An unsigned decimal number that fills the whole text:
    [digitpart ["." [digitpart]] [exponent] | "." digitpart [exponent]] *)
Definition scan_number (us : bool) (s : string) : option Q :=
  let '(ip, ni, r1) := scan_digits us 0 O s in
  let '(m, nf, r2) :=
    match r1 with
    | String c t =>
        if Ascii.eqb c "." then scan_digits us ip O t else (ip, O, r1)
    | EmptyString => (ip, O, r1)
    end in
  if Nat.eqb (ni + nf) 0 then None
  else
    match scan_exponent us r2 with
    | Some (e, EmptyString) => Some (scale10 m (e - Z.of_nat nf))
    | _ => None
    end.

Definition scan_special (s : string) : option pyfloat :=
  let w := lower s in
  if String.eqb w "inf" || String.eqb w "infinity" then Some (FInf false)
  else if String.eqb w "nan" then Some FNaN
  else None.

Definition fneg (x : pyfloat) : pyfloat :=
  match x with
  | FNaN => FNaN
  | FInf s => FInf (negb s)
  | FFin q => FFin (Qred (- q))
  end.

(** A number in text: white space around it is skipped, then a sign and
    [inf], [infinity], [nan] or a decimal number, rounded to the nearest
    float. *)
Definition parse (us : bool) (s : string) : option pyfloat :=
  let '(neg, body) := scan_sign (strip s) in
  let r :=
    match scan_special body with
    | Some x => Some x
    | None => option_map fin (scan_number us body)
    end in
  option_map (fun x => if neg then fneg x else x) r.

(** What [float] does to a [str] before it reads the number: a character
    below 127 is kept, a white space beyond becomes a space and a decimal
    digit the ASCII digit of its value; with any other character the text
    is no number. *)
Definition to_ascii_char (cp : N) : option ascii :=
  if (cp <? 127)%N then Some (ascii_of_N cp)
  else if is_unicode_space cp then Some " "%char
  else match decimal_value cp with
       | Some d => Some (ascii_of_N (48 + Z.to_N d))
       | None => None
       end.

Fixpoint to_ascii_chars (cps : list N) : option string :=
  match cps with
  | [] => Some EmptyString
  | cp :: rest =>
      match to_ascii_char cp, to_ascii_chars rest with
      | Some c, Some t => Some (String c t)
      | _, _ => None
      end
  end.

Definition to_ascii (s : string) : option string :=
  match code_points s with
  | Some cps => to_ascii_chars cps
  | None => None
  end.

(** [float(s)] for a [str]: [None] stands for [ValueError] *)
Definition py_float (s : string) : option pyfloat :=
  match to_ascii s with
  | Some a => parse true a
  | None => None
  end.

End PyFloat.

(* ================================================================== *)
(** * Cells, labels and data frames *)

Module Pandas.
Import PyStr PyFloat.

(** What a cell or an axis label of a provider table holds: nothing, an
    integer, a float (given by its [repr], see the conventions above) or a
    text.  The type of a column (its dtype) is not modelled: a cell is the
    Python object the program reads from it. *)
Inductive pyval : Type :=
| VNone
| VInt (z : Z)
| VFloat (repr : string)
| VStr (s : string).

Definition nan : pyval := VFloat "nan".

Definition float_value (repr : string) : pyfloat :=
  match py_float repr with
  | Some x => x
  | None => FNaN
  end.

Definition string_of_Z (z : Z) : string := NilZero.string_of_int (Z.to_int z).

(** [str(v)] *)
Definition py_str (v : pyval) : string :=
  match v with
  | VNone => "None"
  | VInt z => string_of_Z z
  | VFloat r => r
  | VStr s => s
  end.

(** [pd.notna(v)] *)
Definition notna (v : pyval) : bool :=
  match v with
  | VNone => false
  | VFloat r => negb (is_nan (float_value r))
  | _ => true
  end.

Definition isna (v : pyval) : bool := negb (notna v).

(** The number a cell holds; an integer is kept as it is, since Python
    compares an [int] with a number exactly. *)
Definition num_value (v : pyval) : option pyfloat :=
  match v with
  | VInt z => Some (FFin (inject_Z z))
  | VFloat r => Some (float_value r)
  | _ => None
  end.

(** The element-wise [==] of a column against a scalar: a missing value
    equals nothing, numbers compare by value, text by content. *)
Definition py_eq (a b : pyval) : bool :=
  if isna a || isna b then false
  else
    match a, b with
    | VStr s, VStr t => String.eqb s t
    | _, _ =>
        match num_value a, num_value b with
        | Some x, Some y => feqb x y
        | _, _ => false
        end
    end.

(** Identity of keys in a hash table ([unique], label lookup): as [==],
    except that [None] is [None] and [nan] is found again. *)
Definition py_same (a b : pyval) : bool :=
  match a, b with
  | VNone, VNone => true
  | VFloat r, VFloat t =>
      (is_nan (float_value r) && is_nan (float_value t)) || py_eq a b
  | _, _ => py_eq a b
  end.

(** [pd.to_numeric(v, errors='coerce')] on a scalar.  Text is read with
    the grammar of [float] without the grouping underscore; a thousands
    separator is not part of it, so comma-formatted text becomes [nan]. *)
Definition to_numeric (v : pyval) : pyfloat :=
  match v with
  | VNone => FNaN
  | VInt z => of_Z z
  | VFloat r => float_value r
  | VStr s =>
      match parse false s with
      | Some x => x
      | None => FNaN
      end
  end.

Inductive pyexn : Type := TypeError | ValueError | KeyError.

Inductive outcome (A : Type) : Type :=
| Returns (a : A)
| Raises (e : pyexn).
Arguments Returns {A} a.
Arguments Raises {A} e.

Definition bind {A B} (o : outcome A) (k : A -> outcome B) : outcome B :=
  match o with
  | Returns a => k a
  | Raises e => Raises e
  end.

(** A data frame: the column labels, the row labels, the optional names
    of the two axes, and the cells row by row. *)
Record DataFrame : Type := mkDF {
  columns : list pyval;
  columns_name : option pyval;
  index : list pyval;
  index_name : option pyval;
  data : list (list pyval)
}.

(** [pd.DataFrame()] *)
Definition empty_frame : DataFrame := mkDF [] None [] None [].

(** [df.empty]: an axis of length 0 *)
Definition df_empty (df : DataFrame) : bool :=
  match columns df, index df with
  | [], _ => true
  | _, [] => true
  | _, _ => false
  end.

Definition range_index (n : nat) : list pyval :=
  map (fun i => VInt (Z.of_nat i)) (seq 0 n).

Definition cell (row : list pyval) (j : nat) : pyval := nth j row nan.

(** [df.iloc[:, j]] *)
Definition iloc_col (j : nat) (df : DataFrame) : list pyval :=
  map (fun r => cell r j) (data df).

Fixpoint find_pos (l : pyval) (labels : list pyval) : option nat :=
  match labels with
  | [] => None
  | x :: rest =>
      if py_same x l then Some O else option_map S (find_pos l rest)
  end.

Definition label_in (l : pyval) (labels : list pyval) : bool :=
  existsb (fun x => py_same x l) labels.

(** [df[label]] for a label that names one column; the empty list stands
    for a label that is absent.  (With a repeated label pandas returns a
    sub-frame; tables with repeated labels are outside the model.) *)
Definition col_values (df : DataFrame) (l : pyval) : list pyval :=
  match find_pos l (columns df) with
  | Some j => iloc_col j df
  | None => []
  end.

(** [df.set_index(df.columns[0])] *)
Definition set_index_first (df : DataFrame) : DataFrame :=
  mkDF (tl (columns df)) (columns_name df)
       (iloc_col 0 df) (hd_error (columns df))
       (map (@tl pyval) (data df)).

(** [df.transpose()] *)
Definition transpose (df : DataFrame) : DataFrame :=
  mkDF (index df) (index_name df)
       (columns df) (columns_name df)
       (map (fun j => iloc_col j df) (seq 0 (length (columns df)))).

(** The label [reset_index] gives to the column it inserts. *)
Definition reset_index_label (df : DataFrame) : pyval :=
  match index_name df with
  | Some n => n
  | None =>
      if label_in (VStr "index") (columns df) then VStr "level_0"
      else VStr "index"
  end.

(** [df.reset_index()]: [ValueError] when the label to insert is already
    a column. *)
Definition reset_index (df : DataFrame) : outcome DataFrame :=
  let l := reset_index_label df in
  if label_in l (columns df) then Raises ValueError
  else Returns (mkDF (l :: columns df) (columns_name df)
                     (range_index (length (index df))) None
                     (map (fun p : pyval * list pyval => fst p :: snd p)
                          (combine (index df) (data df)))).

(** [df.rename(columns={old: new})] *)
Definition rename_column (old new : pyval) (df : DataFrame) : DataFrame :=
  mkDF (map (fun c => if py_same c old then new else c) (columns df))
       (columns_name df) (index df) (index_name df) (data df).

(** [values.unique()]: first occurrences, in order *)
Fixpoint unique_acc (seen : list pyval) (l : list pyval) : list pyval :=
  match l with
  | [] => []
  | x :: rest =>
      if existsb (py_same x) seen then unique_acc seen rest
      else x :: unique_acc (x :: seen) rest
  end.

Definition unique (l : list pyval) : list pyval := unique_acc [] l.

Fixpoint set_nth (j : nat) (v : pyval) (row : list pyval) : list pyval :=
  match row, j with
  | [], _ => []
  | _ :: t, O => v :: t
  | x :: t, S j' => x :: set_nth j' v t
  end.

(** [df.loc[mask, label] = value]: writes the masked rows of an existing
    column, or appends the column, [nan] outside the mask. *)
Definition loc_set (df : DataFrame) (mask : list bool) (l : pyval)
           (value : pyval) : DataFrame :=
  match find_pos l (columns df) with
  | Some j =>
      mkDF (columns df) (columns_name df) (index df) (index_name df)
           (map (fun p : bool * list pyval =>
                   if fst p then set_nth j value (snd p) else snd p)
                (combine mask (data df)))
  | None =>
      mkDF (columns df ++ [l])%list (columns_name df) (index df) (index_name df)
           (map (fun p : bool * list pyval =>
                   (snd p ++ [if fst p then value else nan])%list)
                (combine mask (data df)))
  end.

(** The labels of the columns are pairwise distinct once written as text
    (the statement tables of the specification; the lookups by label of the
    model are those of pandas on such tables only). *)
Definition distinct_labels (df : DataFrame) : Prop :=
  NoDup (map py_str (columns df)).

(** Every row as wide as the header, one row label per row. *)
Definition rectangular (df : DataFrame) : Prop :=
  length (index df) = length (data df) /\
  Forall (fun r => length r = length (columns df)) (data df).

End Pandas.

(* ================================================================== *)
(** * The shape normalizer: [convert_em_to_sina_format] *)

Module Normalizer.
Import PyStr PyFloat Pandas.

(** [col] is a [str]; on any other label ['DATE' in col] raises. *)
Definition str_label (v : pyval) : option string :=
  match v with
  | VStr s => Some s
  | _ => None
  end.

Fixpoint str_labels (labels : list pyval) : option (list string) :=
  match labels with
  | [] => Some []
  | v :: rest =>
      match str_label v, str_labels rest with
      | Some s, Some l => Some (s :: l)
      | _, _ => None
      end
  end.

(** ['DATE' in col or '日期' in col or '报告期' in col or '报告日' in col] *)
Definition is_date_name (col : string) : bool :=
  contains "DATE" col || contains "日期" col
  || contains "报告期" col || contains "报告日" col.

(** ['项目' in col or 'ITEM' in col or '科目' in col] *)
Definition is_item_name (col : string) : bool :=
  contains "项目" col || contains "ITEM" col || contains "科目" col.

(** ['收入' in s or '利润' in s or '资产' in s or '负债' in s] *)
Definition has_statement_keyword (s : string) : bool :=
  contains "收入" s || contains "利润" s
  || contains "资产" s || contains "负债" s.

Definition d8 : list (N -> bool) := repeat is_decimal 8.

Definition iso_date : list (N -> bool) :=
  [is_decimal; is_decimal; is_decimal; is_decimal; is_char "-";
   is_decimal; is_decimal; is_char "-"; is_decimal; is_decimal].

(** [re.match(r'^\d{8}$|^\d{4}-\d{2}-\d{2}$', s)] *)
Definition match_date_pattern (s : string) : bool :=
  full_match d8 s || full_match iso_date s.

(** [df.iloc[:5, 0].astype(str).tolist()] *)
Definition sample_values (df : DataFrame) : list string :=
  map py_str (firstn 5 (iloc_col 0 df)).

Definition null_text (s : string) : bool :=
  String.eqb s "nan" || String.eqb s "None".

(** [all(re.match(date_pattern, str(val)) for val in sample_values
        if str(val) not in ['nan', 'None'])] *)
Definition first_col_is_dates (df : DataFrame) : bool :=
  forallb match_date_pattern
          (filter (fun s => negb (null_text s)) (sample_values df)).

(** Python truth of an optional text: neither [None] nor [''] *)
Definition truthy (o : option string) : bool :=
  match o with
  | Some s => negb (String.eqb s "")
  | None => false
  end.

(** The item column of a long table, lines 1308-1324. *)
Definition choose_item_col (df : DataFrame) (cols : list string)
           (date_col : string) : option string :=
  match filter is_item_name cols with
  | c :: _ => Some c
  | [] =>
      let non_date_cols :=
        filter (fun c => negb (String.eqb c date_col)) cols in
      match non_date_cols with
      | [] => None
      | c0 :: _ =>
          let by_content :=
            find (fun col =>
                    existsb has_statement_keyword
                            (firstn 10 (map py_str (col_values df (VStr col)))))
                 non_date_cols in
          if truthy by_content then by_content else Some c0
      end
  end.

(** [str(date).replace('-', '')], cut to eight characters *)
Definition date_str_of (date : pyval) : string :=
  let s := remove_char "-" (py_str date) in
  if (8 <? utf8_len s)%nat then utf8_take 8 s else s.

(** One turn of the inner loop, lines 1349-1354: the first row of
    [date_data] that carries [item] gives the value written into the
    pivot at the rows of that item. *)
Definition fill_item (df : DataFrame) (item_col value_col : string)
           (date_data : list (list pyval)) (date_str : string)
           (pivot : DataFrame) (item : pyval) : DataFrame :=
  let item_of (d : DataFrame) (r : list pyval) : pyval :=
    match find_pos (VStr item_col) (columns d) with
    | Some j => cell r j
    | None => nan
    end in
  match filter (fun r => py_eq (item_of df r) item) date_data with
  | [] => pivot
  | r :: _ =>
      let value :=
        match find_pos (VStr value_col) (columns df) with
        | Some j => cell r j
        | None => nan
        end in
      loc_set pivot
              (map (fun pr => py_eq (item_of pivot pr) item) (data pivot))
              (VStr date_str) value
  end.

(** One turn of the outer loop, lines 1335-1354.  The items are read from
    the pivot when the inner loop starts.  (Whether the loop sees its own
    writes matters only when a date prints as the label of the item column;
    no property below depends on that case.) *)
Definition fill_date (df : DataFrame) (cols : list string)
           (date_col item_col : string)
           (pivot : DataFrame) (date : pyval) : DataFrame :=
  let date_str := date_str_of date in
  let date_data :=
    filter (fun r =>
              match find_pos (VStr date_col) (columns df) with
              | Some j => py_eq (cell r j) date
              | None => false
              end) (data df) in
  let value_cols :=
    filter (fun c => negb (String.eqb c date_col || String.eqb c item_col))
           cols in
  match value_cols with
  | [] => pivot
  | value_col :: _ =>
      fold_left (fill_item df item_col value_col date_data date_str)
                (col_values pivot (VStr item_col)) pivot
  end.

(** Case 2, lines 1302-1358: a table with a date-named column. *)
Definition pivot_long (df : DataFrame) (cols : list string)
           (date_col : string) : DataFrame :=
  let item_col := choose_item_col df cols date_col in
  match item_col with
  | Some ic =>
      if truthy item_col then
        let items := unique (col_values df (VStr ic)) in
        let pivot0 :=
          mkDF [VStr ic] None (range_index (length items)) None
               (map (fun u => [u]) items) in
        fold_left (fill_date df cols date_col ic)
                  (unique (col_values df (VStr date_col))) pivot0
      else empty_frame
  | None => empty_frame
  end.

(** Case 3, lines 1360-1381: the first column as index, transposed, the
    index brought back as a column and the column called ['index']
    renamed. *)
Definition transpose_dates (df : DataFrame) : outcome DataFrame :=
  bind (reset_index (transpose (set_index_first df)))
       (fun t => Returns (rename_column (VStr "index") (VStr "项目") t)).

(** The three cases of lines 1277-1280, in the order the code tests
    them. *)
Inductive shape : Type :=
| Long (date_col : string)     (* case 2: a date-named column *)
| Transposed                   (* case 3: dates down the first column *)
| Standard.                    (* case 1: nothing to convert *)

(** Lines 1294, 1302-1304, 1360 and 1383: the conditions of the
    [if]/[elif]/[else], on the labels [cols] of a non-empty frame. *)
Definition shape_of (df : DataFrame) (cols : list string) : shape :=
  match filter is_date_name cols with
  | date_col :: _ => Long date_col
  | [] =>
      if existsb (String.eqb "REPORT_DATE") cols then Long "REPORT_DATE"
      else if first_col_is_dates df then Transposed
      else Standard
  end.

Definition convert_em_to_sina_format (df : option DataFrame)
  : outcome DataFrame :=
  match df with
  | None => Returns empty_frame
  | Some df =>
      if df_empty df then Returns empty_frame
      else
        match str_labels (columns df) with
        | None => Raises TypeError
        | Some cols =>
            match shape_of df cols with
            | Long date_col => Returns (pivot_long df cols date_col)
            | Transposed => transpose_dates df
            | Standard => Returns df
            end
        end
  end.

(** What case 3 returns for a table with unnamed axes whose first column
    does not hold the text ['index']: the header is [项目] followed by the
    values of the first column; there is one row per other column, its
    label first, then the cells of that column from top to bottom. *)
Definition turned (df : DataFrame) : DataFrame :=
  mkDF (VStr "项目" :: iloc_col 0 df)
       (hd_error (columns df))
       (range_index (length (tl (columns df))))
       None
       (map (fun j => nth j (columns df) nan :: map (fun r => cell r j) (data df))
            (seq 1 (length (tl (columns df))))).

(** What case 2 returns when there is no value column: the items, once
    each, and no period column. *)
Definition items_only (df : DataFrame) (item_col : string) : DataFrame :=
  let items := unique (col_values df (VStr item_col)) in
  mkDF [VStr item_col] None (range_index (length items)) None
       (map (fun u => [u]) items).

(** A table that the normalizer leaves as it is: [pd.DataFrame()], or a
    non-empty table with text labels that falls in case 1. *)
Definition stable (t : DataFrame) : Prop :=
  t = empty_frame
  \/ (df_empty t = false
      /\ exists cols, str_labels (columns t) = Some cols
                      /\ shape_of t cols = Standard).

(** [normalize(normalize(T))] *)
Definition convert_twice (df : DataFrame) : outcome DataFrame :=
  bind (convert_em_to_sina_format (Some df))
       (fun t => convert_em_to_sina_format (Some t)).

End Normalizer.

(* ================================================================== *)
(** * Dates and sorting, as the library provides them *)

Module Dates.
Import Pandas.

(** The order of [sort_values] on a date column: [NaT] ([None]) goes
    last whichever the direction. *)
Definition key_le (ascending : bool) (a b : option Z) : Prop :=
  match a, b with
  | _, None => True
  | None, Some _ => False
  | Some x, Some y => if ascending then x <= y else y <= x
  end.

Definition key_leb (ascending : bool) (a b : option Z) : bool :=
  match a, b with
  | _, None => true
  | None, Some _ => false
  | Some x, Some y => if ascending then x <=? y else y <=? x
  end.

(** What the program relies on from [pd.to_datetime(..., errors='coerce')]
    and from [DataFrame.sort_values]: the conversion keeps the length of
    the column (a text that is no date becomes [NaT]); the sort returns
    the same rows in the order of their keys.  The default sort of pandas
    is not stable, so nothing is said about rows with equal keys. *)
Class DateOps : Type := {
  to_datetime : list pyval -> list (option Z);
  to_datetime_length : forall l, length (to_datetime l) = length l;
  sort_values :
    forall A : Type, bool -> list (option Z * A) -> list (option Z * A);
  sort_values_perm :
    forall (A : Type) asc (l : list (option Z * A)),
      Permutation l (sort_values asc l);
  sort_values_sorted :
    forall (A : Type) asc (l : list (option Z * A)),
      StronglySorted (fun x y => key_le asc (fst x) (fst y))
                     (sort_values asc l)
}.

(** One implementation: eight-digit texts and integers are read as the
    number they spell, rows are sorted by insertion. *)
Definition day_of (v : pyval) : option Z :=
  match v with
  | VInt z => Some z
  | VStr s =>
      if PyStr.full_match (repeat PyStr.is_ascii_digit 8) s
      then match PyFloat.scan_digits false 0 O s with
           | (z, _, _) => Some z
           end
      else None
  | _ => None
  end.

Fixpoint insert_row {A : Type} (asc : bool) (x : option Z * A)
         (l : list (option Z * A)) : list (option Z * A) :=
  match l with
  | [] => [x]
  | y :: rest =>
      if key_leb asc (fst x) (fst y) then x :: l
      else y :: insert_row asc x rest
  end.

Fixpoint insertion_sort {A : Type} (asc : bool) (l : list (option Z * A))
  : list (option Z * A) :=
  match l with
  | [] => []
  | x :: rest => insert_row asc x (insertion_sort asc rest)
  end.

End Dates.

(* ================================================================== *)
(** * The metrics extractor: [get_financial_metrics] and the growth rates
    of [plot_financial_metrics] *)

Module Metrics.
Import PyStr PyFloat Pandas Dates.

(** [df.columns = df.columns.astype(str)] *)
Definition stringify_labels (df : DataFrame) : DataFrame :=
  mkDF (map (fun l => VStr (py_str l)) (columns df)) (columns_name df)
       (index df) (index_name df) (data df).

(** [df[first_col] = df[first_col].astype(str)] *)
Definition stringify_first_col (df : DataFrame) : DataFrame :=
  mkDF (columns df) (columns_name df) (index df) (index_name df)
       (map (fun r => match r with
                      | [] => []
                      | c :: t => VStr (py_str c) :: t
                      end) (data df)).

Definition project_col_candidates : list string :=
  ["项目"; "报表项目"; "科目"; "会计科目"; "项目名称"].

Definition statement_terms : list string :=
  ["营业收入"; "营业总收入"; "营业利润"; "净利润"; "利润总额"].

Definition revenue_patterns : list string :=
  ["营业收入"; "营业总收入"; "主营业务收入"; "主营收入"; "总收入"].

Definition profit_patterns : list string :=
  ["净利润"; "归属于母公司所有者的净利润"; "归母净利润";
   "归属于母公司股东的净利润"].

(** [Series.str.contains(pattern, na=False)] on one cell, for a pattern
    without special characters: a cell that is no text does not match.
    (The accessor [.str] raises on a column that holds no text at all; the
    lookups are stated for columns of item names.) *)
Definition str_contains (pattern : string) (v : pyval) : bool :=
  match v with
  | VStr s => contains pattern s
  | _ => false
  end.

Fixpoint drop_prefix (p s : string) : option string :=
  match p with
  | EmptyString => Some s
  | String a p' =>
      match s with
      | String b s' => if Ascii.eqb a b then drop_prefix p' s' else None
      | EmptyString => None
      end
  end.

(** [20\d{2}[-/年]\d{1,2}[-/月]?] at the start of [s]: the optional
    parts do not decide whether there is a match. *)
Definition date_here (s : string) : bool :=
  match match_seq [is_char "2"; is_char "0"; is_decimal; is_decimal] s with
  | Some rest =>
      existsb (fun sep =>
                 match drop_prefix sep rest with
                 | Some rest' =>
                     match next_char rest' with
                     | Some (cp, _) => is_decimal cp
                     | None => false
                     end
                 | None => false
                 end) ["-"; "/"; "年"]
  | None => false
  end.

(** [date_pattern.search(s)] *)
Fixpoint search_date (s : string) : bool :=
  date_here s ||
  match s with
  | EmptyString => false
  | String _ t => search_date t
  end.

(** [isinstance(val, str) and date_pattern.search(val)] *)
Definition is_date_text (v : pyval) : bool :=
  match v with
  | VStr s => search_date s
  | _ => false
  end.

(** Lines 224-230: the table turned, its first row made the header, that
    row dropped, the index brought back and renamed. *)
Definition turn_table (df : DataFrame) : outcome DataFrame :=
  let t := transpose df in
  let t1 := mkDF (hd [] (data t)) (hd_error (index t))
                 (tl (index t)) (index_name t) (tl (data t)) in
  bind (reset_index t1)
       (fun t2 => Returns (rename_column (VStr "index") (VStr "日期") t2)).

(** Lines 196-235: the frame the lookups run on and its item column. *)
Definition locate_project_col (df : DataFrame) : outcome (DataFrame * pyval) :=
  match find (fun c => label_in (VStr c) (columns df)) project_col_candidates with
  | Some c => Returns (df, VStr c)
  | None =>
      let first_col := hd nan (columns df) in
      if existsb (fun term => existsb (str_contains term) (iloc_col 0 df))
                 statement_terms
      then Returns (df, first_col)
      else if existsb is_date_text (hd [] (data df))
      then bind (turn_table df) (fun t => Returns (t, VStr "日期"))
      else Returns (df, first_col)
  end.

(** Lines 237-253: the patterns are tried one after the other, and the
    first one that matches any row gives its first matching row.
    [KeyError] when the item column is not a column of the frame. *)
Definition find_row (df : DataFrame) (project_col : pyval)
           (patterns : list string) : outcome (option (list pyval)) :=
  match find_pos project_col (columns df) with
  | None => Raises KeyError
  | Some j =>
      Returns
        (fold_right
           (fun pattern later =>
              match find (fun r => str_contains pattern (cell r j)) (data df) with
              | Some r => Some r
              | None => later
              end) None patterns)
  end.

(** [row[label]] *)
Definition row_get (df : DataFrame) (row : list pyval) (l : pyval) : pyval :=
  match find_pos l (columns df) with
  | Some j => cell row j
  | None => nan
  end.

(** [financial_metrics[name] = row]: the row, a series labelled by the
    columns of the statement, is aligned on the row labels of the frame. *)
Definition align_on_index (df : DataFrame) (row : list pyval) : list pyval :=
  map (row_get df row) (index df).

Record metric : Type := mkMetric {
  m_date : pyval;
  m_revenue : pyfloat;
  m_profit : pyfloat
}.

(** Lines 263-266 *)
Definition metrics_by_date_column (df : DataFrame)
           (revenue_row profit_row : list pyval) : list metric :=
  map (fun t => mkMetric (fst (fst t)) (to_numeric (snd (fst t)))
                         (to_numeric (snd t)))
      (combine (combine (col_values df (VStr "日期"))
                        (align_on_index df revenue_row))
               (align_on_index df profit_row)).

(** Lines 269-293: a period is kept when both cells are numbers. *)
Definition metrics_by_period (df : DataFrame) (project_col : pyval)
           (revenue_row profit_row : list pyval) : list metric :=
  let date_cols := filter (fun c => negb (py_same c project_col)) (columns df) in
  flat_map (fun col =>
              let revenue_value := to_numeric (row_get df revenue_row col) in
              let profit_value := to_numeric (row_get df profit_row col) in
              if negb (is_nan revenue_value) && negb (is_nan profit_value)
              then [mkMetric col revenue_value profit_value]
              else [])
           date_cols.

Section WithDates.
Context {D : DateOps}.

(** Lines 303-312: newest first, then the three columns as lists.  (With
    [errors='coerce'] the conversion does not raise, so the handler that
    would keep the order is not reached.) *)
Definition sorted_series (ascending : bool) (ms : list metric)
  : list (option Z * metric) :=
  sort_values ascending (combine (to_datetime (map m_date ms)) ms).

Definition get_financial_metrics (income_statement : option DataFrame)
  : outcome (option (list pyfloat * list pyfloat * list (option Z))) :=
  match income_statement with
  | None => Returns None
  | Some df0 =>
      if df_empty df0 then Returns None
      else
        bind (locate_project_col (stringify_first_col (stringify_labels df0)))
          (fun '(df, project_col) =>
        bind (find_row df project_col revenue_patterns) (fun revenue_row =>
        bind (find_row df project_col profit_patterns) (fun profit_row =>
          match revenue_row, profit_row with
          | Some rr, Some pr =>
              let ms :=
                if label_in (VStr "日期") (columns df)
                then metrics_by_date_column df rr pr
                else metrics_by_period df project_col rr pr in
              match ms with
              | [] => Returns None
              | _ =>
                  let s := sorted_series false ms in
                  Returns (Some (map (fun r => m_revenue (snd r)) s,
                                 map (fun r => m_profit (snd r)) s,
                                 map fst s))
              end
          | _, _ => Returns None
          end)))
  end.

End WithDates.

(** Lines 336-346, one growth column:
    [[None] + [(v[i] / v[i-1] - 1) * 100 if v[i-1] != 0 else None
               for i in range(1, len(v))]] *)
Definition growth_at (v : list pyfloat) (i : nat) : option pyfloat :=
  let prev := nth (i - 1) v FNaN in
  if nonzero prev
  then Some (fmul (fsub (fdiv (nth i v FNaN) prev) (of_Z 1)) (of_Z 100))
  else None.

Definition yoy_growth (v : list pyfloat) : list (option pyfloat) :=
  None :: map (growth_at v) (seq 1 (length v - 1)).

(** [column.dropna().tolist()]: the empty cells and [nan] are left out *)
Definition dropna (col : list (option pyfloat)) : list pyfloat :=
  flat_map (fun o => match o with
                     | Some x => if is_nan x then [] else [x]
                     | None => []
                     end) col.

(** [column.dropna().mean()]: the sum from the first value to the last,
    over the count.  (The function returns its averages only when there
    are two periods, that is one growth rate at most.) *)
Definition mean_dropna (col : list (option pyfloat)) : pyfloat :=
  let kept := dropna col in
  match kept with
  | [] => FNaN
  | _ => fdiv (fold_left fadd kept (of_Z 0)) (of_Z (Z.of_nat (length kept)))
  end.

(** The frame [financial_data] once the growth columns are added, and the
    two averages of lines 349-350. *)
Record growth_table : Type := mkGrowth {
  g_dates : list (option Z);
  g_revenue : list pyfloat;
  g_profit : list pyfloat;
  g_revenue_growth : list (option pyfloat);
  g_profit_growth : list (option pyfloat);
  avg_revenue_growth : pyfloat;
  avg_profit_growth : pyfloat
}.

(** What the drawing calls ask of their data.  [plot(x, y)] takes as many
    [x] as [y]: [ValueError] otherwise. *)
Definition plt_plot {A B : Type} (x : list A) (y : list B) : outcome unit :=
  if Nat.eqb (length x) (length y) then Returns tt else Raises ValueError.

(** [bar(x, height)] brings [x] and [height] to one shape: [ValueError]
    when they differ in length and neither has length one. *)
Definition plt_bar {A B : Type} (x : list A) (height : list B) : outcome unit :=
  if Nat.eqb (length x) (length height)
     || Nat.eqb (length x) 1 || Nat.eqb (length height) 1
  then Returns tt else Raises ValueError.

(** [pie(sizes)]: [ValueError] on a negative size.  (What becomes of a
    size that is [nan] is left to the drawing.) *)
Definition plt_pie (sizes : list pyfloat) : outcome unit :=
  if existsb is_negative sizes then Raises ValueError else Returns tt.

Section WithDatesPlot.
Context {D : DateOps}.

(** Lines 321-354 of [plot_financial_metrics]: the three lists in one
    frame, put in ascending order of date, with the growth columns and
    their averages.  [ValueError] when the lists differ in length (the
    frame cannot be built).  The dates are time stamps already, and the
    cells are floats, so neither handler is entered. *)
Definition financial_data (rev prof : list pyfloat) (dates : list (option Z))
  : outcome growth_table :=
  if negb (Nat.eqb (length rev) (length prof)
           && Nat.eqb (length rev) (length dates))
  then Raises ValueError
  else
    let sorted := sort_values true (combine dates (combine rev prof)) in
    let r := map (fun x => fst (snd x)) sorted in
    let p := map (fun x => snd (snd x)) sorted in
    Returns (mkGrowth (map fst sorted) r p
                      (yoy_growth r) (yoy_growth p)
                      (mean_dropna (yoy_growth r))
                      (mean_dropna (yoy_growth p))).

(** Lines 409-476, the charts of three or more periods: the bars of the
    growth rates that are left after [dropna], one bar asked for per
    period but the first, then the pie of the latest profit against the
    latest revenue. *)
Definition growth_charts (g : growth_table) : outcome unit :=
  let x := seq 1 (length (g_dates g) - 1) in
  let revenue_growth := dropna (g_revenue_growth g) in
  let profit_growth := dropna (g_profit_growth g) in
  bind (plt_bar x revenue_growth) (fun _ =>
  bind (plt_bar x profit_growth) (fun _ =>
    let profit_ratio :=
      fmul (np_div (last (g_profit g) FNaN) (last (g_revenue g) FNaN))
           (of_Z 100) in
    let cost_ratio := fsub (of_Z 100) profit_ratio in
    plt_pie [profit_ratio; cost_ratio])).

(** [plot_financial_metrics], lines 314-508: what it returns, the
    dictionary of the two averages, and where its drawing calls raise.
    The labels of the horizontal axis stand one per date at line 364 and
    are taken again from the second date on at line 411, in the branch of
    three or more periods; the trend of line 484 is drawn over them. *)
Definition plot_financial_metrics (revenue profit : option (list pyfloat))
           (dates : list (option Z)) : outcome (option (pyfloat * pyfloat)) :=
  match revenue, profit with
  | Some rev, Some prof =>
      if (length rev <? 2)%nat then Returns None
      else
        bind (financial_data rev prof dates) (fun g =>
        let n := length (g_dates g) in
        if (n <? 2)%nat then Returns None
        else
          let x_labels := g_dates g in
          bind (plt_plot (seq 0 n) (g_revenue g)) (fun _ =>
          bind (plt_plot (seq 0 n) (g_profit g)) (fun _ =>
          bind (if (3 <=? n)%nat
                then bind (growth_charts g)
                          (fun _ => Returns (tl (g_dates g)))
                else Returns x_labels) (fun x_labels =>
          bind (plt_plot x_labels (g_revenue g)) (fun _ =>
          bind (plt_plot x_labels (g_profit g)) (fun _ =>
          bind (if (3 <=? n)%nat
                then bind (plt_bar (tl x_labels)
                                   (dropna (g_revenue_growth g)))
                          (fun _ => plt_bar (seq 0 (length (tl x_labels)))
                                            (dropna (g_profit_growth g)))
                else Returns tt) (fun _ =>
            Returns (Some (avg_revenue_growth g, avg_profit_growth g)))))))))
  | _, _ => Returns None
  end.

End WithDatesPlot.

End Metrics.

(* ================================================================== *)
(** * The ratio calculator: [get_financial_ratios] *)

Module Ratios.
Import PyStr PyFloat Pandas Metrics.

Definition asset_patterns : list string :=
  ["总资产"; "资产总计"; "资产总额"; "资产负债表"; "资产合计"; "资产总和"].

Definition equity_patterns : list string :=
  ["所有者权益"; "股东权益"; "净资产"; "所有者权益合计"; "股东权益合计";
   "权益合计"; "权益总计"; "股东权益总计"].

Definition profit_patterns : list string :=
  ["净利润"; "归属于母公司股东的净利润"; "归属于上市公司股东的净利润";
   "利润总额"; "净利"; "利润"; "净利润(含少数股东损益)";
   "净利润(扣除少数股东损益)"].

(** The text an alternative of ['|'.join(patterns)] matches: in a regular
    expression the parentheses of the last two patterns group, they are
    not characters of the text. *)
Definition regex_text (pattern : string) : string :=
  remove_char ")" (remove_char "(" pattern).

(** [Series.str.contains('|'.join(patterns), na=False, regex=True)] on
    one cell *)
Definition contains_any (patterns : list string) (v : pyval) : bool :=
  existsb (fun p => str_contains (regex_text p) v) patterns.

(** [df[df.iloc[:, 0].str.contains(...)]] *)
Definition rows_matching (patterns : list string) (df : DataFrame)
  : list (list pyval) :=
  filter (fun r => contains_any patterns (cell r 0)) (data df).

(** Lines 583-623: the joined pattern first, one looser word when it
    finds nothing. *)
Definition lookup (patterns : list string) (fallback : string)
           (df : DataFrame) : list (list pyval) :=
  match rows_matching patterns df with
  | [] => rows_matching [fallback] df
  | rows => rows
  end.

Definition asset_rows (balance_sheet : DataFrame) : list (list pyval) :=
  lookup asset_patterns "资产" balance_sheet.

Definition equity_rows (balance_sheet : DataFrame) : list (list pyval) :=
  lookup equity_patterns "权益" balance_sheet.

Definition profit_rows (income_statement : DataFrame) : list (list pyval) :=
  lookup profit_patterns "利润" income_statement.

Fixpoint insert_desc (s : string) (l : list string) : list string :=
  match l with
  | [] => [s]
  | x :: rest =>
      if String.leb x s then s :: l else x :: insert_desc s rest
  end.

(** [sorted(..., reverse=True)] on texts *)
Definition sort_desc (l : list string) : list string :=
  fold_right insert_desc [] l.

(** [sorted(set(bs_dates) & set(is_dates), reverse=True)] *)
Definition common_dates (bs_dates is_dates : list string) : list string :=
  sort_desc (nodup string_dec
                   (filter (fun d => existsb (String.eqb d) is_dates) bs_dates)).

(** [float(str(value).replace(',', ''))]; [None] stands for [ValueError] *)
Definition float_of_cell (v : pyval) : option pyfloat :=
  py_float (remove_char "," (py_str v)).

(** One entry of [ratio_data]; a ratio that is [None] there is a null
    cell of the frame built from it. *)
Record ratio_row : Type := mkRatio {
  r_date : string;
  r_total_assets : pyfloat;   (* 总资产(亿元) *)
  r_net_equity : pyfloat;     (* 净资产(亿元) *)
  r_net_profit : pyfloat;     (* 净利润(亿元) *)
  r_roa : option pyfloat;     (* ROA(%) *)
  r_roe : option pyfloat      (* ROE(%) *)
}.

Definition yi : pyfloat := of_Z 100000000.

(** Lines 665-714, one reporting date: a missing value or a text that is
    no number leaves the date out (the error is caught and reported). *)
Definition ratio_for_date (balance_sheet income_statement : DataFrame)
           (asset_row equity_row profit_row : list pyval) (date : string)
  : list ratio_row :=
  let asset_value := row_get balance_sheet asset_row (VStr date) in
  let equity_value := row_get balance_sheet equity_row (VStr date) in
  let profit_value := row_get income_statement profit_row (VStr date) in
  if notna asset_value && notna equity_value && notna profit_value then
    match float_of_cell asset_value, float_of_cell equity_value,
          float_of_cell profit_value with
    | Some total_asset, Some net_equity, Some net_profit =>
        let roa := if nonzero total_asset
                   then Some (fmul (fdiv net_profit total_asset) (of_Z 100))
                   else None in
        let roe := if nonzero net_equity
                   then Some (fmul (fdiv net_profit net_equity) (of_Z 100))
                   else None in
        [mkRatio date (fdiv total_asset yi) (fdiv net_equity yi)
                 (fdiv net_profit yi) roa roe]
    | _, _, _ => []
    end
  else [].

(** Lines 521-567: both frames with every label and the first column as
    text. *)
Definition as_text (df : DataFrame) : DataFrame :=
  stringify_first_col (stringify_labels df).

Definition period_labels (df : DataFrame) : list string :=
  map py_str (tl (columns df)).

Definition get_financial_ratios (balance_sheet income_statement : option DataFrame)
  : option (list ratio_row) :=
  match balance_sheet, income_statement with
  | Some bs0, Some is0 =>
      if df_empty bs0 || df_empty is0 then None
      else
        let bs := as_text bs0 in
        let ist := as_text is0 in
        let dates := common_dates (period_labels bs) (period_labels ist) in
        match dates with
        | [] => None
        | _ =>
            match asset_rows bs, equity_rows bs, profit_rows ist with
            | asset_row :: _, equity_row :: _, profit_row :: _ =>
                match flat_map (ratio_for_date bs ist asset_row equity_row
                                               profit_row) dates with
                | [] => None
                | rows => Some rows
                end
            | _, _, _ => None
            end
        end
  | _, _ => None
  end.

End Ratios.

(* ================================================================== *)
(** * The download operation: [download_financial_reports] *)

Module Download.
Import PyStr Pandas.

(** Lines 35-53 *)
Definition get_stock_prefix (code : string) : string :=
  if startswith_any ["0"; "3"] code then "sz"
  else if startswith_any ["6"; "9"] code then "sh"
  else if String.prefix "83" code then "bj"
  else if String.prefix "4" code then "bj"
  else if String.prefix "8" code then "bj"
  else if String.prefix "5" code then "sh"
  else if String.prefix "1" code then "sz"
  else "sz".

(** What a call to the provider does: it raises (with the text of the
    exception), or returns no frame, or returns a frame. *)
Inductive fetched : Type :=
| FetchRaises (text : string)
| FetchNone
| FetchFrame (df : DataFrame).

(** The collaborators of the download: the two provider calls, the
    writing of a file ([Some text] when it raises) and the date that
    goes into the file names. *)
Record world : Type := mkWorld {
  stock_individual_info_em : string -> fetched;
  stock_financial_report_sina : string -> string -> fetched;
  to_csv : string -> DataFrame -> option string;
  current_date : string
}.

Inductive message : Type :=
| StWarning (text : string)
| StError (text : string)
| StSuccess (text : string).

Record run : Type := mkRun {
  successful_downloads : nat;
  report_data : list (string * DataFrame);
  written : list (string * DataFrame);
  shown : list message
}.

Definition report_types : list string := ["资产负债表"; "利润表"; "现金流量表"].

Definition file_type (report_type : string) : string :=
  if String.eqb report_type "资产负债表" then "balance_sheet"
  else if String.eqb report_type "利润表" then "income_statement"
  else if String.eqb report_type "现金流量表" then "cash_flow"
  else "".

Definition data_dir : string := "financial_data".

Definition file_path (w : world) (stock_code report_type : string) : string :=
  data_dir ++ "/" ++ stock_code ++ "_" ++ file_type report_type ++ "_"
           ++ current_date w ++ ".csv".

Definition show (m : message) (r : run) : run :=
  mkRun (successful_downloads r) (report_data r) (written r)
        (shown r ++ [m])%list.

(** [report_data[report_type] = df] *)
Definition dict_set (k : string) (v : DataFrame) (d : list (string * DataFrame))
  : list (string * DataFrame) :=
  if existsb (fun p => String.eqb (fst p) k) d
  then map (fun p => if String.eqb (fst p) k then (k, v) else p) d
  else (d ++ [(k, v)])%list.

(** Lines 85-115, the body of the loop for one statement: whatever is
    raised inside is caught there and reported under the name of the
    statement. *)
Definition download_one (w : world) (stock_code full_code : string)
           (r : run) (report_type : string) : run :=
  match stock_financial_report_sina w full_code report_type with
  | FetchRaises e =>
      show (StError ("下载" ++ report_type ++ "时出错: " ++ e)) r
  | FetchNone =>
      show (StWarning ("警告: " ++ report_type ++ "没有数据")) r
  | FetchFrame df =>
      if df_empty df
      then show (StWarning ("警告: " ++ report_type ++ "没有数据")) r
      else
        let path := file_path w stock_code report_type in
        match to_csv w path df with
        | Some e =>
            show (StError ("下载" ++ report_type ++ "时出错: " ++ e)) r
        | None =>
            mkRun (S (successful_downloads r))
                  (dict_set report_type df (report_data r))
                  (written r ++ [(path, df)])%list
                  (shown r)
        end
  end.

(** Lines 66-73: the name of the stock, [未知] when it cannot be had.
    The name is the cell [股票简称] of the first row of the answer. *)
Definition stock_name_of (w : world) (stock_code : string) (r : run)
  : string * run :=
  match stock_individual_info_em w stock_code with
  | FetchRaises e => ("未知", show (StWarning ("无法获取股票名称: " ++ e)) r)
  | FetchNone =>
      ("未知",
       show (StWarning "无法获取股票名称: 'NoneType' object has no attribute 'empty'") r)
  | FetchFrame info =>
      if df_empty info then ("未知", r)
      else
        match find_pos (VStr "股票简称") (columns info),
              find_pos (VInt 0) (index info) with
        | Some j, Some i => (py_str (cell (nth i (data info) []) j), r)
        | None, _ => ("未知", show (StWarning "无法获取股票名称: '股票简称'") r)
        | _, None => ("未知", show (StWarning "无法获取股票名称: 0") r)
        end
  end.

Definition count_text (n : nat) : string := string_of_Z (Z.of_nat n).

Definition download_financial_reports (w : world) (stock_code : string)
  : option (list (string * DataFrame)) * string * run :=
  let prefix := get_stock_prefix stock_code in
  let full_code := prefix ++ stock_code in
  let '(stock_name, r0) := stock_name_of w stock_code (mkRun O [] [] []) in
  let r := fold_left (download_one w stock_code full_code) report_types r0 in
  if (0 <? successful_downloads r)%nat then
    (Some (report_data r), stock_name,
     show (StSuccess ("成功下载了 " ++ stock_code ++ "(" ++ stock_name ++ ") 的 "
                        ++ count_text (successful_downloads r) ++ " 个财务报表")) r)
  else
    (None, stock_name,
     show (StError "未能成功下载任何财务报表，请检查股票代码是否正确或稍后再试") r).

End Download.


(* ================================================================== *)
(** * Sample tables *)

Module Examples.
Import Pandas Download.

(** A provider table: text labels, rows numbered from 0, unnamed axes. *)
Definition frame (cols : list string) (rows : list (list pyval)) : DataFrame :=
  mkDF (map VStr cols) None (range_index (length rows)) None rows.

Definition balance_sheet : DataFrame :=
  frame ["项目"; "20231231"]
        [[VStr "资产总计"; VStr "1000"]; [VStr "所有者权益合计"; VStr "500"]].

Definition cash_flow : DataFrame :=
  frame ["项目"; "20231231"] [[VStr "经营活动产生的现金流量净额"; VStr "120"]].

(** The provider fails on the income statement only. *)
Definition income_statement_down : world :=
  mkWorld (fun _ => FetchFrame (frame ["股票简称"] [[VStr "贵州茅台"]]))
          (fun _ report_type =>
             if String.eqb report_type "利润表" then FetchRaises "timed out"
             else if String.eqb report_type "资产负债表" then FetchFrame balance_sheet
             else FetchFrame cash_flow)
          (fun _ _ => None)
          "20250323".

(** An income statement whose figures carry thousands separators. *)
Definition comma_statement : DataFrame :=
  frame ["项目"; "20231231"]
        [[VStr "营业收入"; VStr "1,234.50"]; [VStr "净利润"; VStr "1,000.00"]].

(** An income statement that lists the profit before tax above the net
    profit, as income statements do. *)
Definition profit_before_net : DataFrame :=
  frame ["项目"; "20231231"]
        [[VStr "利润总额"; VStr "300"]; [VStr "净利润"; VStr "200"]].

(** An income statement with the dates down the first column. *)
Definition dates_in_rows : DataFrame :=
  frame ["c0"; "营业收入"; "净利润"]
        [[VStr "2023-12-31"; VStr "100"; VStr "20"];
         [VStr "2022-12-31"; VStr "80"; VStr "15"]].

(** A balance sheet whose total assets are reported as zero. *)
Definition no_assets : DataFrame :=
  frame ["项目"; "20231231"]
        [[VStr "资产总计"; VStr "0"]; [VStr "所有者权益合计"; VStr "500"]].

(** A balance sheet whose equity is reported as zero. *)
Definition no_equity : DataFrame :=
  frame ["项目"; "20231231"]
        [[VStr "资产总计"; VStr "1,000.00"]; [VStr "所有者权益合计"; VFloat "0.0"]].

Definition income_statement : DataFrame :=
  frame ["项目"; "20231231"; "20221231"]
        [[VStr "营业总收入"; VInt 1000; VInt 800];
         [VStr "营业成本"; VInt 600; VInt 500];
         [VStr "净利润"; VInt 200; VInt 150]].

(** An income statement of three periods. *)
Definition income_three_years : DataFrame :=
  frame ["项目"; "20231231"; "20221231"; "20211231"]
        [[VStr "营业总收入"; VInt 1200; VInt 1000; VInt 800];
         [VStr "净利润"; VInt 240; VInt 200; VInt 150]].

(** A table with the dates down the first column. *)
Definition dates_down : DataFrame :=
  frame ["报表"; "营业收入"; "净利润"]
        [[VStr "20231231"; VInt 1000; VInt 200];
         [VStr "20221231"; VInt 800; VInt 150]].


(** A long table with a date column and an item column and nothing else. *)
Definition no_value_column : DataFrame :=
  frame ["REPORT_DATE"; "ITEM_NAME"]
        [[VStr "2023-12-31"; VStr "营业收入"]; [VStr "2023-12-31"; VStr "净利润"]].




(** A table built without a header: the columns are numbered. *)
Definition numbered_columns : DataFrame :=
  mkDF [VInt 0; VInt 1] None (range_index 1) None [[VStr "营业收入"; VInt 1000]].

End Examples.

(* ================================================================== *)
(** * Loading the saved statements: [load_existing_reports] *)

Module Loader.
Import PyStr Pandas Metrics.

(** What is at a path: nothing, a file [pd.read_csv] raises on, or a file
    it reads; the frame is the one [pd.read_csv(path, index_col=0)]
    returns. *)
Inductive stored : Type :=
| Absent
| Unreadable (text : string)
| Table (df : DataFrame).

(** The file system as the loader asks it: [os.path.exists] on a
    directory, and what is at the path of a file. *)
Record disk : Type := mkDisk {
  dir_exists : string -> bool;
  file_at : string -> stored
}.

Definition reports_dir (stock_code : string) : string :=
  "reports/" ++ stock_code.

Definition bs_file (stock_code : string) : string :=
  reports_dir stock_code ++ "/balance_sheet.csv".

Definition is_file (stock_code : string) : string :=
  reports_dir stock_code ++ "/income_statement.csv".

(** Lines 146-169, one statement: the file read, its labels made text;
    [None] when the file is absent or cannot be read. *)
Definition read_statement (d : disk) (path : string) : option DataFrame :=
  match file_at d path with
  | Table df => Some (stringify_labels df)
  | Absent | Unreadable _ => None
  end.

(** Lines 172-180, one statement: turned, the index brought back as a
    column, the column called ['index'] renamed. *)
Definition turn_statement (df : DataFrame) : outcome DataFrame :=
  bind (reset_index (transpose df))
       (fun t => Returns (rename_column (VStr "index") (VStr "日期") t)).

Definition turn_if_read (o : option DataFrame) : outcome (option DataFrame) :=
  match o with
  | Some df => bind (turn_statement df) (fun t => Returns (Some t))
  | None => Returns None
  end.

Definition load_existing_reports (d : disk) (stock_code : string)
  : outcome (option DataFrame * option DataFrame) :=
  if negb (dir_exists d (reports_dir stock_code)) then Returns (None, None)
  else
    let balance_sheet := read_statement d (bs_file stock_code) in
    let income_statement := read_statement d (is_file stock_code) in
    bind (turn_if_read balance_sheet) (fun bs =>
    bind (turn_if_read income_statement) (fun ist =>
      Returns (bs, ist))).

(** What the loader makes of a file read as [f], when the column axis of
    [f] has no name and no row of [f] is labelled ['index']: the header is
    [日期] followed by the row labels of [f]; there is one row per column of
    [f], its label as text first, then the cells of that column from top
    to bottom. *)
Definition turned_statement (f : DataFrame) : DataFrame :=
  mkDF (VStr "日期" :: index f)
       (index_name f)
       (range_index (length (columns f)))
       None
       (map (fun j => VStr (py_str (nth j (columns f) nan)) :: iloc_col j f)
            (seq 0 (length (columns f)))).

End Loader.

(* ================================================================== *)
(** * The download from the second provider: [download_financial_reports_em] *)

Module DownloadEM.
Import PyStr Pandas Normalizer.

(** The collaborators: those of the first download (the name of the
    stock, the first provider, the writing of a file, the date) and the
    functions of the second provider.  Each call site has its own answer:
    [stock_financial_abstract] is called for the balance sheet and for the
    income statement, and the two calls need not agree. *)
Record sources : Type := mkSources {
  base : Download.world;
  stock_balance_sheet_by_report_em : string -> Download.fetched;
  stock_profit_sheet_by_report_em : string -> Download.fetched;
  stock_cash_flow_sheet_by_report_em : string -> Download.fetched;
  stock_financial_abstract : string -> string -> Download.fetched
}.

(** [if x is None or x.empty: raise ValueError(...)] after a call, inside
    the [try] of that call: an answer is taken when it is a frame that is
    not empty. *)
Definition usable (f : Download.fetched) : option DataFrame :=
  match f with
  | Download.FetchFrame df => if df_empty df then None else Some df
  | Download.FetchRaises _ | Download.FetchNone => None
  end.

(** The nested [try] blocks of one statement (lines 1056-1080): the
    sources are asked one after the other until one answers.  Returns the
    names of the functions called and the frame taken. *)
Fixpoint first_usable (attempts : list (string * Download.fetched))
  : list string * option DataFrame :=
  match attempts with
  | [] => ([], None)
  | (name, f) :: rest =>
      match usable f with
      | Some df => ([name], Some df)
      | None =>
          let '(asked, found) := first_usable rest in (name :: asked, found)
      end
  end.

Definition sina_attempt (s : sources) (stock_code report_type : string)
  : string * Download.fetched :=
  ("stock_financial_report_sina",
   Download.stock_financial_report_sina (base s)
     (Download.get_stock_prefix stock_code ++ stock_code) report_type).

(** Lines 1054-1080, 1091-1117 and 1128-1146: the sources of each
    statement, in the order they are tried. *)
Definition attempts (s : sources) (stock_code report_type : string)
  : list (string * Download.fetched) :=
  if String.eqb report_type "资产负债表" then
    [("stock_balance_sheet_by_report_em",
      stock_balance_sheet_by_report_em s stock_code);
     ("stock_financial_abstract",
      stock_financial_abstract s report_type stock_code);
     sina_attempt s stock_code report_type]
  else if String.eqb report_type "利润表" then
    [("stock_profit_sheet_by_report_em",
      stock_profit_sheet_by_report_em s stock_code);
     ("stock_financial_abstract",
      stock_financial_abstract s report_type stock_code);
     sina_attempt s stock_code report_type]
  else
    [("stock_cash_flow_sheet_by_report_em",
      stock_cash_flow_sheet_by_report_em s stock_code);
     sina_attempt s stock_code report_type].

(** [any('DATE' in col for col in columns)]: the labels are tested in
    order up to the first that holds [DATE]; the test raises on a label
    that is no text. *)
Fixpoint any_date_label (labels : list pyval) : outcome bool :=
  match labels with
  | [] => Returns false
  | VStr col :: rest =>
      if contains "DATE" col then Returns true else any_date_label rest
  | _ :: _ => Raises TypeError
  end.

(** Lines 1189, 1209 and 1229:
    ['REPORT_DATE' in df.columns or any('DATE' in col for col in df.columns)] *)
Definition needs_conversion (df : DataFrame) : outcome bool :=
  if label_in (VStr "REPORT_DATE") (columns df) then Returns true
  else any_date_label (columns df).

(** Lines 1189-1194: the statement as it goes into [report_data]. *)
Definition converted (df : DataFrame) : outcome DataFrame :=
  bind (needs_conversion df)
       (fun em => if em then convert_em_to_sina_format (Some df)
                  else Returns df).

(** What sends the function to its last handler (line 1261). *)
Inductive failure : Type :=
| ToCsvRaised (text : string)
| Raised (e : pyexn).

Record run : Type := mkRun {
  calls : list (string * string);        (* statement, function called *)
  written : list (string * DataFrame);   (* files written *)
  report_data : list (string * DataFrame);
  successful_downloads : nat;
  failed : option failure
}.

Definition file_path (s : sources) (stock_code report_type : string) : string :=
  Download.data_dir ++ "/" ++ stock_code ++ "_"
    ++ Download.file_type report_type ++ "_em_"
    ++ Download.current_date (base s) ++ ".csv".

(** Lines 1049-1153, one statement: its sources are asked. *)
Definition fetch (s : sources) (stock_code : string) (r : run)
           (report_type : string) : run * option DataFrame :=
  let '(asked, found) := first_usable (attempts s stock_code report_type) in
  (mkRun (calls r ++ map (fun name => (report_type, name)) asked)%list
         (written r) (report_data r) (successful_downloads r) (failed r),
   found).

(** Lines 1179-1236, one statement: the file is written, then the frame
    is converted when it has a date column and stored.  Nothing here is
    inside a [try] of its own: what is raised ends the whole function. *)
Definition keep (s : sources) (stock_code : string) (r : run)
           (statement : string * option DataFrame) : run :=
  let '(report_type, found) := statement in
  match failed r, found with
  | Some _, _ => r
  | None, None => r
  | None, Some df =>
      let path := file_path s stock_code report_type in
      match Download.to_csv (base s) path df with
      | Some e =>
          mkRun (calls r) (written r) (report_data r)
                (successful_downloads r) (Some (ToCsvRaised e))
      | None =>
          let saved := (written r ++ [(path, df)])%list in
          match converted df with
          | Raises e =>
              mkRun (calls r) saved (report_data r)
                    (successful_downloads r) (Some (Raised e))
          | Returns t =>
              mkRun (calls r) saved
                    (Download.dict_set report_type t (report_data r))
                    (S (successful_downloads r)) None
          end
      end
  end.

(** Lines 1028-1265.  The three statements are fetched, then the three
    are kept; the name of the stock is found as in the first download. *)
Definition download_financial_reports_em (s : sources) (stock_code : string)
  : option (list (string * DataFrame)) * string * run :=
  let stock_name :=
    fst (Download.stock_name_of (base s) stock_code (Download.mkRun O [] [] [])) in
  let r0 := mkRun [] [] [] O None in
  let '(r1, balance_sheet) := fetch s stock_code r0 "资产负债表" in
  let '(r2, income_statement) := fetch s stock_code r1 "利润表" in
  let '(r3, cash_flow) := fetch s stock_code r2 "现金流量表" in
  let r := fold_left (keep s stock_code)
                     [("资产负债表", balance_sheet);
                      ("利润表", income_statement);
                      ("现金流量表", cash_flow)] r3 in
  match failed r with
  | Some _ => (None, "未知", r)
  | None =>
      if (0 <? successful_downloads r)%nat
      then (Some (report_data r), stock_name, r)
      else (None, stock_name, r)
  end.

End DownloadEM.

(* ================================================================== *)
(** * The rows of the ratio charts: [plot_financial_ratios] *)

Module RatioChart.
Import Ratios.

(** What the charts are drawn from: the rows of the trend charts
    ([df_plot]) and the row of the two charts of the latest period
    ([latest_data]). *)
Record chart : Type := mkChart {
  df_plot : list ratio_row;
  latest_data : option ratio_row
}.

(** Lines 733-765, 825 and 976, for a table that [get_financial_ratios]
    built (it has the columns asked for at line 739): nothing is drawn
    from fewer than two rows; the trend charts take the first 15 rows
    when there are more, in reverse order; the latest period is the first
    row of the table. *)
Definition plot_financial_ratios (ratio_df : option (list ratio_row))
  : option chart :=
  match ratio_df with
  | None => None
  | Some rows =>
      if (length rows <? 2)%nat then None
      else
        let kept := if (15 <? length rows)%nat then firstn 15 rows else rows in
        Some (mkChart (rev kept) (hd_error rows))
  end.

End RatioChart.

(* ================================================================== *)
(** * Saving the yearly statements: the end of [download_annual_reports_em] *)

Module DownloadAnnual.
Import PyStr Pandas Metrics.

(** The collaborators of lines 1677-1835: the creation of the directory
    ([Some text] when it raises), and the writing of a file and the first
    provider as in the first download.  [to_csv] answers the same for the
    same file and table. *)
Record world : Type := mkWorld {
  base : Download.world;
  makedirs : string -> option string
}.

Record run : Type := mkRun {
  written : list (string * DataFrame);
  has_valid_data : bool
}.

Definition remove_at {A : Type} (j : nat) (l : list A) : list A :=
  (firstn j l ++ skipn (S j) l)%list.

(** [df.set_index(label)] for a label that names one column *)
Definition set_index (l : pyval) (df : DataFrame) : outcome DataFrame :=
  match find_pos l (columns df) with
  | None => Raises KeyError
  | Some j =>
      Returns (mkDF (remove_at j (columns df)) (columns_name df)
                    (iloc_col j df) (Some l)
                    (map (remove_at j) (data df)))
  end.

Definition raw_path (stock_code name : string) : string :=
  Loader.reports_dir stock_code ++ "/" ++ name ++ "_raw.csv".

Definition processed_path (stock_code name : string) : string :=
  Loader.reports_dir stock_code ++ "/" ++ name ++ ".csv".

Definition add (path : string) (df : DataFrame) (r : run) : run :=
  mkRun (written r ++ [(path, df)])%list (has_valid_data r).

(** Lines 1689-1709, the body of the [try] of one statement: the run so
    far, and whether something was raised. *)
Definition save_body (w : world) (stock_code name : string)
           (df : DataFrame) (r : run) : run * bool :=
  if label_in (VStr "REPORT_DATE") (columns df) then
    match Download.to_csv (base w) (raw_path stock_code name) df with
    | Some _ => (r, true)
    | None =>
        let r1 := add (raw_path stock_code name) df r in
        match set_index (VStr "REPORT_DATE") df with
        | Raises _ => (r1, true)
        | Returns indexed =>
            let processed := transpose indexed in
            match Download.to_csv (base w) (processed_path stock_code name)
                                  processed with
            | Some _ => (r1, true)
            | None => (add (processed_path stock_code name) processed r1, false)
            end
        end
    end
  else
    match Download.to_csv (base w) (raw_path stock_code name) df with
    | Some _ => (r, true)
    | None => (add (raw_path stock_code name) df r, false)
    end.

(** Lines 1685-1718, one statement: a table that is not empty counts as
    valid data before anything is saved; when saving raises, the raw table
    is written once more, and what that raises is dropped. *)
Definition save_statement (w : world) (stock_code : string) (r : run)
           (statement : string * option DataFrame) : run :=
  let '(name, found) := statement in
  match found with
  | None => r
  | Some df0 =>
      if df_empty df0 then r
      else
        let df := stringify_labels df0 in
        let '(r1, raised) :=
          save_body w stock_code name df (mkRun (written r) true) in
        if raised then
          match Download.to_csv (base w) (raw_path stock_code name) df with
          | Some _ => r1
          | None => add (raw_path stock_code name) df r1
          end
        else r1
  end.

(** Lines 1805-1825, one report type of the fallback on the first
    provider, tried when no statement was valid. *)
Definition sina_fallback (w : world) (stock_code : string) (r : run)
           (report_type : string) : run :=
  match Download.stock_financial_report_sina (base w)
          (Download.get_stock_prefix stock_code ++ stock_code) report_type with
  | Download.FetchFrame df =>
      if df_empty df then r
      else
        let path := processed_path stock_code (Download.file_type report_type) in
        match Download.to_csv (base w) path df with
        | Some _ => r
        | None => mkRun (written r ++ [(path, df)])%list true
        end
  | Download.FetchRaises _ | Download.FetchNone => r
  end.

(** Lines 1677-1835 of [download_annual_reports_em], from the three
    tables the first part of the function has acquired ([None] for a
    statement it could not get): what is written, and the value returned. *)
Definition save_annual_reports (w : world) (stock_code : string)
           (balance_sheet income_statement cash_flow : option DataFrame)
  : bool * run :=
  match makedirs w (Loader.reports_dir stock_code) with
  | Some _ => (false, mkRun [] false)
  | None =>
      let r := fold_left (save_statement w stock_code)
                         [("balance_sheet", balance_sheet);
                          ("income_statement", income_statement);
                          ("cash_flow", cash_flow)]
                         (mkRun [] false) in
      let r' := if has_valid_data r then r
                else fold_left (sina_fallback w stock_code)
                               Download.report_types r in
      (has_valid_data r', r')
  end.

(** A table that counts as valid data (lines 1685, 1722 and 1759). *)
Definition valid (found : option DataFrame) : Prop :=
  exists df, found = Some df /\ df_empty df = false.

(** Where a file comes from: a statement written as it is, or turned with
    its report dates as header. *)
Definition origin (stock_code : string)
           (statements : list (string * option DataFrame))
           (file : string * DataFrame) : Prop :=
  exists name df0,
    In (name, Some df0) statements /\ df_empty df0 = false
    /\ ((fst file = raw_path stock_code name
         /\ snd file = stringify_labels df0)
        \/ (fst file = processed_path stock_code name
            /\ exists indexed,
                 set_index (VStr "REPORT_DATE") (stringify_labels df0)
                 = Returns indexed
                 /\ snd file = transpose indexed)).

(** Where a file of the fallback comes from. *)
Definition from_sina (w : world) (stock_code : string)
           (file : string * DataFrame) : Prop :=
  exists report_type,
    In report_type Download.report_types
    /\ fst file = processed_path stock_code (Download.file_type report_type)
    /\ Download.stock_financial_report_sina (base w)
         (Download.get_stock_prefix stock_code ++ stock_code) report_type
       = Download.FetchFrame (snd file)
    /\ df_empty (snd file) = false.

End DownloadAnnual.

(** ** Reading a cell back *)

Module Reading.
Import Pandas.

(** Two cells hold the same value: they are equal as pandas compares them
    ([==]), or both are missing.  A number keeps its value, not its type,
    when pandas moves it to a column of another type (an integer beside a
    [nan] is stored as a float). *)
Definition same_value (a b : pyval) : Prop :=
  py_eq a b = true \/ (isna a = true /\ isna b = true).

End Reading.

(** ** Further tables *)

Module Samples.
Import Pandas Download Examples.

(** A long statement: one row per date and item, the amount beside
    them.  The revenue of 2023 is listed twice. *)
Definition long_statement : DataFrame :=
  frame ["REPORT_DATE"; "ITEM_NAME"; "AMOUNT"]
        [[VStr "2023-12-31"; VStr "营业收入"; VInt 1000];
         [VStr "2023-12-31"; VStr "净利润"; VInt 200];
         [VStr "2022-12-31"; VStr "营业收入"; VInt 800];
         [VStr "2023-12-31"; VStr "营业收入"; VInt 999]].

(** Two statements that list the older year first. *)
Definition balance_sheet_two_years : DataFrame :=
  frame ["项目"; "20221231"; "20231231"]
        [[VStr "资产总计"; VInt 900; VInt 1000];
         [VStr "所有者权益合计"; VInt 400; VInt 500]].

Definition income_statement_two_years : DataFrame :=
  frame ["项目"; "20221231"; "20231231"]
        [[VStr "营业总收入"; VInt 800; VInt 1000];
         [VStr "净利润"; VInt 150; VInt 200]].

(** What [pd.read_csv(path, index_col=0)] returns for a saved income
    statement with one row per item and one column per reporting date,
    whose first header cell is empty. *)
Definition income_file : DataFrame :=
  mkDF [VStr "2022-12-31"; VStr "2023-12-31"] None
       [VStr "营业总收入"; VStr "净利润"] None
       [[VInt 800; VInt 1000]; [VInt 150; VInt 200]].

(** The directory of stock 600519 with an income statement and a balance
    sheet that cannot be read. *)
Definition saved_statements : Loader.disk :=
  Loader.mkDisk
    (fun path => String.eqb path "reports/600519")
    (fun path =>
       if String.eqb path "reports/600519/income_statement.csv"
       then Loader.Table income_file
       else if String.eqb path "reports/600519/balance_sheet.csv"
       then Loader.Unreadable "No columns to parse from file"
       else Loader.Absent).

(** The second provider answers for the balance sheet only, with a long
    table; the first provider has the cash flow statement and fails on the
    income statement. *)
Definition em_sources : DownloadEM.sources :=
  DownloadEM.mkSources
    income_statement_down
    (fun _ => FetchFrame long_statement)
    (fun _ => FetchRaises "timed out")
    (fun _ => FetchNone)
    (fun _ _ => FetchNone).

(** The second provider answers for the balance sheet and the income
    statement; the file of the income statement cannot be written. *)
Definition em_sources_disk_full : DownloadEM.sources :=
  DownloadEM.mkSources
    (mkWorld (fun _ => FetchFrame (frame ["股票简称"] [[VStr "贵州茅台"]]))
             (fun _ _ => FetchNone)
             (fun path _ =>
                if PyStr.contains "income_statement" path
                then Some "No space left on device" else None)
             "20250323")
    (fun _ => FetchFrame long_statement)
    (fun _ => FetchFrame income_statement)
    (fun _ => FetchNone)
    (fun _ _ => FetchNone).

End Samples.

(* ================================================================== *)
(** * Properties *)

(** ** An implementation of the date operations *)

Module DatesFacts.
Import Pandas Dates.

Lemma key_leb_le asc a b : key_leb asc a b = true <-> key_le asc a b.
Proof.
  destruct a as [x|], b as [y|]; simpl; try (intuition congruence).
  destruct asc; apply Z.leb_le.
Qed.

Lemma key_le_total asc a b : key_leb asc a b = false -> key_le asc b a.
Proof.
  destruct a as [x|], b as [y|]; simpl; try congruence; try tauto.
  destruct asc; intros H; apply Z.leb_gt in H; lia.
Qed.

Lemma key_le_trans asc a b c :
  key_le asc a b -> key_le asc b c -> key_le asc a c.
Proof.
  destruct a as [x|], b as [y|], c as [z|]; simpl; try tauto.
  destruct asc; lia.
Qed.

Section Insertion.
Variable A : Type.
Variable asc : bool.
Implicit Types (x : option Z * A) (l : list (option Z * A)).

Definition ord (x y : option Z * A) : Prop := key_le asc (fst x) (fst y).

Lemma insert_row_perm x l : Permutation (x :: l) (insert_row asc x l).
Proof.
  induction l as [|y l IH]; simpl.
  - apply Permutation_refl.
  - destruct (key_leb asc (fst x) (fst y)).
    + apply Permutation_refl.
    + eapply perm_trans; [apply perm_swap|].
      now apply perm_skip.
Qed.

Lemma insertion_sort_perm l : Permutation l (insertion_sort asc l).
Proof.
  induction l as [|x l IH]; simpl.
  - apply perm_nil.
  - eapply perm_trans; [apply perm_skip, IH|apply insert_row_perm].
Qed.

Lemma insert_row_sorted x l :
  StronglySorted ord l -> StronglySorted ord (insert_row asc x l).
Proof.
  induction 1 as [|y l Hs IH Hall]; simpl.
  - constructor; constructor.
  - destruct (key_leb asc (fst x) (fst y)) eqn:E.
    + apply key_leb_le in E.
      constructor; [now constructor|].
      constructor; [exact E|].
      eapply Forall_impl; [|exact Hall].
      intros z Hz. unfold ord in *. eapply key_le_trans; eassumption.
    + apply key_le_total in E.
      constructor; [exact IH|].
      eapply Permutation_Forall; [apply insert_row_perm|].
      constructor; assumption.
Qed.

Lemma insertion_sort_sorted l : StronglySorted ord (insertion_sort asc l).
Proof.
  induction l as [|x l IH]; simpl.
  - constructor.
  - now apply insert_row_sorted.
Qed.

End Insertion.

#[export] Instance simple_dates : DateOps := {|
  to_datetime := map day_of;
  to_datetime_length := fun l => length_map day_of l;
  sort_values := @insertion_sort;
  sort_values_perm := insertion_sort_perm;
  sort_values_sorted := insertion_sort_sorted
|}.

End DatesFacts.

(* ================================================================== *)
(** ** Growth rates *)

Module GrowthFacts.
Import PyFloat Pandas Dates Metrics DatesFacts.

Lemma q_is_zero_iff (q : Q) : q_is_zero q = true <-> q == 0.
Proof.
  unfold q_is_zero, Qeq. simpl. rewrite Z.eqb_eq. lia.
Qed.

Lemma yoy_growth_length (v : list pyfloat) :
  length (yoy_growth v) = S (length v - 1).
Proof.
  unfold yoy_growth. simpl. now rewrite length_map, length_seq.
Qed.

Lemma yoy_growth_head (v : list pyfloat) : nth_error (yoy_growth v) 0 = Some None.
Proof. reflexivity. Qed.

Lemma yoy_growth_nth (v : list pyfloat) (i : nat) :
  (1 <= i < length v)%nat ->
  nth_error (yoy_growth v) i = Some (growth_at v i).
Proof.
  intros Hi. destruct i as [|k]; [lia|].
  unfold yoy_growth. simpl.
  apply map_nth_error.
  rewrite (nth_error_nth' _ O) by (rewrite length_seq; lia).
  rewrite seq_nth by lia. reflexivity.
Qed.

(** On finite values with a base that is not zero the growth is the
    quotient [a / b], rounded, less one, times a hundred. *)
Lemma growth_formula_finite (a b : Q) :
  ~ b == 0 ->
  fmul (fsub (fdiv (FFin a) (FFin b)) (of_Z 1)) (of_Z 100)
  = fmul (fsub (fin (a / b)) (of_Z 1)) (of_Z 100).
Proof. reflexivity. Qed.

Lemma sorted_keys {A : Type} asc (l : list (option Z * A)) :
  StronglySorted (fun x y => key_le asc (fst x) (fst y)) l ->
  StronglySorted (key_le asc) (map fst l).
Proof.
  induction 1 as [|x l Hs IH Hall]; simpl; constructor; auto.
  rewrite Forall_map. exact Hall.
Qed.

Lemma combine_rows {A B C : Type} (s : list (A * (B * C))) :
  combine (map fst s)
          (combine (map (fun x => fst (snd x)) s)
                   (map (fun x => snd (snd x)) s)) = s.
Proof.
  induction s as [|[d [r p]] s IH]; simpl; [reflexivity|]. now rewrite IH.
Qed.

Section Plot.
Context {D : DateOps}.

(** What [financial_data] holds after line 346. *)
Lemma financial_data_inv rev prof dates g :
  financial_data rev prof dates = Returns g ->
  StronglySorted (key_le true) (g_dates g)
  /\ g_revenue_growth g = yoy_growth (g_revenue g)
  /\ g_profit_growth g = yoy_growth (g_profit g)
  /\ avg_revenue_growth g = mean_dropna (g_revenue_growth g)
  /\ avg_profit_growth g = mean_dropna (g_profit_growth g)
  /\ Permutation (combine dates (combine rev prof))
                 (combine (g_dates g) (combine (g_revenue g) (g_profit g))).
Proof.
  unfold financial_data.
  destruct (negb _); [discriminate|].
  intros H. injection H as <-. simpl.
  split; [apply sorted_keys, sort_values_sorted|].
  repeat (split; [reflexivity|]).
  rewrite combine_rows. apply sort_values_perm.
Qed.

(** Lists of one length can be put in one frame. *)
Lemma financial_data_returns rev prof dates :
  length prof = length rev -> length dates = length rev ->
  exists g, financial_data rev prof dates = Returns g
            /\ length (g_dates g) = length rev
            /\ length (g_revenue g) = length rev
            /\ length (g_profit g) = length rev.
Proof.
  intros Hp Hd. unfold financial_data.
  rewrite Hp, Hd, !Nat.eqb_refl. simpl. eexists. split; [reflexivity|].
  simpl. rewrite !length_map.
  rewrite <- (Permutation_length (sort_values_perm true _)).
  rewrite !length_combine. lia.
Qed.

End Plot.

End GrowthFacts.

(** C6.  Year-over-year growth in [plot_financial_metrics], lines 321-346.
    Revenue, profit and dates of two or more periods, one of each per
    period, are put in one frame: its rows are the periods given, in
    ascending order of date.  In both growth columns the earliest period
    has no value; the growth of a later period [i] is
    [(value[i] / value[i-1] - 1) * 100] when the value of the period before
    is not zero, and it is null when that value is exactly zero. *)
Theorem yoy_growth_base_zero_rule
  (D : Dates.DateOps) (rev prof : list PyFloat.pyfloat)
  (dates : list (option Z)) :
  (2 <= length rev)%nat ->
  length prof = length rev -> length dates = length rev ->
  let growth_of (v : list PyFloat.pyfloat) (i : nat) :=
    PyFloat.fmul (PyFloat.fsub (PyFloat.fdiv (nth i v PyFloat.FNaN)
                                             (nth (i - 1) v PyFloat.FNaN))
                               (PyFloat.of_Z 1))
                 (PyFloat.of_Z 100) in
  let rule (v : list PyFloat.pyfloat) (growth : list (option PyFloat.pyfloat)) :=
    length growth = length rev
    /\ nth_error growth 0 = Some None
    /\ forall i, (1 <= i < length rev)%nat ->
         (PyFloat.nonzero (nth (i - 1) v PyFloat.FNaN) = true ->
          nth_error growth i = Some (Some (growth_of v i)))
         /\ (forall b, nth (i - 1) v PyFloat.FNaN = PyFloat.FFin b -> b == 0 ->
             nth_error growth i = Some None)
         /\ (forall a b, nth i v PyFloat.FNaN = PyFloat.FFin a ->
                         nth (i - 1) v PyFloat.FNaN = PyFloat.FFin b ->
                         ~ b == 0 ->
                         nth_error growth i
                         = Some (Some (PyFloat.fmul
                                         (PyFloat.fsub (PyFloat.fin (a / b))
                                                       (PyFloat.of_Z 1))
                                         (PyFloat.of_Z 100)))) in
  exists g,
    Metrics.financial_data rev prof dates = Pandas.Returns g
    /\ Permutation (combine dates (combine rev prof))
                   (combine (Metrics.g_dates g)
                            (combine (Metrics.g_revenue g) (Metrics.g_profit g)))
    /\ StronglySorted (Dates.key_le true) (Metrics.g_dates g)
    /\ rule (Metrics.g_revenue g) (Metrics.g_revenue_growth g)
    /\ rule (Metrics.g_profit g) (Metrics.g_profit_growth g).
Proof.
  intros H2 Hp Hd growth_of rule.
  destruct (GrowthFacts.financial_data_returns rev prof dates Hp Hd)
    as (g & Hrun & _ & Hlr & Hlp).
  destruct (GrowthFacts.financial_data_inv _ _ _ Hrun)
    as (Hsorted & Hr & Hg & _ & _ & Hperm).
  assert (Hrule : forall v, length v = length rev ->
                            rule v (Metrics.yoy_growth v)).
  { intros v Hv. unfold rule.
    split; [rewrite GrowthFacts.yoy_growth_length; lia|].
    split; [reflexivity|].
    intros i Hi.
    rewrite (@GrowthFacts.yoy_growth_nth v i) by lia.
    unfold Metrics.growth_at.
    split; [intros ->; reflexivity|].
    split.
    - intros b -> Hz. apply GrowthFacts.q_is_zero_iff in Hz.
      unfold PyFloat.nonzero. now rewrite Hz.
    - intros a b Ha Hb Hnz. rewrite Ha, Hb.
      unfold PyFloat.nonzero.
      destruct (PyFloat.q_is_zero b) eqn:Ez.
      + apply GrowthFacts.q_is_zero_iff in Ez. contradiction.
      + reflexivity. }
  exists g. split; [exact Hrun|]. split; [exact Hperm|].
  split; [exact Hsorted|]. rewrite Hr, Hg.
  split; apply Hrule; assumption.
Qed.

(** The edge case of the specification: revenues 100, 0, 50 in ascending
    order of date (given newest first, as the extractor returns them). *)
Lemma yoy_growth_base_zero_rule_witness :
  exists g,
    Metrics.financial_data (D := DatesFacts.simple_dates)
      [PyFloat.of_Z 50; PyFloat.of_Z 0; PyFloat.of_Z 100]
      [PyFloat.of_Z 30; PyFloat.of_Z 20; PyFloat.of_Z 10]
      [Some 20231231; Some 20221231; Some 20211231]
    = Pandas.Returns g
    /\ Metrics.g_revenue g
       = [PyFloat.of_Z 100; PyFloat.of_Z 0; PyFloat.of_Z 50]
    /\ nth_error (Metrics.g_revenue_growth g) 0 = Some None
    /\ nth_error (Metrics.g_revenue_growth g) 1
       = Some (Some (PyFloat.FFin (-100)))
    /\ nth_error (Metrics.g_revenue_growth g) 2 = Some None.
Proof.
  destruct (@yoy_growth_base_zero_rule
              DatesFacts.simple_dates
              [PyFloat.of_Z 50; PyFloat.of_Z 0; PyFloat.of_Z 100]
              [PyFloat.of_Z 30; PyFloat.of_Z 20; PyFloat.of_Z 10]
              [Some 20231231; Some 20221231; Some 20211231]
              (le_S _ _ (le_n 2)) eq_refl eq_refl)
    as (g & Hrun & _ & _ & (_ & H0 & Hrule) & _).
  exists g. split; [exact Hrun|].
  assert (Hg : Metrics.g_revenue g
               = [PyFloat.of_Z 100; PyFloat.of_Z 0; PyFloat.of_Z 50]).
  { vm_compute in Hrun. injection Hrun as <-. vm_compute. reflexivity. }
  split; [exact Hg|]. split; [exact H0|].
  destruct (Hrule 1%nat (conj (le_n 1) (le_S _ _ (le_n 2)))) as (H1 & _ & _).
  destruct (Hrule 2%nat (conj (le_S _ _ (le_n 1)) (le_n 3))) as (_ & H2 & _).
  rewrite Hg in H1, H2. split.
  - rewrite H1 by reflexivity. vm_compute. reflexivity.
  - apply (H2 0%Q); reflexivity.
Defined.

(* ================================================================== *)
(** ** The download operation *)

Module DownloadFacts.
Import Pandas Download.

(** Looking up the name of the stock downloads nothing. *)
Lemma stock_name_of_fresh w stock_code name r :
  stock_name_of w stock_code (mkRun O [] [] []) = (name, r) ->
  successful_downloads r = O /\ report_data r = [] /\ written r = [].
Proof.
  unfold stock_name_of.
  destruct (stock_individual_info_em w stock_code) as [e| |info].
  - intros H. injection H as <- <-. now simpl.
  - intros H. injection H as <- <-. now simpl.
  - destruct (df_empty info).
    + intros H. injection H as <- <-. now simpl.
    + destruct (find_pos _ (columns info)) as [j|];
        [destruct (find_pos _ (index info)) as [i|]|];
        intros H; injection H as <- <-; now simpl.
Qed.

(** A fetch that raises is reported under the name of its statement and
    changes nothing else. *)
Lemma download_one_raises w stock_code full_code r report_type e :
  stock_financial_report_sina w full_code report_type = FetchRaises e ->
  download_one w stock_code full_code r report_type
  = show (StError ("下载" ++ report_type ++ "时出错: " ++ e)) r.
Proof. unfold download_one. now intros ->. Qed.

(** A statement that is fetched and written is counted and kept. *)
Lemma download_one_succeeds w stock_code full_code r report_type df :
  stock_financial_report_sina w full_code report_type = FetchFrame df ->
  df_empty df = false ->
  to_csv w (file_path w stock_code report_type) df = None ->
  download_one w stock_code full_code r report_type
  = mkRun (S (successful_downloads r))
          (dict_set report_type df (report_data r))
          (written r ++ [(file_path w stock_code report_type, df)])%list
          (shown r).
Proof. unfold download_one. now intros -> -> ->. Qed.

End DownloadFacts.

(** C9.  Partial failure of a download: when the fetch of one statement
    raises and the two other statements are fetched and written, the error
    is reported under the name of the failed statement, the two others are
    returned and saved, and the success message counts 2 statements. *)
Theorem partial_statement_failure_isolated
  (w : Download.world) (stock_code failed e : string) :
  let full_code := Download.get_stock_prefix stock_code ++ stock_code in
  In failed Download.report_types ->
  Download.stock_financial_report_sina w full_code failed
    = Download.FetchRaises e ->
  (forall t, In t Download.report_types -> t <> failed ->
     exists df,
       Download.stock_financial_report_sina w full_code t = Download.FetchFrame df
       /\ Pandas.df_empty df = false
       /\ Download.to_csv w (Download.file_path w stock_code t) df = None) ->
  exists data name r t1 d1 t2 d2,
    Download.download_financial_reports w stock_code = (Some data, name, r)
    /\ filter (fun t => negb (String.eqb t failed)) Download.report_types
       = [t1; t2]
    /\ Download.stock_financial_report_sina w full_code t1 = Download.FetchFrame d1
    /\ Download.stock_financial_report_sina w full_code t2 = Download.FetchFrame d2
    /\ data = [(t1, d1); (t2, d2)]
    /\ Download.written r = [(Download.file_path w stock_code t1, d1);
                             (Download.file_path w stock_code t2, d2)]
    /\ Download.successful_downloads r = 2%nat
    /\ In (Download.StError ("下载" ++ failed ++ "时出错: " ++ e))
          (Download.shown r)
    /\ In (Download.StSuccess
             ("成功下载了 " ++ stock_code ++ "(" ++ name ++ ") 的 2 个财务报表"))
          (Download.shown r).
Proof.
  intros full_code Hin Hfail Hothers.
  assert (Hget : forall t, In t Download.report_types -> String.eqb t failed = false ->
            exists df,
              Download.stock_financial_report_sina w full_code t = Download.FetchFrame df
              /\ Pandas.df_empty df = false
              /\ Download.to_csv w (Download.file_path w stock_code t) df = None).
  { intros t Ht Hne. apply Hothers; [exact Ht|].
    intros ->. now rewrite String.eqb_refl in Hne. }
  unfold Download.download_financial_reports. fold full_code.
  destruct (Download.stock_name_of w stock_code (Download.mkRun O [] [] []))
    as [name r0] eqn:Ename.
  destruct (DownloadFacts.stock_name_of_fresh _ _ Ename) as (Hn & Hd & Hw).
  destruct r0 as [n rd wr sh]. simpl in Hn, Hd, Hw. subst n rd wr.
  unfold Download.report_types in *.
  destruct Hin as [<-|[<-|[<-|[]]]].
  - destruct (Hget "利润表") as (d1 & F1 & E1 & S1); [simpl; tauto|reflexivity|].
    destruct (Hget "现金流量表") as (d2 & F2 & E2 & S2); [simpl; tauto|reflexivity|].
    cbn [fold_left].
    rewrite (@DownloadFacts.download_one_raises w stock_code full_code _ _ e Hfail).
    rewrite (@DownloadFacts.download_one_succeeds w stock_code full_code _ _ d1 F1 E1 S1).
    rewrite (@DownloadFacts.download_one_succeeds w stock_code full_code _ _ d2 F2 E2 S2).
    do 3 eexists. exists "利润表", d1, "现金流量表", d2.
    split; [reflexivity|].
    repeat split; try reflexivity; try assumption;
      cbn [Download.shown Download.show]; rewrite !in_app_iff; simpl; tauto.
  - destruct (Hget "资产负债表") as (d1 & F1 & E1 & S1); [simpl; tauto|reflexivity|].
    destruct (Hget "现金流量表") as (d2 & F2 & E2 & S2); [simpl; tauto|reflexivity|].
    cbn [fold_left].
    rewrite (@DownloadFacts.download_one_succeeds w stock_code full_code _ _ d1 F1 E1 S1).
    rewrite (@DownloadFacts.download_one_raises w stock_code full_code _ _ e Hfail).
    rewrite (@DownloadFacts.download_one_succeeds w stock_code full_code _ _ d2 F2 E2 S2).
    do 3 eexists. exists "资产负债表", d1, "现金流量表", d2.
    split; [reflexivity|].
    repeat split; try reflexivity; try assumption;
      cbn [Download.shown Download.show]; rewrite !in_app_iff; simpl; tauto.
  - destruct (Hget "资产负债表") as (d1 & F1 & E1 & S1); [simpl; tauto|reflexivity|].
    destruct (Hget "利润表") as (d2 & F2 & E2 & S2); [simpl; tauto|reflexivity|].
    cbn [fold_left].
    rewrite (@DownloadFacts.download_one_succeeds w stock_code full_code _ _ d1 F1 E1 S1).
    rewrite (@DownloadFacts.download_one_succeeds w stock_code full_code _ _ d2 F2 E2 S2).
    rewrite (@DownloadFacts.download_one_raises w stock_code full_code _ _ e Hfail).
    do 3 eexists. exists "资产负债表", d1, "利润表", d2.
    split; [reflexivity|].
    repeat split; try reflexivity; try assumption;
      cbn [Download.shown Download.show]; rewrite !in_app_iff; simpl; tauto.
Qed.

Lemma partial_statement_failure_isolated_witness :
  exists data name r t1 d1 t2 d2,
    Download.download_financial_reports Examples.income_statement_down "600519"
      = (Some data, name, r)
    /\ filter (fun t => negb (String.eqb t "利润表")) Download.report_types
       = [t1; t2]
    /\ Download.stock_financial_report_sina Examples.income_statement_down
         (Download.get_stock_prefix "600519" ++ "600519") t1 = Download.FetchFrame d1
    /\ Download.stock_financial_report_sina Examples.income_statement_down
         (Download.get_stock_prefix "600519" ++ "600519") t2 = Download.FetchFrame d2
    /\ data = [(t1, d1); (t2, d2)]
    /\ Download.written r
       = [(Download.file_path Examples.income_statement_down "600519" t1, d1);
          (Download.file_path Examples.income_statement_down "600519" t2, d2)]
    /\ Download.successful_downloads r = 2%nat
    /\ In (Download.StError ("下载" ++ "利润表" ++ "时出错: " ++ "timed out"))
          (Download.shown r)
    /\ In (Download.StSuccess
             ("成功下载了 " ++ "600519" ++ "(" ++ name ++ ") 的 2 个财务报表"))
          (Download.shown r).
Proof.
  apply (@partial_statement_failure_isolated
           Examples.income_statement_down "600519" "利润表" "timed out").
  - simpl. tauto.
  - reflexivity.
  - intros t Ht Hne.
    destruct Ht as [<-|[<-|[<-|[]]]].
    + eexists. repeat split; reflexivity.
    + contradiction (Hne eq_refl).
    + eexists. repeat split; reflexivity.
Defined.

(* ================================================================== *)
(** ** Numeric coercion and the metrics extractor *)

Module MetricsFacts.
Import PyFloat Pandas Dates Metrics Ratios.

(** The placeholders are no value on the extraction path. *)
Lemma to_numeric_sentinels :
  to_numeric (VStr "-") = FNaN /\ to_numeric (VStr "") = FNaN
  /\ to_numeric VNone = FNaN /\ to_numeric nan = FNaN.
Proof. repeat split; reflexivity. Qed.

(** The placeholders are no value on the ratio path: a missing cell fails
    the [notna] test, a placeholder text is no float. *)
Lemma float_of_cell_sentinels :
  notna VNone = false /\ notna nan = false
  /\ float_of_cell (VStr "-") = None /\ float_of_cell (VStr "") = None.
Proof. repeat split; reflexivity. Qed.

(** On the ratio path a period is left out as soon as the total-assets
    cell is missing or is no number. *)
Lemma ratio_for_date_skips bs ist ar er pr date :
  notna (row_get bs ar (VStr date)) = false
  \/ float_of_cell (row_get bs ar (VStr date)) = None ->
  ratio_for_date bs ist ar er pr date = [].
Proof.
  unfold ratio_for_date. intros [-> | ->]; [reflexivity|].
  now destruct (_ && _).
Qed.

(** The periods kept by the loop over the period columns all have a
    revenue and a profit that are numbers. *)
Lemma metrics_by_period_present df project_col rr pr :
  Forall (fun m => is_nan (m_revenue m) = false /\ is_nan (m_profit m) = false)
         (metrics_by_period df project_col rr pr).
Proof.
  unfold metrics_by_period.
  apply Forall_forall. intros m Hm.
  apply in_flat_map in Hm. destruct Hm as (col & _ & Hm).
  destruct (is_nan (to_numeric (row_get df rr col))) eqn:Er; simpl in Hm;
    [contradiction|].
  destruct (is_nan (to_numeric (row_get df pr col))) eqn:Ep; simpl in Hm;
    [contradiction|].
  destruct Hm as [<-|[]]. now simpl.
Qed.

(** With rows numbered from 0 and text labels, aligning a row of the
    statement on the row labels finds nothing. *)
Lemma align_on_range_index df row :
  Forall (fun l => exists s, l = VStr s) (columns df) ->
  Forall (fun i => exists z, i = VInt z) (index df) ->
  align_on_index df row = map (fun _ => nan) (index df).
Proof.
  intros Hc Hi. unfold align_on_index.
  apply map_ext_in. intros i Hin.
  rewrite Forall_forall in Hi. destruct (Hi _ Hin) as (z & ->).
  unfold row_get.
  replace (find_pos (VInt z) (columns df)) with (@None nat); [reflexivity|].
  symmetry. induction Hc as [|c cs (s & ->) _ IH]; simpl; [reflexivity|].
  now rewrite IH.
Qed.

Lemma all_equal_map {A B : Type} (f : A -> B) (b : B) (l s : list A) :
  Permutation l s -> Forall (fun x => f x = b) l ->
  map f s = repeat b (length l).
Proof.
  intros Hp Hall.
  rewrite (Permutation_length Hp).
  apply (Permutation_Forall Hp) in Hall. clear Hp.
  induction Hall as [|x s Hx _ IH]; simpl; [reflexivity|].
  now rewrite Hx, IH.
Qed.

Section Extractor.
Context {D : DateOps}.

(** The extractor, once the rows are found. *)
Lemma get_financial_metrics_found df0 df project_col rr pr m ms :
  df_empty df0 = false ->
  locate_project_col (stringify_first_col (stringify_labels df0))
    = Returns (df, project_col) ->
  find_row df project_col revenue_patterns = Returns (Some rr) ->
  find_row df project_col Metrics.profit_patterns = Returns (Some pr) ->
  (if label_in (VStr "日期") (columns df)
   then metrics_by_date_column df rr pr
   else metrics_by_period df project_col rr pr) = m :: ms ->
  get_financial_metrics (Some df0)
  = Returns (Some (map (fun r => m_revenue (snd r)) (sorted_series false (m :: ms)),
                   map (fun r => m_profit (snd r)) (sorted_series false (m :: ms)),
                   map fst (sorted_series false (m :: ms)))).
Proof.
  intros He Hl Hr Hp Hm. unfold get_financial_metrics.
  rewrite He, Hl. cbn [bind]. rewrite Hr. cbn [bind]. rewrite Hp. cbn [bind].
  now rewrite Hm.
Qed.

(** Sorting keeps the values: a column that is [nan] in every row is
    [nan] in every row of the sorted series. *)
Lemma sorted_series_constant (f : metric -> pyfloat) (b : pyfloat) asc ms :
  Forall (fun m => f m = b) ms ->
  map (fun r => f (snd r)) (sorted_series asc ms) = repeat b (length ms).
Proof.
  intros Hall. unfold sorted_series.
  rewrite (@all_equal_map _ _ (fun r => f (snd r)) b
             (combine (to_datetime (map m_date ms)) ms)
             (sort_values asc (combine (to_datetime (map m_date ms)) ms))).
  - now rewrite length_combine, to_datetime_length, length_map, Nat.min_id.
  - apply sort_values_perm.
  - apply Forall_forall. intros [d m] Hin. simpl.
    apply in_combine_r in Hin. rewrite Forall_forall in Hall. now apply Hall.
Qed.

End Extractor.

End MetricsFacts.

(** C3.  Numeric coercion on the two paths, at the comma-formatted figure:
    [get_financial_ratios] strips the separators and reads 1234.50;
    [get_financial_metrics] passes the text to [pd.to_numeric], which
    gives [nan], so the period is dropped and, being the only one, no
    series is returned.  The placeholders ["-"], [""], [None] and [nan] are
    no value on both paths. *)
Theorem comma_figure_lost_on_metrics_path :
  Pandas.to_numeric (Pandas.VStr "1,234.50") = PyFloat.FNaN
  /\ Ratios.float_of_cell (Pandas.VStr "1,234.50")
     = Some (PyFloat.FFin (2469 # 2))
  /\ (forall D : Dates.DateOps,
        Metrics.get_financial_metrics (Some Examples.comma_statement)
        = Pandas.Returns None)
  /\ Ratios.get_financial_ratios (Some Examples.balance_sheet)
                                 (Some Examples.comma_statement)
     = Some [Ratios.mkRatio "20231231"
               (PyFloat.fin (1 # 100000)) (PyFloat.fin (1 # 200000))
               (PyFloat.fin (1 # 100000))
               (Some (PyFloat.FFin 100)) (Some (PyFloat.FFin 200))]
  /\ Pandas.to_numeric (Pandas.VStr "-") = PyFloat.FNaN
  /\ Pandas.to_numeric (Pandas.VStr "") = PyFloat.FNaN
  /\ Pandas.to_numeric Pandas.VNone = PyFloat.FNaN
  /\ Ratios.float_of_cell (Pandas.VStr "-") = None
  /\ Ratios.float_of_cell (Pandas.VStr "") = None
  /\ Pandas.notna Pandas.VNone = false
  /\ Pandas.notna Pandas.nan = false.
Proof.
  repeat split; try (intros D); vm_compute; reflexivity.
Qed.

(** C4.  The extractor on a statement with the dates down the first
    column: it turns the table itself, takes the branch for a frame with a
    [日期] column, and there assigns the two located rows to a frame whose
    rows are numbered from 0.  The rows are labelled by the column names, so
    the alignment finds nothing: both periods are returned with a revenue
    and a net profit that are [nan]. *)
Theorem date_column_branch_returns_nan (D : Dates.DateOps) :
  exists dates,
    Metrics.get_financial_metrics (Some Examples.dates_in_rows)
    = Pandas.Returns (Some ([PyFloat.FNaN; PyFloat.FNaN],
                            [PyFloat.FNaN; PyFloat.FNaN], dates)).
Proof.
  eexists.
  erewrite MetricsFacts.get_financial_metrics_found;
    [|vm_compute; reflexivity..].
  rewrite (@MetricsFacts.sorted_series_constant D Metrics.m_revenue PyFloat.FNaN)
    by (repeat constructor).
  rewrite (@MetricsFacts.sorted_series_constant D Metrics.m_profit PyFloat.FNaN)
    by (repeat constructor).
  reflexivity.
Qed.

Module LookupFacts.
Import PyFloat Pandas Metrics Ratios.

(** In the branch for a frame with a [日期] column every value is [nan]
    when the columns are labelled by text and the rows by number. *)
Lemma date_column_branch_all_nan df rr pr :
  Forall (fun l => exists s, l = VStr s) (columns df) ->
  Forall (fun i => exists z, i = VInt z) (index df) ->
  Forall (fun m => m_revenue m = FNaN /\ m_profit m = FNaN)
         (metrics_by_date_column df rr pr).
Proof.
  intros Hc Hi. unfold metrics_by_date_column.
  rewrite !(@MetricsFacts.align_on_range_index df _ Hc Hi).
  apply Forall_forall. intros m Hm.
  apply in_map_iff in Hm. destruct Hm as ([[d a] b] & <- & Hin). simpl.
  pose proof (in_combine_r _ _ _ _ Hin) as Hb.
  pose proof (in_combine_r _ _ _ _ (in_combine_l _ _ _ _ Hin)) as Ha.
  apply in_map_iff in Ha. destruct Ha as (? & <- & _).
  apply in_map_iff in Hb. destruct Hb as (? & <- & _).
  split; reflexivity.
Qed.

(** The patterns of [find_row] are tried in order. *)
Lemma find_row_cons df project_col j pattern patterns :
  find_pos project_col (columns df) = Some j ->
  find_row df project_col (pattern :: patterns)
  = match find (fun r => str_contains pattern (cell r j)) (data df) with
    | Some r => Returns (Some r)
    | None => find_row df project_col patterns
    end.
Proof.
  intros Hj. unfold find_row. rewrite Hj. simpl.
  now destruct (find _ (data df)).
Qed.

(** Revenue lookup of the extractor: a row labelled 营业收入 is returned,
    the first such row, whatever the place of the rows that only match a
    later pattern. *)
Lemma revenue_lookup_prefers_first_pattern df project_col j r :
  find_pos project_col (columns df) = Some j ->
  find (fun r => str_contains "营业收入" (cell r j)) (data df) = Some r ->
  find_row df project_col revenue_patterns = Returns (Some r).
Proof.
  intros Hj Hr. unfold revenue_patterns.
  rewrite (@find_row_cons df project_col j _ _ Hj). now rewrite Hr.
Qed.

(** The ratio calculator falls back to the looser word only when the
    joined pattern finds no row. *)
Lemma lookup_first_tier patterns fallback df r rows :
  rows_matching patterns df = r :: rows ->
  lookup patterns fallback df = r :: rows.
Proof. unfold lookup. now intros ->. Qed.

Lemma lookup_fallback patterns fallback df :
  rows_matching patterns df = [] ->
  lookup patterns fallback df = rows_matching [fallback] df.
Proof. unfold lookup. now intros ->. Qed.

(** The joined profit pattern already contains the looser word: every
    row the fallback would find, the first lookup finds. *)
Lemma profit_fallback_is_dead df :
  incl (rows_matching ["利润"] df) (rows_matching Ratios.profit_patterns df).
Proof.
  unfold rows_matching. intros r Hr.
  apply filter_In in Hr. destruct Hr as (Hin & Hm).
  apply filter_In. split; [exact Hin|].
  unfold contains_any in *. simpl in Hm. rewrite orb_false_r in Hm.
  apply existsb_exists. exists "利润". split; [|exact Hm].
  unfold Ratios.profit_patterns. simpl. tauto.
Qed.

End LookupFacts.

(** C2.  The net-profit lookup of the ratio calculator on a statement
    that lists 利润总额 above 净利润: the joined pattern contains 利润总额
    and 利润 next to 净利润, so the first row in table order is taken; the
    ratios are computed from 300, the profit before tax, and not from the
    net profit 200. *)
Theorem ratio_profit_lookup_takes_first_profit_row :
  Ratios.profit_rows (Ratios.as_text Examples.profit_before_net)
  = [[Pandas.VStr "利润总额"; Pandas.VStr "300"];
     [Pandas.VStr "净利润"; Pandas.VStr "200"]]
  /\ Ratios.get_financial_ratios (Some Examples.balance_sheet)
                                 (Some Examples.profit_before_net)
     = Some [Ratios.mkRatio "20231231"
               (PyFloat.fin (1 # 100000)) (PyFloat.fin (1 # 200000))
               (PyFloat.fin (3 # 1000000))
               (Some (PyFloat.FFin 30)) (Some (PyFloat.FFin 60))].
Proof.
  split; vm_compute; reflexivity.
Qed.

(* ================================================================== *)
(** ** The ratio calculator *)

Module RatiosFacts.
Import PyFloat Pandas Metrics Ratios.

Lemma insert_desc_In s x l : In x (insert_desc s l) <-> x = s \/ In x l.
Proof.
  induction l as [|y l IH]; simpl.
  - intuition.
  - destruct (String.leb y s); simpl; [intuition|].
    rewrite IH. intuition.
Qed.

Lemma sort_desc_In x l : In x (sort_desc l) <-> In x l.
Proof.
  induction l as [|y l IH]; simpl; [tauto|].
  rewrite insert_desc_In, IH. intuition.
Qed.

(** The common dates are the period labels both statements have. *)
Lemma common_dates_In d bs_dates is_dates :
  In d (common_dates bs_dates is_dates) <-> In d bs_dates /\ In d is_dates.
Proof.
  unfold common_dates. rewrite sort_desc_In, nodup_In, filter_In.
  rewrite existsb_exists. split.
  - intros (Hb & x & Hx & E). apply String.eqb_eq in E. now subst.
  - intros (Hb & Hi). split; [exact Hb|].
    exists d. split; [exact Hi|apply String.eqb_refl].
Qed.

(** One date of the loop, when the three cells are present and are
    numbers. *)
Lemma ratio_for_date_numeric bs ist ar er pr date ta ne np :
  notna (row_get bs ar (VStr date)) = true ->
  notna (row_get bs er (VStr date)) = true ->
  notna (row_get ist pr (VStr date)) = true ->
  float_of_cell (row_get bs ar (VStr date)) = Some ta ->
  float_of_cell (row_get bs er (VStr date)) = Some ne ->
  float_of_cell (row_get ist pr (VStr date)) = Some np ->
  ratio_for_date bs ist ar er pr date
  = [mkRatio date (fdiv ta yi) (fdiv ne yi) (fdiv np yi)
             (if nonzero ta then Some (fmul (fdiv np ta) (of_Z 100)) else None)
             (if nonzero ne then Some (fmul (fdiv np ne) (of_Z 100)) else None)].
Proof.
  unfold ratio_for_date. now intros -> -> -> -> -> ->.
Qed.

(** The calculator, once the three rows are found: the rows of the
    result are those of the common dates, in order. *)
Lemma get_financial_ratios_found bs0 is0 ar ars er ers pr prs :
  df_empty bs0 = false -> df_empty is0 = false ->
  asset_rows (as_text bs0) = ar :: ars ->
  equity_rows (as_text bs0) = er :: ers ->
  profit_rows (as_text is0) = pr :: prs ->
  forall row date,
    In date (period_labels (as_text bs0)) ->
    In date (period_labels (as_text is0)) ->
    In row (ratio_for_date (as_text bs0) (as_text is0) ar er pr date) ->
    exists rows,
      get_financial_ratios (Some bs0) (Some is0) = Some rows /\ In row rows.
Proof.
  intros Hb Hi Ha He Hp row date Hdb Hdi Hrow.
  unfold get_financial_ratios. rewrite Hb, Hi. simpl.
  assert (Hd : In date (common_dates (period_labels (as_text bs0))
                                     (period_labels (as_text is0))))
    by now apply common_dates_In.
  destruct (common_dates _ _) as [|d ds] eqn:Ed; [contradiction|].
  rewrite Ha, He, Hp.
  assert (Hin : In row (flat_map (ratio_for_date (as_text bs0) (as_text is0)
                                                 ar er pr) (d :: ds))).
  { apply in_flat_map. exists date. split; assumption. }
  destruct (flat_map _ (d :: ds)) as [|r rs]; [contradiction|].
  exists (r :: rs). split; [reflexivity|exact Hin].
Qed.

End RatiosFacts.

(** C5.  The zero-denominator rule of [get_financial_ratios].  On
    statements whose labels are distinct, once the total-assets, equity
    and net-profit rows are found, take a reporting date both statements
    have, at which the three cells are present and are numbers [ta], [ne],
    [np].  If [ta] is exactly zero and [ne] is not, the date is in the
    result with a null ROA and the ROE [np / ne * 100]; if [ne] is exactly
    zero and [ta] is not, the date is in the result with a null ROE and the
    ROA [np / ta * 100]. *)
Theorem ratio_null_on_zero_denominator
  (bs0 is0 : Pandas.DataFrame)
  (ar er pr : list Pandas.pyval) (ars ers prs : list (list Pandas.pyval))
  (date : string) (ta ne np : PyFloat.pyfloat) :
  let bs := Ratios.as_text bs0 in
  let ist := Ratios.as_text is0 in
  Pandas.distinct_labels bs0 -> Pandas.distinct_labels is0 ->
  Pandas.df_empty bs0 = false -> Pandas.df_empty is0 = false ->
  Ratios.asset_rows bs = ar :: ars ->
  Ratios.equity_rows bs = er :: ers ->
  Ratios.profit_rows ist = pr :: prs ->
  In date (Ratios.period_labels bs) ->
  In date (Ratios.period_labels ist) ->
  Pandas.notna (Metrics.row_get bs ar (Pandas.VStr date)) = true ->
  Pandas.notna (Metrics.row_get bs er (Pandas.VStr date)) = true ->
  Pandas.notna (Metrics.row_get ist pr (Pandas.VStr date)) = true ->
  Ratios.float_of_cell (Metrics.row_get bs ar (Pandas.VStr date)) = Some ta ->
  Ratios.float_of_cell (Metrics.row_get bs er (Pandas.VStr date)) = Some ne ->
  Ratios.float_of_cell (Metrics.row_get ist pr (Pandas.VStr date)) = Some np ->
  exists rows,
    Ratios.get_financial_ratios (Some bs0) (Some is0) = Some rows
    /\ (PyFloat.nonzero ta = false -> PyFloat.nonzero ne = true ->
        In (Ratios.mkRatio date
              (PyFloat.fdiv ta Ratios.yi) (PyFloat.fdiv ne Ratios.yi)
              (PyFloat.fdiv np Ratios.yi)
              None
              (Some (PyFloat.fmul (PyFloat.fdiv np ne) (PyFloat.of_Z 100))))
           rows)
    /\ (PyFloat.nonzero ne = false -> PyFloat.nonzero ta = true ->
        In (Ratios.mkRatio date
              (PyFloat.fdiv ta Ratios.yi) (PyFloat.fdiv ne Ratios.yi)
              (PyFloat.fdiv np Ratios.yi)
              (Some (PyFloat.fmul (PyFloat.fdiv np ta) (PyFloat.of_Z 100)))
              None)
           rows).
Proof.
  intros bs ist _ _ Hb Hi Ha He Hp Hdb Hdi Na Ne Np Fa Fe Fp.
  pose proof (@RatiosFacts.ratio_for_date_numeric bs ist ar er pr date ta ne np
                Na Ne Np Fa Fe Fp) as Hrow.
  assert (Hmem : In (Ratios.mkRatio date
                      (PyFloat.fdiv ta Ratios.yi) (PyFloat.fdiv ne Ratios.yi)
                      (PyFloat.fdiv np Ratios.yi)
                      (if PyFloat.nonzero ta
                       then Some (PyFloat.fmul (PyFloat.fdiv np ta) (PyFloat.of_Z 100))
                       else None)
                      (if PyFloat.nonzero ne
                       then Some (PyFloat.fmul (PyFloat.fdiv np ne) (PyFloat.of_Z 100))
                       else None))
                    (Ratios.ratio_for_date bs ist ar er pr date)).
  { rewrite Hrow. left. reflexivity. }
  destruct (@RatiosFacts.get_financial_ratios_found bs0 is0 ar ars er ers pr prs
              Hb Hi Ha He Hp _ date Hdb Hdi Hmem)
    as (rows & Hrun & Hin).
  exists rows. split; [exact Hrun|].
  split; intros Z1 Z2; rewrite Z1, Z2 in Hin; exact Hin.
Qed.

Lemma ratio_null_on_zero_denominator_witness :
  exists rows,
    Ratios.get_financial_ratios (Some Examples.no_assets)
                                (Some Examples.income_statement) = Some rows
    /\ In (Ratios.mkRatio "20231231"
             (PyFloat.fdiv (PyFloat.FFin 0) Ratios.yi)
             (PyFloat.fdiv (PyFloat.FFin 500) Ratios.yi)
             (PyFloat.fdiv (PyFloat.FFin 200) Ratios.yi)
             None
             (Some (PyFloat.fmul (PyFloat.fdiv (PyFloat.FFin 200) (PyFloat.FFin 500))
                                 (PyFloat.of_Z 100))))
          rows.
Proof.
  destruct (@ratio_null_on_zero_denominator
              Examples.no_assets Examples.income_statement
              [Pandas.VStr "资产总计"; Pandas.VStr "0"]
              [Pandas.VStr "所有者权益合计"; Pandas.VStr "500"]
              [Pandas.VStr "净利润"; Pandas.VInt 200; Pandas.VInt 150]
              [] [] [] "20231231"
              (PyFloat.FFin 0) (PyFloat.FFin 500) (PyFloat.FFin 200))
    as (rows & Hrun & Hzero & _).
  - unfold Pandas.distinct_labels. simpl.
    repeat constructor; simpl; intuition discriminate.
  - unfold Pandas.distinct_labels. simpl.
    repeat constructor; simpl; intuition discriminate.
  - reflexivity.
  - reflexivity.
  - reflexivity.
  - reflexivity.
  - reflexivity.
  - simpl. tauto.
  - simpl. tauto.
  - reflexivity.
  - reflexivity.
  - reflexivity.
  - reflexivity.
  - reflexivity.
  - reflexivity.
  - exists rows. split; [exact Hrun|].
    apply Hzero; reflexivity.
Defined.

(* ================================================================== *)
(** ** The shape normalizer *)

Module NormalizerFacts.
Import PyStr PyFloat Pandas Normalizer.

(** A column called REPORT_DATE is a date-named column, so the second
    test of line 1302 adds nothing to the first. *)
Lemma report_date_is_date_name cols :
  filter is_date_name cols = [] ->
  existsb (String.eqb "REPORT_DATE") cols = false.
Proof.
  intros Hf. destruct (existsb _ cols) eqn:E; [|reflexivity].
  apply existsb_exists in E. destruct E as (c & Hin & Hc).
  apply String.eqb_eq in Hc. subst c.
  assert (H : In "REPORT_DATE" (filter is_date_name cols))
    by (apply filter_In; split; [exact Hin|reflexivity]).
  rewrite Hf in H. contradiction.
Qed.

Lemma shape_of_no_date_name df cols :
  filter is_date_name cols = [] ->
  shape_of df cols = if first_col_is_dates df then Transposed else Standard.
Proof.
  intros Hf. unfold shape_of. now rewrite Hf, report_date_is_date_name.
Qed.

(** The normalizer on a non-empty table with text labels. *)
Lemma convert_by_shape df cols :
  df_empty df = false ->
  str_labels (columns df) = Some cols ->
  convert_em_to_sina_format (Some df)
  = match shape_of df cols with
    | Long date_col => Returns (pivot_long df cols date_col)
    | Transposed => transpose_dates df
    | Standard => Returns df
    end.
Proof.
  intros He Hl. unfold convert_em_to_sina_format. now rewrite He, Hl.
Qed.

Lemma rename_absent old new labels :
  label_in old labels = false ->
  map (fun c => if py_same c old then new else c) labels = labels.
Proof.
  unfold label_in. induction labels as [|c l IH]; simpl; [reflexivity|].
  intros H. apply orb_false_iff in H. destruct H as (Hc & Hl).
  now rewrite Hc, IH.
Qed.

Lemma rows_with_labels (labels : list pyval) (f : nat -> list pyval) k :
  map (fun p : pyval * list pyval => fst p :: snd p)
      (combine labels (map f (seq k (length labels))))
  = map (fun j => nth (j - k) labels nan :: f j) (seq k (length labels)).
Proof.
  revert k. induction labels as [|l ls IH]; intros k; simpl; [reflexivity|].
  rewrite Nat.sub_diag. f_equal.
  rewrite IH. apply map_ext_in. intros j Hj. apply in_seq in Hj.
  replace (j - k)%nat with (S (j - S k)) by lia. reflexivity.
Qed.

Lemma cell_tl (r : list pyval) j : cell (tl r) j = cell r (S j).
Proof. destruct r; [now destruct j|reflexivity]. Qed.

(** Case 3 on a table with unnamed column axis whose first column does
    not hold the text ['index']. *)
Lemma transpose_dates_turned df :
  columns_name df = None ->
  label_in (VStr "index") (iloc_col 0 df) = false ->
  transpose_dates df = Returns (turned df).
Proof.
  intros Hn Hi. unfold transpose_dates, reset_index, reset_index_label.
  cbn [transpose set_index_first index_name columns_name columns index data].
  rewrite Hn, Hi, Hi. cbn [bind].
  unfold rename_column, turned.
  cbn [columns columns_name index index_name data map].
  f_equal. f_equal.
  - change (py_same (VStr "index") (VStr "index")) with true. cbn iota.
    f_equal. now apply rename_absent.
  - rewrite (rows_with_labels (tl (columns df))
               (fun j => iloc_col j (set_index_first df)) 0).
    rewrite <- seq_shift, map_map.
    apply map_ext. intros j. rewrite Nat.sub_0_r.
    f_equal.
    + destruct (columns df); [now destruct j|reflexivity].
    + unfold iloc_col, set_index_first. cbn [data]. rewrite map_map.
      apply map_ext. intros r. apply cell_tl.
Qed.



Lemma nth_seq_tl (l : list pyval) :
  map (fun j => nth j l nan) (seq 1 (length (tl l))) = tl l.
Proof.
  destruct l as [|x l]; [reflexivity|]. simpl.
  rewrite <- seq_shift, map_map. simpl.
  induction l as [|y l IH]; simpl; [reflexivity|].
  f_equal. rewrite <- seq_shift, map_map. exact IH.
Qed.

(** The turned table has the item names down its first column and the
    values of the old first column as its other labels. *)
Lemma turned_layout df :
  hd_error (columns (turned df)) = Some (VStr "项目")
  /\ tl (columns (turned df)) = iloc_col 0 df
  /\ iloc_col 0 (turned df) = tl (columns df).
Proof.
  split; [reflexivity|]. split; [reflexivity|].
  unfold turned, iloc_col. cbn [data]. rewrite map_map. simpl.
  apply nth_seq_tl.
Qed.



(** A first column that holds dates and null values only does not hold
    the text ['index']. *)
Lemma dates_hold_no_index (values : list pyval) :
  Forall (fun v => match_date_pattern (py_str v) = true
                   \/ null_text (py_str v) = true) values ->
  label_in (VStr "index") values = false.
Proof.
  unfold label_in. induction 1 as [|v l Hv _ IH]; simpl; [reflexivity|].
  rewrite IH, orb_false_r.
  destruct v as [|z|r|s]; try reflexivity.
  - unfold py_same, py_eq.
    now destruct (isna (VFloat r) || isna (VStr "index")).
  - change (py_same (VStr s) (VStr "index")) with (String.eqb s "index").
    destruct (String.eqb s "index") eqn:E; [|reflexivity].
    apply String.eqb_eq in E. subst s. simpl in Hv.
    destruct Hv as [Hv|Hv]; discriminate Hv.
Qed.

End NormalizerFacts.







Module StabilityFacts.
Import PyStr PyFloat Pandas Normalizer.

Lemma str_labels_map labels cols :
  str_labels labels = Some cols -> labels = map VStr cols.
Proof.
  revert cols. induction labels as [|v l IH]; simpl; intros cols H.
  - injection H as <-. reflexivity.
  - destruct v; simpl in H; try discriminate.
    destruct (str_labels l) as [cs|]; [|discriminate].
    injection H as <-. simpl. now rewrite (IH cs).
Qed.

Lemma str_labels_of_map cols : str_labels (map VStr cols) = Some cols.
Proof.
  induction cols as [|c cs IH]; simpl; [reflexivity|]. now rewrite IH.
Qed.

Lemma find_pos_text c cols :
  In c cols -> exists j, find_pos (VStr c) (map VStr cols) = Some j.
Proof.
  induction cols as [|x xs IH]; simpl; [contradiction|].
  intros H.
  change (py_eq (VStr x) (VStr c)) with (String.eqb x c).
  destruct (String.eqb x c) eqn:E; [now exists O|].
  destruct H as [->|H]; [now rewrite String.eqb_refl in E|].
  destruct (IH H) as (j & ->). now exists (S j).
Qed.

(** The item column of a long table is one of its columns. *)
Lemma choose_item_col_In df cols date_col ic :
  choose_item_col df cols date_col = Some ic -> In ic cols.
Proof.
  unfold choose_item_col.
  destruct (filter is_item_name cols) as [|c l] eqn:Ef.
  - destruct (filter (fun c => negb (String.eqb c date_col)) cols)
      as [|c0 l0] eqn:En; [intros H; discriminate H|].
    assert (H0 : In c0 cols).
    { assert (H : In c0 (c0 :: l0)) by now left.
      rewrite <- En in H. now apply filter_In in H. }
    destruct (find _ (c0 :: l0)) as [c|] eqn:Ec; simpl.
    + destruct (negb (String.eqb c "")).
      * intros H. injection H as <-.
        apply find_some in Ec. destruct Ec as (Hin & _).
        rewrite <- En in Hin. now apply filter_In in Hin.
      * intros H. now injection H as <-.
    + intros H. now injection H as <-.
  - intros H. injection H as <-.
    assert (H : In c (c :: l)) by now left.
    rewrite <- Ef in H. now apply filter_In in H.
Qed.

(** Without a value column no date adds anything to the pivot. *)
Lemma fill_dates_without_value_column df cols date_col item_col dates pivot :
  filter (fun c => negb (String.eqb c date_col || String.eqb c item_col)) cols = [] ->
  fold_left (fill_date df cols date_col item_col) dates pivot = pivot.
Proof.
  intros Hv. revert pivot.
  induction dates as [|d ds IH]; intros pivot; simpl; [reflexivity|].
  unfold fill_date at 2. rewrite Hv. apply IH.
Qed.

Lemma unique_nonempty x l : unique (x :: l) <> [].
Proof. unfold unique. simpl. discriminate. Qed.

(** A table in case 1 is returned as it is. *)
Lemma standard_is_unchanged df cols :
  df_empty df = false ->
  str_labels (columns df) = Some cols ->
  shape_of df cols = Standard ->
  convert_em_to_sina_format (Some df) = Returns df.
Proof.
  intros He Hl Hs.
  now rewrite (NormalizerFacts.convert_by_shape _ He Hl), Hs.
Qed.

Lemma stable_is_unchanged t :
  stable t -> convert_em_to_sina_format (Some t) = Returns t.
Proof.
  intros [-> | (He & cols & Hl & Hs)]; [reflexivity|].
  now apply (standard_is_unchanged _ He Hl).
Qed.

(** A turned table is stable when the dates of the input are texts
    without a date word, the input has an item column, and its first five
    item names are not all dates. *)
Lemma turned_is_stable df dates :
  iloc_col 0 df = map VStr dates ->
  filter is_date_name dates = [] ->
  tl (columns df) <> [] ->
  forallb match_date_pattern
          (filter (fun s => negb (null_text s))
                  (map py_str (firstn 5 (tl (columns df))))) = false ->
  stable (turned df).
Proof.
  intros Hd Hn Hc Hs. right. split.
  - unfold df_empty, turned. cbn [columns index].
    destruct (tl (columns df)); [contradiction|reflexivity].
  - exists ("项目" :: dates). split.
    + unfold turned. cbn [columns]. rewrite Hd.
      change (VStr "项目" :: map VStr dates) with (map VStr ("项目" :: dates)).
      apply str_labels_of_map.
    + rewrite NormalizerFacts.shape_of_no_date_name.
      * unfold first_col_is_dates, sample_values.
        destruct (NormalizerFacts.turned_layout df) as (_ & _ & ->).
        now rewrite Hs.
      * simpl. change (is_date_name "项目") with false. exact Hn.
Qed.

End StabilityFacts.


Module IdempotenceFacts.
Import PyStr PyFloat Pandas Normalizer.

(** Idempotence on the transposed shape: a table detected as transposed
    (unnamed column axis, no ['index'] in the first column) whose dates are
    texts without a date word and whose first five item names are not all
    dates is normalized once and for all. *)
Lemma transposed_normalizes_once df cols dates :
  columns_name df = None ->
  df_empty df = false ->
  str_labels (columns df) = Some cols ->
  shape_of df cols = Transposed ->
  label_in (VStr "index") (iloc_col 0 df) = false ->
  iloc_col 0 df = map VStr dates ->
  filter is_date_name dates = [] ->
  tl (columns df) <> [] ->
  forallb match_date_pattern
          (filter (fun s => negb (null_text s))
                  (map py_str (firstn 5 (tl (columns df))))) = false ->
  convert_twice df = convert_em_to_sina_format (Some df).
Proof.
  intros Hn He Hl Hs Hi Hd Hw Hc Hitems.
  assert (Hrun : convert_em_to_sina_format (Some df) = Returns (turned df)).
  { rewrite (NormalizerFacts.convert_by_shape _ He Hl), Hs.
    now apply NormalizerFacts.transpose_dates_turned. }
  unfold convert_twice. rewrite Hrun. cbn [bind].
  apply StabilityFacts.stable_is_unchanged.
  now apply (@StabilityFacts.turned_is_stable df dates).
Qed.

(** A transposed table with a single column turns into a header without
    rows; normalizing that gives [pd.DataFrame()], a different table. *)
Lemma single_column_of_dates_differs :
  convert_em_to_sina_format (Some (Examples.frame ["x"] [[VStr "20231231"]]))
  = Returns (mkDF [VStr "项目"; VStr "20231231"] (Some (VStr "x")) [] None [])
  /\ convert_twice (Examples.frame ["x"] [[VStr "20231231"]])
     = Returns empty_frame.
Proof. split; reflexivity. Qed.

(** The long shape is not spared: a long table whose items look like
    dates pivots into a table that is detected as transposed. *)
Lemma long_with_date_items_differs :
  shape_of (Examples.frame ["报告期"; "项目"; "值"]
              [[VStr "2023-12-31"; VStr "20221231"; VInt 5]])
           ["报告期"; "项目"; "值"] = Long "报告期"
  /\ convert_em_to_sina_format
       (Some (Examples.frame ["报告期"; "项目"; "值"]
                [[VStr "2023-12-31"; VStr "20221231"; VInt 5]]))
     = Returns (Examples.frame ["项目"; "20231231"] [[VStr "20221231"; VInt 5]])
  /\ convert_twice (Examples.frame ["报告期"; "项目"; "值"]
                      [[VStr "2023-12-31"; VStr "20221231"; VInt 5]])
     = Returns (mkDF [VStr "项目"; VStr "20221231"] (Some (VStr "项目"))
                     [VInt 0] None [[VStr "20231231"; VInt 5]]).
Proof. repeat split; reflexivity. Qed.

(** Dates held as integers print as eight digits, so the table is
    turned; its labels are then integers and a second pass raises. *)
Lemma integer_dates_raise_on_second_pass :
  convert_em_to_sina_format
    (Some (Examples.frame ["报表"; "营业收入"] [[VInt 20231231; VInt 1000]]))
  = Returns (mkDF [VStr "项目"; VInt 20231231] (Some (VStr "报表"))
                  [VInt 0] None [[VStr "营业收入"; VInt 1000]])
  /\ convert_twice
       (Examples.frame ["报表"; "营业收入"] [[VInt 20231231; VInt 1000]])
     = Raises TypeError.
Proof. split; reflexivity. Qed.

(** A table whose labels are not all texts makes the test of the date
    names raise. *)
Lemma numbered_columns_raise :
  convert_em_to_sina_format (Some Examples.numbered_columns) = Raises TypeError.
Proof. reflexivity. Qed.

End IdempotenceFacts.

(** C8, the counterexample.  A long table with a date column and an item
    column and no value column: the normalizer returns the items, a table
    of two rows and one column, which is not an empty table. *)
Lemma long_without_value_column_is_not_empty :
  Normalizer.shape_of Examples.no_value_column ["REPORT_DATE"; "ITEM_NAME"]
  = Normalizer.Long "REPORT_DATE"
  /\ Normalizer.choose_item_col Examples.no_value_column
                                ["REPORT_DATE"; "ITEM_NAME"] "REPORT_DATE"
     = Some "ITEM_NAME"
  /\ filter (fun c => negb (String.eqb c "REPORT_DATE" || String.eqb c "ITEM_NAME"))
            ["REPORT_DATE"; "ITEM_NAME"] = []
  /\ Normalizer.convert_em_to_sina_format (Some Examples.no_value_column)
     = Pandas.Returns
         (Examples.frame ["ITEM_NAME"]
                         [[Pandas.VStr "营业收入"]; [Pandas.VStr "净利润"]])
  /\ Pandas.df_empty
       (Examples.frame ["ITEM_NAME"]
                       [[Pandas.VStr "营业收入"]; [Pandas.VStr "净利润"]]) = false.
Proof. repeat split; vm_compute; reflexivity. Qed.

(** C8, amended.  The normalizer returns [pd.DataFrame()] for no table,
    for an empty table, and for a table with a date-named column in which
    no item column can be chosen.  When a date-named column and an item
    column are there but no value column, it returns the items, once each,
    without any period column: a table that is not empty.  On a table with
    distinct text labels it raises nothing, provided that, in case 3, the
    column axis is unnamed and the first column does not hold the text
    ['index']. *)
Theorem empty_table_policy (df : Pandas.DataFrame) (cols : list string) :
  Pandas.distinct_labels df ->
  Pandas.rectangular df ->
  Normalizer.str_labels (Pandas.columns df) = Some cols ->
  Normalizer.convert_em_to_sina_format None = Pandas.Returns Pandas.empty_frame
  /\ (Pandas.df_empty df = true ->
      Normalizer.convert_em_to_sina_format (Some df)
      = Pandas.Returns Pandas.empty_frame)
  /\ (forall date_col,
        Pandas.df_empty df = false ->
        Normalizer.shape_of df cols = Normalizer.Long date_col ->
        Normalizer.truthy (Normalizer.choose_item_col df cols date_col) = false ->
        Normalizer.convert_em_to_sina_format (Some df)
        = Pandas.Returns Pandas.empty_frame)
  /\ (forall date_col item_col,
        Pandas.df_empty df = false ->
        Normalizer.shape_of df cols = Normalizer.Long date_col ->
        Normalizer.choose_item_col df cols date_col = Some item_col ->
        item_col <> "" ->
        filter (fun c => negb (String.eqb c date_col || String.eqb c item_col))
               cols = [] ->
        Normalizer.convert_em_to_sina_format (Some df)
        = Pandas.Returns (Normalizer.items_only df item_col)
        /\ Pandas.df_empty (Normalizer.items_only df item_col) = false)
  /\ ((Normalizer.shape_of df cols = Normalizer.Transposed ->
       Pandas.columns_name df = None
       /\ Pandas.label_in (Pandas.VStr "index") (Pandas.iloc_col 0 df) = false) ->
      exists t, Normalizer.convert_em_to_sina_format (Some df) = Pandas.Returns t).
Proof.
  intros _ (Hlen & _) Hl.
  split; [reflexivity|].
  split. { intros He. unfold Normalizer.convert_em_to_sina_format. now rewrite He. }
  split.
  { intros date_col He Hs Hnone.
    rewrite (NormalizerFacts.convert_by_shape _ He Hl), Hs.
    unfold Normalizer.pivot_long.
    destruct (Normalizer.choose_item_col df cols date_col) as [ic|];
      [|reflexivity].
    now rewrite Hnone. }
  split.
  { intros date_col item_col He Hs Hic Hne Hv.
    assert (Htruthy : Normalizer.truthy (Some item_col) = true).
    { simpl. destruct (String.eqb item_col "") eqn:E; [|reflexivity].
      apply String.eqb_eq in E. contradiction. }
    split.
    - rewrite (NormalizerFacts.convert_by_shape _ He Hl), Hs.
      unfold Normalizer.pivot_long. rewrite Hic, Htruthy.
      now rewrite StabilityFacts.fill_dates_without_value_column.
    - pose proof (StabilityFacts.choose_item_col_In _ _ _ Hic) as Hin.
      destruct (StabilityFacts.find_pos_text _ _ Hin) as (j & Hj).
      rewrite <- (StabilityFacts.str_labels_map _ Hl) in Hj.
      unfold Normalizer.items_only, Pandas.col_values. rewrite Hj.
      unfold Pandas.df_empty in He |- *. cbn [Pandas.columns Pandas.index].
      destruct (Pandas.columns df); [discriminate|].
      destruct (Pandas.index df) as [|i0 idx]; [discriminate|].
      unfold Pandas.iloc_col.
      destruct (Pandas.data df) as [|r rs]; [discriminate|].
      reflexivity. }
  intros Hturn.
  destruct (Pandas.df_empty df) eqn:He.
  { exists Pandas.empty_frame.
    unfold Normalizer.convert_em_to_sina_format. now rewrite He. }
  rewrite (NormalizerFacts.convert_by_shape _ He Hl).
  destruct (Normalizer.shape_of df cols) as [d| |] eqn:Hs.
  - eexists. reflexivity.
  - destruct (Hturn eq_refl) as (Hn & Hi).
    exists (Normalizer.turned df).
    now apply NormalizerFacts.transpose_dates_turned.
  - eexists. reflexivity.
Qed.

Lemma empty_table_policy_witness :
  Normalizer.convert_em_to_sina_format (Some Examples.no_value_column)
  = Pandas.Returns (Normalizer.items_only Examples.no_value_column "ITEM_NAME")
  /\ Pandas.df_empty (Normalizer.items_only Examples.no_value_column "ITEM_NAME")
     = false.
Proof.
  destruct (@empty_table_policy Examples.no_value_column
                                ["REPORT_DATE"; "ITEM_NAME"])
    as (_ & _ & _ & Hitems & _).
  - unfold Pandas.distinct_labels. simpl.
    repeat constructor; simpl; intuition discriminate.
  - split; [reflexivity|repeat constructor].
  - reflexivity.
  - apply (Hitems "REPORT_DATE" "ITEM_NAME");
      [reflexivity|reflexivity|reflexivity|discriminate|reflexivity].
Defined.

(* ================================================================== *)
(** ** The examples of the specification, run on the model *)

Module SpecExamples.
Import PyFloat Pandas Dates Metrics Ratios DatesFacts.

(** The end-to-end example: periods newest first, revenue and profit. *)
Example extract_metrics_example :
  get_financial_metrics (Some Examples.income_statement)
  = Returns (Some ([of_Z 1000; of_Z 800], [of_Z 200; of_Z 150],
                   [Some 20231231; Some 20221231])).
Proof. reflexivity. Qed.

(** Its growth rates, in ascending order of date: 25% and 33.33%, the
    latter as the float [(200 / 150 - 1) * 100 = 33.33333333333333]. *)
Example growth_example :
  match financial_data
          [of_Z 1000; of_Z 800] [of_Z 200; of_Z 150]
          [Some 20231231; Some 20221231] with
  | Returns g => Some (g_revenue_growth g, g_profit_growth g)
  | Raises _ => None
  end
  = Some ([None; Some (FFin 25)],
          [None; Some (FFin (2345624805922133 # 70368744177664))]).
Proof. vm_compute. reflexivity. Qed.

(** With two periods [plot_financial_metrics] returns the two averages. *)
Example plot_two_periods_example :
  plot_financial_metrics
    (Some [of_Z 1000; of_Z 800]) (Some [of_Z 200; of_Z 150])
    [Some 20231231; Some 20221231]
  = Returns (Some (FFin 25, FFin (2345624805922133 # 70368744177664))).
Proof. vm_compute. reflexivity. Qed.

(** With three periods the trend of line 484 is asked for over two labels
    and three values. *)
Example plot_three_periods_example :
  plot_financial_metrics
    (Some [of_Z 1200; of_Z 1000; of_Z 800])
    (Some [of_Z 240; of_Z 200; of_Z 150])
    [Some 20231231; Some 20221231; Some 20211231]
  = Raises ValueError.
Proof. vm_compute. reflexivity. Qed.

(** Tiered precedence of the revenue lookup: 主营业务收入 comes first in
    the table, 营业收入 is returned. *)
Example revenue_tier_example :
  find_row (Examples.frame ["项目"; "2023"]
              [[VStr "主营业务收入"; VInt 7]; [VStr "营业收入"; VInt 9]])
           (VStr "项目") revenue_patterns
  = Returns (Some [VStr "营业收入"; VInt 9]).
Proof. reflexivity. Qed.

(** First-match tie-break: of two rows labelled 净利润 the upper one. *)
Example first_match_example :
  find_row (Examples.frame ["项目"; "2023"]
              [[VStr "净利润"; VInt 1]; [VStr "净利润"; VInt 2]])
           (VStr "项目") Metrics.profit_patterns
  = Returns (Some [VStr "净利润"; VInt 1]).
Proof. reflexivity. Qed.

(** Total assets: a row of the first tier beats an earlier row that only
    holds the looser word. *)
Example asset_tier_example :
  asset_rows (Examples.frame ["项目"; "2023"]
                [[VStr "流动资产"; VInt 1]; [VStr "资产总计"; VInt 2]])
  = [[VStr "资产总计"; VInt 2]].
Proof. reflexivity. Qed.

(** Zero equity: the date is kept, the return on equity is null. *)
Example zero_equity_example :
  get_financial_ratios (Some Examples.no_equity) (Some Examples.income_statement)
  = Some [mkRatio "20231231" (fin (1 # 100000)) (FFin 0) (fin (1 # 500000))
                  (Some (FFin 20)) None].
Proof. reflexivity. Qed.

End SpecExamples.

(* ================================================================== *)
(** * Further properties of the code *)

(** ** The exchange prefix *)

Module CellFacts.
Import PyStr PyFloat Pandas.

Lemma feqb_sym x y : feqb x y = feqb y x.
Proof.
  destruct x as [|s|a], y as [|t|b]; simpl; try reflexivity.
  - now destruct s, t.
  - unfold Qeq_bool. destruct (Z.eqb_spec (Qnum a * QDen b) (Qnum b * QDen a)) as [E|E].
    + symmetry. apply Z.eqb_eq. now symmetry.
    + symmetry. apply Z.eqb_neq. intros H. apply E. now symmetry.
Qed.

Lemma py_eq_sym a b : py_eq a b = py_eq b a.
Proof.
  assert (H : forall u v,
             match num_value u, num_value v with
             | Some x, Some y => feqb x y
             | _, _ => false
             end
             = match num_value v, num_value u with
               | Some x, Some y => feqb x y
               | _, _ => false
               end).
  { intros u v. destruct (num_value u), (num_value v); try reflexivity.
    apply feqb_sym. }
  unfold py_eq. rewrite (orb_comm (isna a)).
  destruct (isna b || isna a); [reflexivity|].
  destruct a as [|z|r|s], b as [|z'|r'|s'];
    first [apply String.eqb_sym | apply H].
Qed.

Lemma py_eq_same a b : py_eq a b = true -> py_same a b = true.
Proof.
  intros H. destruct a as [|z|r|s], b as [|z'|r'|s']; simpl; try exact H;
    try reflexivity.
  rewrite H. apply orb_true_r.
Qed.

Lemma feqb_refl x : is_nan x = false -> feqb x x = true.
Proof.
  destruct x as [|s|a]; simpl; [discriminate| |]; intros _.
  - now destruct s.
  - apply Qeq_bool_iff. reflexivity.
Qed.

(** What equals something equals itself. *)
Lemma py_eq_refl_of a b : py_eq a b = true -> py_eq b b = true.
Proof.
  unfold py_eq. destruct (isna a || isna b) eqn:E; [discriminate|].
  apply orb_false_iff in E. destruct E as (_ & Eb). rewrite Eb. simpl.
  intros _. destruct b as [|z|r|s]; simpl.
  - discriminate Eb.
  - apply Qeq_bool_iff. reflexivity.
  - apply feqb_refl. unfold isna, notna in Eb.
    now destruct (is_nan (float_value r)).
  - apply String.eqb_refl.
Qed.

Lemma py_eq_refl v : isna v = false -> py_eq v v = true.
Proof.
  intros Hv. unfold py_eq. rewrite Hv. simpl.
  destruct v as [|z|r|s]; simpl.
  - discriminate Hv.
  - apply Qeq_bool_iff. reflexivity.
  - apply feqb_refl. unfold isna, notna in Hv.
    now destruct (is_nan (float_value r)).
  - apply String.eqb_refl.
Qed.

Lemma same_value_refl v : Reading.same_value v v.
Proof.
  unfold Reading.same_value. destruct (isna v) eqn:E.
  - right. now split.
  - left. now apply py_eq_refl.
Qed.

End CellFacts.

Module TextFacts.
Import PyStr.

Lemma prefix_empty (s : string) : String.prefix "" s = true.
Proof. destruct s; reflexivity. Qed.

(** [float] skips the space and the bytes 9 to 13 around a number, and
    no other byte: a separator byte before the digits leaves no number. *)
Lemma float_white_space :
  PyFloat.py_float (String (ascii_of_nat 9) "0 ") = Some (PyFloat.FFin 0)
  /\ PyFloat.py_float (String (ascii_of_nat 28) "0") = None
  /\ PyFloat.py_float (String (ascii_of_nat 31) "1 ") = None.
Proof. repeat split; vm_compute; reflexivity. Qed.

(** A text is read as the nearest float: below the range it is [0.0],
    beyond it an infinity. *)
Lemma float_out_of_range :
  PyFloat.py_float "1e-400" = Some (PyFloat.FFin 0)
  /\ PyFloat.py_float "1e400" = Some (PyFloat.FInf false)
  /\ PyFloat.py_float "-1e400" = Some (PyFloat.FInf true)
  /\ PyFloat.py_float "4.9e-324"
     = Some (PyFloat.FFin (PyFloat.scale2 1 (- 1074)))
  /\ PyFloat.py_float "0.1"
     = Some (PyFloat.FFin (3602879701896397 # 36028797018963968)).
Proof. repeat split; vm_compute; reflexivity. Qed.

(** [float] reads the decimal digits of every script, the parser of
    [pd.to_numeric] the ASCII digits only. *)
Lemma float_full_width_digits :
  PyFloat.py_float "１２" = Some (PyFloat.FFin 12)
  /\ PyFloat.py_float "１．５" = None
  /\ Pandas.to_numeric (Pandas.VStr "１２") = PyFloat.FNaN.
Proof. repeat split; vm_compute; reflexivity. Qed.

(** [\d] matches the decimal digits of every script. *)
Lemma date_pattern_full_width_digits :
  Normalizer.match_date_pattern "２０２３１２３１" = true
  /\ Normalizer.match_date_pattern "2023-1２-31" = true
  /\ Normalizer.match_date_pattern "2023/12/31" = false
  /\ Metrics.search_date "20２３年１" = true
  /\ Metrics.search_date "２０２３年１２月" = false.
Proof. repeat split; vm_compute; reflexivity. Qed.

(** The zero-denominator rule on a total of assets written ['1e-400']:
    the text is read as [0.0], so the period is kept with a null ROA.  A
    total that is no number for [float] leaves the period out. *)
Lemma underflowing_total_gives_null_roa :
  option_map (map (fun r => (Ratios.r_date r, Ratios.r_total_assets r,
                             Ratios.r_roa r)))
    (Ratios.get_financial_ratios
       (Some (Examples.frame ["项目"; "20231231"]
                [[Pandas.VStr "资产总计"; Pandas.VStr "1e-400"];
                 [Pandas.VStr "所有者权益合计"; Pandas.VStr "500"]]))
       (Some Examples.income_statement))
  = Some [("20231231", PyFloat.FFin 0, None)]
  /\ Ratios.get_financial_ratios
       (Some (Examples.frame ["项目"; "20231231"]
                [[Pandas.VStr "资产总计";
                  Pandas.VStr (String (ascii_of_nat 28) "0")];
                 [Pandas.VStr "所有者权益合计"; Pandas.VStr "500"]]))
       (Some Examples.income_statement)
     = None.
Proof. split; vm_compute; reflexivity. Qed.

End TextFacts.

(** [get_stock_prefix], lines 35-53: the prefix is decided by the first
    character of the code alone: 0, 3 and 1 give [sz], 6, 9 and 5 give
    [sh], 4 and 8 give [bj], anything else gives [sz].  The test on ['83']
    never decides anything. *)
Theorem get_stock_prefix_by_first_char (c : ascii) (rest : string) :
  Download.get_stock_prefix (String c rest)
  = if Ascii.eqb c "0" || Ascii.eqb c "3" || Ascii.eqb c "1" then "sz"
    else if Ascii.eqb c "6" || Ascii.eqb c "9" || Ascii.eqb c "5" then "sh"
    else if Ascii.eqb c "4" || Ascii.eqb c "8" then "bj"
    else "sz".
Proof.
  unfold Download.get_stock_prefix, PyStr.startswith_any.
  destruct c as [[] [] [] [] [] [] [] []]; try reflexivity;
    cbn; rewrite ?TextFacts.prefix_empty; try reflexivity.
  now destruct (String.prefix "3" rest).
Qed.

(* ================================================================== *)
(** ** Invariants of the download operation *)

Module DownloadInvariants.
Import Pandas Download.

(** What holds of a run whatever the provider answers: the counter is the
    number of statements kept and the number of files written; a statement
    kept is one of those already asked for, and its frame is not empty;
    every file is written under [financial_data/]. *)
Record consistent (asked : list string) (r : run) : Prop := {
  count_kept : successful_downloads r = length (report_data r);
  count_written : length (written r) = length (report_data r);
  kept_asked : forall k df, In (k, df) (report_data r) ->
                            In k asked /\ df_empty df = false;
  written_place : forall p df, In (p, df) (written r) ->
                               String.prefix "financial_data/" p = true
}.

Lemma dict_set_fresh k v (d : list (string * DataFrame)) :
  (forall df, ~ In (k, df) d) -> dict_set k v d = (d ++ [(k, v)])%list.
Proof.
  intros Hfresh. unfold dict_set.
  destruct (existsb _ d) eqn:E; [|reflexivity].
  apply existsb_exists in E. destruct E as ([k' df] & Hin & Hk).
  simpl in Hk. apply String.eqb_eq in Hk. subst k'.
  now apply Hfresh in Hin.
Qed.

Lemma file_path_place w stock_code report_type :
  String.prefix "financial_data/" (file_path w stock_code report_type) = true.
Proof.
  unfold file_path, data_dir. cbn. apply TextFacts.prefix_empty.
Qed.

Lemma consistent_show asked m r : consistent asked r -> consistent asked (show m r).
Proof. intros [H1 H2 H3 H4]. constructor; assumption. Qed.

Lemma consistent_more asked t r : consistent asked r -> consistent (t :: asked) r.
Proof.
  intros [H1 H2 H3 H4]. constructor; try assumption.
  intros k df Hin. destruct (H3 k df Hin). split; [now right|assumption].
Qed.

(** One statement of the loop keeps the run consistent. *)
Lemma download_one_consistent w stock_code full_code asked r report_type :
  ~ In report_type asked ->
  consistent asked r ->
  consistent (report_type :: asked)
             (download_one w stock_code full_code r report_type).
Proof.
  intros Hnew Hr. unfold download_one.
  destruct (stock_financial_report_sina w full_code report_type) as [e| |df];
    try (apply consistent_more, consistent_show; assumption).
  destruct (df_empty df) eqn:He;
    [apply consistent_more, consistent_show; assumption|].
  destruct (to_csv w _ df);
    [apply consistent_more, consistent_show; assumption|].
  destruct Hr as [H1 H2 H3 H4].
  assert (Hfresh : forall df', ~ In (report_type, df') (report_data r)).
  { intros df' Hin. apply H3 in Hin. now destruct Hin. }
  rewrite (dict_set_fresh _ _ _ Hfresh).
  constructor; cbn [successful_downloads report_data written].
  - rewrite length_app. simpl. lia.
  - rewrite !length_app. simpl. lia.
  - intros k df' Hin. apply in_app_or in Hin. destruct Hin as [Hin|[Hin|[]]].
    + destruct (H3 k df' Hin). split; [now right|assumption].
    + injection Hin as <- <-. split; [now left|assumption].
  - intros p df' Hin. apply in_app_or in Hin. destruct Hin as [Hin|[Hin|[]]].
    + now apply (H4 p df').
    + injection Hin as <- <-. apply file_path_place.
Qed.

(** A statement adds at most one to the counter. *)
Lemma download_one_count w stock_code full_code r report_type :
  (successful_downloads (download_one w stock_code full_code r report_type)
   <= S (successful_downloads r))%nat.
Proof.
  unfold download_one.
  destruct (stock_financial_report_sina w full_code report_type) as [e| |df];
    simpl; try lia.
  destruct (df_empty df); simpl; try lia.
  destruct (to_csv w _ df); simpl; lia.
Qed.

(** The three fields that hold the downloaded data. *)
Definition payload (r : run)
  : nat * list (string * DataFrame) * list (string * DataFrame) :=
  (successful_downloads r, report_data r, written r).

(** What is downloaded does not depend on what has been shown. *)
Lemma download_one_payload w stock_code full_code r r' report_type :
  payload r = payload r' ->
  payload (download_one w stock_code full_code r report_type)
  = payload (download_one w stock_code full_code r' report_type).
Proof.
  unfold payload. intros H. injection H as Hn Hd Hw.
  unfold download_one.
  destruct (stock_financial_report_sina w full_code report_type) as [e| |df];
    simpl; try congruence.
  destruct (df_empty df); simpl; try congruence.
  destruct (to_csv w _ df); simpl; congruence.
Qed.

Lemma fold_payload w stock_code full_code types r r' :
  payload r = payload r' ->
  payload (fold_left (download_one w stock_code full_code) types r)
  = payload (fold_left (download_one w stock_code full_code) types r').
Proof.
  revert r r'. induction types as [|t ts IH]; intros r r' H; simpl; [exact H|].
  apply IH. now apply download_one_payload.
Qed.

Lemma stock_name_of_payload w stock_code r :
  payload (snd (stock_name_of w stock_code r)) = payload r.
Proof.
  unfold stock_name_of.
  destruct (stock_individual_info_em w stock_code) as [e| |info];
    try reflexivity.
  destruct (df_empty info); [reflexivity|].
  destruct (find_pos _ (columns info)); [|reflexivity].
  destruct (find_pos _ (index info)); reflexivity.
Qed.

End DownloadInvariants.

(** [download_financial_reports], lines 55-135, whatever the provider
    answers: the number reported is the number of statements returned and
    the number of files written, and it is at most 3; the statements are
    returned exactly when that number is not zero; every statement
    returned is one of the three report types and is not empty; every file
    is written under [financial_data/]. *)
Theorem download_report_is_consistent (w : Download.world) (stock_code : string) :
  let '(data, _, r) := Download.download_financial_reports w stock_code in
  Download.successful_downloads r = length (Download.report_data r)
  /\ length (Download.written r) = Download.successful_downloads r
  /\ (Download.successful_downloads r <= 3)%nat
  /\ data = (if (0 <? Download.successful_downloads r)%nat
             then Some (Download.report_data r) else None)
  /\ (forall k df, In (k, df) (Download.report_data r) ->
                   In k Download.report_types /\ Pandas.df_empty df = false)
  /\ (forall p df, In (p, df) (Download.written r) ->
                   String.prefix "financial_data/" p = true).
Proof.
  unfold Download.download_financial_reports.
  destruct (Download.stock_name_of w stock_code (Download.mkRun O [] [] []))
    as [name r0] eqn:En.
  set (full := (Download.get_stock_prefix stock_code ++ stock_code)%string).
  set (one := Download.download_one w stock_code full).
  assert (H0 : DownloadInvariants.consistent [] r0).
  { destruct (DownloadFacts.stock_name_of_fresh _ _ En) as (Hn & Hd & Hw).
    constructor.
    - now rewrite Hn, Hd.
    - now rewrite Hw, Hd.
    - intros k df Hin. rewrite Hd in Hin. contradiction.
    - intros p df Hin. rewrite Hw in Hin. contradiction. }
  assert (Hc0 : Download.successful_downloads r0 = O)
    by apply (DownloadFacts.stock_name_of_fresh _ _ En).
  unfold Download.report_types. cbn [fold_left].
  fold one.
  assert (H1 : DownloadInvariants.consistent ["资产负债表"]
                 (one r0 "资产负债表")).
  { apply DownloadInvariants.download_one_consistent; [intros []|exact H0]. }
  assert (H2 : DownloadInvariants.consistent ["利润表"; "资产负债表"]
                 (one (one r0 "资产负债表") "利润表")).
  { apply DownloadInvariants.download_one_consistent; [|exact H1].
    simpl. intros [H|[]]. discriminate H. }
  assert (H3 : DownloadInvariants.consistent
                 ["现金流量表"; "利润表"; "资产负债表"]
                 (one (one (one r0 "资产负债表") "利润表") "现金流量表")).
  { apply DownloadInvariants.download_one_consistent; [|exact H2].
    simpl. intros [H|[H|[]]]; discriminate H. }
  set (r := one (one (one r0 "资产负债表") "利润表") "现金流量表") in *.
  assert (Hle : (Download.successful_downloads r <= 3)%nat).
  { pose proof (DownloadInvariants.download_one_count w stock_code full
                  r0 "资产负债表") as L1.
    pose proof (DownloadInvariants.download_one_count w stock_code full
                  (one r0 "资产负债表") "利润表") as L2.
    pose proof (DownloadInvariants.download_one_count w stock_code full
                  (one (one r0 "资产负债表") "利润表") "现金流量表") as L3.
    fold one in L1, L2, L3. fold r in L3. lia. }
  destruct H3 as [K1 K2 K3 K4].
  assert (Hkeys : forall k df, In (k, df) (Download.report_data r) ->
                    In k ["资产负债表"; "利润表"; "现金流量表"]
                    /\ Pandas.df_empty df = false).
  { intros k df Hin. destruct (K3 k df Hin) as (Hk & He).
    split; [|exact He]. simpl in Hk |- *. tauto. }
  destruct (0 <? Download.successful_downloads r)%nat eqn:Epos;
    cbn [Download.successful_downloads Download.report_data Download.written
         Download.show];
    rewrite ?Epos; repeat split; try assumption; try lia;
      try (apply Hkeys; assumption); try (eapply K4; eassumption);
      try (eapply Hkeys; eassumption).
Qed.

(** [download_financial_reports], lines 66-73 against lines 79-129: the
    lookup of the name of the stock does not touch the download.  Whatever
    the provider answers to the name request, the same statements are
    returned, the same files are written and the same number is
    reported. *)
Theorem download_independent_of_name_lookup
  (w : Download.world) (info : string -> Download.fetched) (stock_code : string) :
  let w' := Download.mkWorld info (Download.stock_financial_report_sina w)
                             (Download.to_csv w) (Download.current_date w) in
  let '(data, _, r) := Download.download_financial_reports w stock_code in
  let '(data', _, r') := Download.download_financial_reports w' stock_code in
  data' = data
  /\ Download.report_data r' = Download.report_data r
  /\ Download.written r' = Download.written r
  /\ Download.successful_downloads r' = Download.successful_downloads r.
Proof.
  destruct w as [info0 fetch csv date]. cbn [Download.stock_financial_report_sina
    Download.to_csv Download.current_date].
  unfold Download.download_financial_reports.
  set (w0 := Download.mkWorld info0 fetch csv date).
  set (w1 := Download.mkWorld info fetch csv date).
  pose proof (DownloadInvariants.stock_name_of_payload w0 stock_code
                (Download.mkRun O [] [] [])) as P0.
  pose proof (DownloadInvariants.stock_name_of_payload w1 stock_code
                (Download.mkRun O [] [] [])) as P1.
  destruct (Download.stock_name_of w0 stock_code _) as [n0 r0].
  destruct (Download.stock_name_of w1 stock_code _) as [n1 r1].
  cbn [snd] in P0, P1.
  remember (fold_left (Download.download_one w0 stock_code
                         (Download.get_stock_prefix stock_code ++ stock_code))
                      Download.report_types r0) as f0 eqn:E0.
  remember (fold_left (Download.download_one w1 stock_code
                         (Download.get_stock_prefix stock_code ++ stock_code))
                      Download.report_types r1) as f1 eqn:E1.
  assert (Hsame : DownloadInvariants.payload f1 = DownloadInvariants.payload f0).
  { subst f0 f1.
    change (Download.download_one w1) with (Download.download_one w0).
    apply DownloadInvariants.fold_payload. congruence. }
  clear E0 E1. destruct f0 as [c0 d0 wr0 s0], f1 as [c1 d1 wr1 s1].
  unfold DownloadInvariants.payload in Hsame. simpl in Hsame.
  injection Hsame as -> -> ->.
  cbn [Download.successful_downloads Download.report_data].
  destruct (0 <? c0)%nat; simpl; repeat split; reflexivity.
Qed.

(* ================================================================== *)
(** ** More on the shape normalizer *)

Module TurnFacts.
Import PyStr PyFloat Pandas Normalizer.

(** Whatever the inserted column is called, case 3 produces the rows of
    [turned]. *)
Lemma transpose_dates_rows df t :
  transpose_dates df = Returns t ->
  data t = data (turned df)
  /\ index t = index (turned df)
  /\ length (columns t) = S (length (data df)).
Proof.
  unfold transpose_dates, reset_index.
  destruct (label_in _ _); cbn [bind]; [discriminate|].
  intros H. injection H as <-.
  cbn [rename_column transpose set_index_first data index columns turned].
  split; [|split].
  - rewrite (NormalizerFacts.rows_with_labels (tl (columns df))
               (fun j => iloc_col j (set_index_first df)) 0).
    rewrite <- seq_shift, map_map.
    apply map_ext. intros j. rewrite Nat.sub_0_r.
    f_equal.
    + destruct (columns df); [now destruct j|reflexivity].
    + unfold iloc_col, set_index_first. cbn [data]. rewrite map_map.
      apply map_ext. intros r. apply NormalizerFacts.cell_tl.
  - reflexivity.
  - simpl. rewrite length_map. unfold iloc_col. now rewrite length_map.
Qed.

(** The cell of item [i] at date [j] is the cell of row [j], column
    [i + 1] of the input. *)
Lemma turned_cell df i j :
  (i < length (tl (columns df)))%nat ->
  cell (nth i (data (turned df)) []) (S j) = cell (nth j (data df) []) (S i).
Proof.
  intros Hi. unfold turned. cbn [data].
  rewrite (nth_indep _ [] (nth 0 (columns df) nan
                             :: map (fun r => cell r 0) (data df)))
    by (rewrite length_map, length_seq; exact Hi).
  rewrite (map_nth (fun j0 => nth j0 (columns df) nan
                             :: map (fun r => cell r j0) (data df))
                   (seq 1 (length (tl (columns df)))) O i).
  rewrite seq_nth by exact Hi.
  change (1 + i)%nat with (S i).
  unfold cell at 1. cbn [nth].
  destruct (Nat.lt_ge_cases j (length (data df))) as [Hj|Hj].
  - rewrite (nth_indep _ nan (cell [] (S i))) by (rewrite length_map; exact Hj).
    now rewrite (map_nth (fun r => cell r (S i)) (data df) [] j).
  - rewrite nth_overflow by (rewrite length_map; exact Hj).
    rewrite (nth_overflow (data df)) by exact Hj. reflexivity.
Qed.

Lemma turned_rows_wide df :
  Forall (fun r => length r = S (length (data df))) (data (turned df)).
Proof.
  unfold turned. cbn [data]. apply Forall_forall. intros r Hr.
  apply in_map_iff in Hr. destruct Hr as (j & <- & _).
  simpl. now rewrite length_map.
Qed.

End TurnFacts.

(** [convert_em_to_sina_format], case 3 (lines 1360-1381): turning keeps
    every figure.  When a table detected as transposed is converted, the
    result has one row per column of the input but the first, one more
    column than the input has rows, rows as wide as its header, and the cell
    of item [i] at date [j] is the cell of row [j], column [i + 1] of the
    input, read as the same value. *)
Theorem turning_keeps_every_cell
  (df t : Pandas.DataFrame) (cols : list string) :
  Pandas.distinct_labels df ->
  Pandas.df_empty df = false ->
  Normalizer.str_labels (Pandas.columns df) = Some cols ->
  Normalizer.shape_of df cols = Normalizer.Transposed ->
  Normalizer.convert_em_to_sina_format (Some df) = Pandas.Returns t ->
  length (Pandas.data t) = (length (Pandas.columns df) - 1)%nat
  /\ length (Pandas.columns t) = S (length (Pandas.data df))
  /\ Pandas.rectangular t
  /\ forall i j,
       (i < length (Pandas.columns df) - 1)%nat ->
       Reading.same_value
         (Pandas.cell (nth i (Pandas.data t) []) (S j))
         (Pandas.cell (nth j (Pandas.data df) []) (S i)).
Proof.
  intros _ He Hl Hs Hrun.
  rewrite (NormalizerFacts.convert_by_shape _ He Hl), Hs in Hrun.
  destruct (TurnFacts.transpose_dates_rows _ Hrun) as (Hd & Hi & Hc).
  assert (Htl : length (tl (Pandas.columns df))
                = (length (Pandas.columns df) - 1)%nat).
  { destruct (Pandas.columns df); simpl; lia. }
  assert (Hrows : length (Pandas.data (Normalizer.turned df))
                  = length (tl (Pandas.columns df))).
  { unfold Normalizer.turned. cbn [Pandas.data].
    now rewrite length_map, length_seq. }
  split; [now rewrite Hd, Hrows|].
  split; [exact Hc|].
  split.
  - split.
    + rewrite Hi, Hd, Hrows. unfold Normalizer.turned. cbn [Pandas.index].
      unfold Pandas.range_index. now rewrite length_map, length_seq.
    + rewrite Hd, Hc. apply TurnFacts.turned_rows_wide.
  - intros i j Hij. rewrite Hd.
    rewrite TurnFacts.turned_cell by now rewrite Htl.
    apply CellFacts.same_value_refl.
Qed.

Lemma turning_keeps_every_cell_witness :
  Reading.same_value
    (Pandas.cell (nth 1 (Pandas.data (Normalizer.turned Examples.dates_down)) []) 1)
    (Pandas.cell (nth 0 (Pandas.data Examples.dates_down) []) 2).
Proof.
  destruct (@turning_keeps_every_cell
              Examples.dates_down (Normalizer.turned Examples.dates_down)
              ["报表"; "营业收入"; "净利润"])
    as (_ & _ & _ & Hcell).
  - unfold Pandas.distinct_labels. vm_compute.
    repeat constructor; simpl; intuition discriminate.
  - reflexivity.
  - reflexivity.
  - reflexivity.
  - reflexivity.
  - apply (Hcell 1%nat 0%nat). simpl. lia.
Defined.

Module PivotFacts.
Import PyStr PyFloat Pandas Normalizer.

Lemma utf8_take_len n s : (utf8_len (utf8_take n s) <= n)%nat.
Proof.
  revert n. induction s as [|a t IH]; intros n; simpl; [lia|].
  destruct (is_cont a) eqn:E; simpl; rewrite ?E; [apply IH|].
  destruct n as [|n']; simpl; [lia|].
  rewrite E. specialize (IH n'). lia.
Qed.

Lemma contains_char_cons c a t :
  contains (String c "") (String a t)
  = Ascii.eqb c a || contains (String c "") t.
Proof.
  simpl. destruct (ascii_dec c a) as [->|Hne].
  - now rewrite Ascii.eqb_refl, TextFacts.prefix_empty.
  - apply Ascii.eqb_neq in Hne. now rewrite Hne.
Qed.

Lemma remove_char_gone c s : contains (String c "") (remove_char c s) = false.
Proof.
  induction s as [|a t IH]; [reflexivity|].
  cbn [remove_char]. destruct (Ascii.eqb a c) eqn:E; [exact IH|].
  rewrite contains_char_cons, IH, orb_false_r.
  rewrite Ascii.eqb_sym. exact E.
Qed.

Lemma utf8_take_no_char c n s :
  contains (String c "") s = false ->
  contains (String c "") (utf8_take n s) = false.
Proof.
  revert n. induction s as [|a t IH]; intros n H; [reflexivity|].
  rewrite contains_char_cons in H. apply orb_false_iff in H.
  destruct H as (Ha & Ht). cbn [utf8_take].
  destruct (is_cont a).
  - rewrite contains_char_cons, Ha. now apply IH.
  - destruct n as [|n']; [reflexivity|].
    rewrite contains_char_cons, Ha. now apply IH.
Qed.

(** A period label of the pivot has at most eight characters and no
    hyphen. *)
Lemma date_str_of_short date :
  (utf8_len (date_str_of date) <= 8)%nat
  /\ contains "-" (date_str_of date) = false.
Proof.
  unfold date_str_of.
  destruct (8 <? utf8_len _)%nat eqn:E.
  - split; [apply utf8_take_len|].
    apply utf8_take_no_char, remove_char_gone.
  - apply Nat.ltb_ge in E. split; [exact E|apply remove_char_gone].
Qed.

Lemma unique_acc_In seen l x : In x (unique_acc seen l) -> In x l.
Proof.
  revert seen. induction l as [|y l IH]; intros seen; simpl; [tauto|].
  destruct (existsb _ seen).
  - intros H. right. now apply (IH seen).
  - intros [->|H]; [now left|]. right. now apply (IH (y :: seen)).
Qed.

Lemma unique_In l x : In x (unique l) -> In x l.
Proof. apply unique_acc_In. Qed.

Lemma find_pos_absent s labels :
  find_pos (VStr s) labels = None -> ~ In (VStr s) labels.
Proof.
  induction labels as [|x l IH]; simpl; [tauto|].
  destruct (py_same x (VStr s)) eqn:E; [discriminate|].
  destruct (find_pos (VStr s) l); [discriminate|].
  intros _ [->|H]; [|now apply IH].
  change (py_same (VStr s) (VStr s)) with (String.eqb s s) in E.
  now rewrite String.eqb_refl in E.
Qed.

Lemma set_nth_length j v r : length (set_nth j v r) = length r.
Proof.
  revert j. induction r as [|x r IH]; intros [|j]; simpl; auto.
Qed.

Lemma set_nth_first j v r : cell (set_nth (S j) v r) 0 = cell r 0.
Proof. destruct r; reflexivity. Qed.

Lemma first_cells_kept (g : bool * list pyval -> list pyval)
      (rows : list (list pyval)) (mask : list bool) :
  length mask = length rows ->
  (forall m r, In r rows -> cell (g (m, r)) 0 = cell r 0) ->
  map (fun r => cell r 0) (map g (combine mask rows))
  = map (fun r => cell r 0) rows.
Proof.
  revert mask. induction rows as [|r rs IH]; intros [|m ms] Hm Hg;
    simpl in *; try discriminate; [reflexivity|].
  f_equal; [apply Hg; now left|].
  apply IH; [lia|intros; apply Hg; now right].
Qed.

Section Pivot.
Variable df : DataFrame.
Variables date_col item_col : string.

(** What every intermediate pivot satisfies. *)
Record shaped (n : nat) (p : DataFrame) : Prop := {
  sh_head : exists rest, columns p = VStr item_col :: rest
      /\ Forall (fun l => exists dt,
                   In dt (col_values df (VStr date_col))
                   /\ l = VStr (date_str_of dt)) rest;
  sh_nodup : NoDup (columns p);
  sh_index : index p = range_index n;
  sh_rows : length (data p) = n;
  sh_wide : Forall (fun r => length r = length (columns p)) (data p)
}.

Lemma loc_set_shaped n p mask dt value :
  In dt (col_values df (VStr date_col)) ->
  length mask = length (data p) ->
  shaped n p ->
  shaped n (loc_set p mask (VStr (date_str_of dt)) value).
Proof.
  intros Hdt Hmask [(rest & Hc & Hrest) Hnd Hi Hr Hw].
  unfold loc_set.
  destruct (find_pos (VStr (date_str_of dt)) (columns p)) as [j|] eqn:Ej.
  - constructor; cbn [columns index data]; try assumption.
    + now exists rest.
    + rewrite length_map, length_combine, Hmask, Nat.min_id. exact Hr.
    + apply Forall_forall. intros r Hin.
      apply in_map_iff in Hin. destruct Hin as ([m r0] & <- & Hin).
      apply in_combine_r in Hin. rewrite Forall_forall in Hw.
      cbn [fst snd]. destruct m; [rewrite set_nth_length|]; now apply Hw.
  - constructor; cbn [columns index data]; try assumption.
    + exists (rest ++ [VStr (date_str_of dt)])%list. split.
      * now rewrite Hc.
      * apply Forall_app. split; [exact Hrest|].
        constructor; [|constructor]. now exists dt.
    + apply NoDup_app_remove_l with (l := []). simpl.
      apply Permutation_NoDup with (l := VStr (date_str_of dt) :: columns p).
      * apply Permutation_cons_append.
      * constructor; [now apply find_pos_absent|exact Hnd].
    + rewrite length_map, length_combine, Hmask, Nat.min_id. exact Hr.
    + apply Forall_forall. intros r Hin.
      apply in_map_iff in Hin. destruct Hin as ([m r0] & <- & Hin).
      apply in_combine_r in Hin. rewrite Forall_forall in Hw.
      cbn [fst snd]. rewrite !length_app. simpl. now rewrite (Hw r0 Hin).
Qed.

Lemma fill_item_shaped n value_col date_data dt p item :
  In dt (col_values df (VStr date_col)) ->
  shaped n p ->
  shaped n (fill_item df item_col value_col date_data (date_str_of dt) p item).
Proof.
  intros Hdt Hp. unfold fill_item.
  destruct (filter _ date_data); [exact Hp|].
  apply loc_set_shaped; [exact Hdt|now rewrite length_map|exact Hp].
Qed.

Lemma fill_date_shaped n cols dt p :
  In dt (col_values df (VStr date_col)) ->
  shaped n p ->
  shaped n (fill_date df cols date_col item_col p dt).
Proof.
  intros Hdt Hp. unfold fill_date.
  destruct (filter _ cols) as [|value_col vs]; [exact Hp|].
  generalize (col_values p (VStr item_col)). intros items.
  revert p Hp. induction items as [|it its IH]; intros p Hp; simpl; [exact Hp|].
  apply IH. now apply fill_item_shaped.
Qed.

Lemma fill_dates_shaped n cols dates p :
  (forall dt, In dt dates -> In dt (col_values df (VStr date_col))) ->
  shaped n p ->
  shaped n (fold_left (fill_date df cols date_col item_col) dates p).
Proof.
  revert p. induction dates as [|dt dts IH]; intros p Hin Hp; simpl; [exact Hp|].
  apply IH.
  - intros d Hd. apply Hin. now right.
  - apply fill_date_shaped; [apply Hin; now left|exact Hp].
Qed.

(** The item column is not written when no date prints as its label. *)
Lemma loc_set_items n p mask dt value :
  date_str_of dt <> item_col ->
  length mask = length (data p) ->
  shaped n p ->
  iloc_col 0 (loc_set p mask (VStr (date_str_of dt)) value) = iloc_col 0 p.
Proof.
  intros Hne Hmask [(rest & Hc & _) _ _ _ Hw].
  unfold loc_set, iloc_col.
  pose proof (fun g => @first_cells_kept g (data p) mask Hmask) as Hzip.
  destruct (find_pos (VStr (date_str_of dt)) (columns p)) as [j|] eqn:Ej;
    cbn [data]; apply Hzip; intros m r Hr; cbn [fst snd].
  - destruct m; [|reflexivity].
    destruct j as [|j']; [|apply set_nth_first].
    rewrite Hc in Ej. cbn [find_pos] in Ej.
    change (py_same (VStr item_col) (VStr (date_str_of dt)))
      with (String.eqb item_col (date_str_of dt)) in Ej.
    destruct (String.eqb item_col (date_str_of dt)) eqn:E.
    + apply String.eqb_eq in E. now subst.
    + destruct (find_pos _ rest); discriminate.
  - rewrite Forall_forall in Hw. specialize (Hw r Hr). rewrite Hc in Hw.
    destruct r; [discriminate|reflexivity].
Qed.

Lemma fill_item_items n value_col date_data dt p item :
  In dt (col_values df (VStr date_col)) ->
  date_str_of dt <> item_col ->
  shaped n p ->
  iloc_col 0 (fill_item df item_col value_col date_data (date_str_of dt) p item)
  = iloc_col 0 p.
Proof.
  intros Hdt Hne Hp. unfold fill_item.
  destruct (filter _ date_data); [reflexivity|].
  apply (@loc_set_items n); [exact Hne|now rewrite length_map|exact Hp].
Qed.

Lemma fill_date_items n cols dt p :
  In dt (col_values df (VStr date_col)) ->
  date_str_of dt <> item_col ->
  shaped n p ->
  iloc_col 0 (fill_date df cols date_col item_col p dt) = iloc_col 0 p.
Proof.
  intros Hdt Hne Hp. unfold fill_date.
  destruct (filter _ cols) as [|value_col vs]; [reflexivity|].
  generalize (col_values p (VStr item_col)). intros items.
  revert p Hp. induction items as [|it its IHi]; intros p Hp; simpl;
    [reflexivity|].
  rewrite IHi by now apply fill_item_shaped.
  now apply (@fill_item_items n).
Qed.

Lemma fill_dates_items n cols dates p :
  (forall dt, In dt dates ->
     In dt (col_values df (VStr date_col)) /\ date_str_of dt <> item_col) ->
  shaped n p ->
  iloc_col 0 (fold_left (fill_date df cols date_col item_col) dates p)
  = iloc_col 0 p.
Proof.
  revert p. induction dates as [|dt dts IH]; intros p Hin Hp; simpl;
    [reflexivity|].
  destruct (Hin dt (or_introl eq_refl)) as (Hdt & Hne).
  rewrite IH.
  - now apply (@fill_date_items n).
  - intros d Hd. apply Hin. now right.
  - now apply fill_date_shaped.
Qed.

End Pivot.

Lemma items_only_shaped df date_col item_col :
  shaped df date_col item_col
         (length (unique (col_values df (VStr item_col))))
         (items_only df item_col).
Proof.
  unfold items_only. constructor; cbn [columns index data].
  - exists []. split; [reflexivity|constructor].
  - constructor; [intros []|constructor].
  - reflexivity.
  - now rewrite length_map.
  - apply Forall_forall. intros r Hr. apply in_map_iff in Hr.
    destruct Hr as (u & <- & _). reflexivity.
Qed.

End PivotFacts.

(** ** Normalizing a normalized table *)

Module LongStability.
Import PyStr PyFloat Pandas Normalizer.




End LongStability.




(** [convert_em_to_sina_format], case 2 (lines 1302-1358): the layout of
    the pivot.  When a long table with item column [item_col] is converted,
    the result has [item_col] as its first label and no label twice; every
    other label is a date of the date column printed without hyphens and
    cut to eight characters; there is one row per distinct item, and every
    row is as wide as the header.  When no date prints as the label of the
    item column, the first column holds the distinct items in order of
    first appearance. *)
Theorem long_pivot_layout
  (df t : Pandas.DataFrame) (cols : list string) (date_col item_col : string) :
  Pandas.distinct_labels df ->
  Pandas.df_empty df = false ->
  Normalizer.str_labels (Pandas.columns df) = Some cols ->
  Normalizer.shape_of df cols = Normalizer.Long date_col ->
  Normalizer.choose_item_col df cols date_col = Some item_col ->
  item_col <> "" ->
  Normalizer.convert_em_to_sina_format (Some df) = Pandas.Returns t ->
  let items := Pandas.unique (Pandas.col_values df (Pandas.VStr item_col)) in
  hd_error (Pandas.columns t) = Some (Pandas.VStr item_col)
  /\ NoDup (Pandas.columns t)
  /\ (forall l, In l (tl (Pandas.columns t)) ->
        exists dt s,
          In dt (Pandas.col_values df (Pandas.VStr date_col))
          /\ s = Normalizer.date_str_of dt /\ l = Pandas.VStr s
          /\ (PyStr.utf8_len s <= 8)%nat /\ PyStr.contains "-" s = false)
  /\ length (Pandas.data t) = length items
  /\ Pandas.rectangular t
  /\ ((forall dt, In dt (Pandas.col_values df (Pandas.VStr date_col)) ->
                  Normalizer.date_str_of dt <> item_col) ->
      Pandas.iloc_col 0 t = items).
Proof.
  intros _ He Hl Hs Hic Hne Hrun items.
  rewrite (NormalizerFacts.convert_by_shape _ He Hl), Hs in Hrun.
  injection Hrun as <-.
  unfold Normalizer.pivot_long. rewrite Hic.
  assert (Htruthy : Normalizer.truthy (Some item_col) = true).
  { simpl. destruct (String.eqb item_col "") eqn:E; [|reflexivity].
    apply String.eqb_eq in E. contradiction. }
  rewrite Htruthy.
  change (Pandas.mkDF [Pandas.VStr item_col] None
            (Pandas.range_index
               (length (Pandas.unique (Pandas.col_values df (Pandas.VStr item_col)))))
            None
            (map (fun u => [u])
                 (Pandas.unique (Pandas.col_values df (Pandas.VStr item_col)))))
    with (Normalizer.items_only df item_col).
  set (dates := Pandas.unique (Pandas.col_values df (Pandas.VStr date_col))).
  assert (Hdates : forall dt, In dt dates ->
            In dt (Pandas.col_values df (Pandas.VStr date_col)))
    by (intros dt; apply PivotFacts.unique_In).
  pose proof (@PivotFacts.fill_dates_shaped df date_col item_col (length items)
                cols dates _ Hdates
                (PivotFacts.items_only_shaped df date_col item_col)) as Hsh.
  set (p := fold_left _ dates _) in *.
  destruct Hsh as [(rest & Hc & Hrest) Hnd Hi Hr Hw].
  split; [now rewrite Hc|]. split; [exact Hnd|].
  split.
  { intros l Hin. rewrite Hc in Hin. cbn [tl] in Hin.
    rewrite Forall_forall in Hrest. destruct (Hrest l Hin) as (dt & Hdt & ->).
    exists dt, (Normalizer.date_str_of dt).
    destruct (PivotFacts.date_str_of_short dt) as (H8 & Hh).
    repeat split; assumption. }
  split; [exact Hr|].
  split.
  { split; [|exact Hw].
    rewrite Hi, Hr. unfold Pandas.range_index. now rewrite length_map, length_seq. }
  intros Hprint. subst p.
  rewrite (@PivotFacts.fill_dates_items df date_col item_col (length items)).
  - unfold Normalizer.items_only, Pandas.iloc_col. cbn [Pandas.data].
    rewrite map_map. cbn. apply map_id.
  - intros dt Hdt. split; [now apply Hdates|]. apply Hprint. now apply Hdates.
  - apply PivotFacts.items_only_shaped.
Qed.

Module PivotValues.
Import PyStr PyFloat Pandas Normalizer PivotFacts CellFacts.

(** *** Positions and cells *)

Lemma find_pos_lt l labels j :
  find_pos l labels = Some j -> (j < length labels)%nat.
Proof.
  revert j. induction labels as [|x xs IH]; intros j; simpl; [discriminate|].
  destruct (py_same x l).
  - intros H. injection H as <-. lia.
  - destruct (find_pos l xs) as [k|]; [|discriminate].
    intros H. injection H as <-. specialize (IH k eq_refl). lia.
Qed.

Lemma find_pos_text_at s labels j :
  find_pos (VStr s) labels = Some j -> nth j labels nan = VStr s.
Proof.
  revert j. induction labels as [|x xs IH]; intros j; simpl; [discriminate|].
  destruct (py_same x (VStr s)) eqn:E.
  - intros H. injection H as <-.
    destruct x as [|z|r|t];
      try (exfalso; unfold py_same, py_eq in E;
           match type of E with
           | (if ?c then _ else _) = _ => destruct c; discriminate E
           end).
    change (py_same (VStr t) (VStr s)) with (String.eqb t s) in E.
    apply String.eqb_eq in E. now subst.
  - destruct (find_pos (VStr s) xs) as [k|]; [|discriminate].
    intros H. injection H as <-. now apply IH.
Qed.

Lemma find_pos_app s s' labels :
  find_pos (VStr s) (labels ++ [VStr s'])
  = match find_pos (VStr s) labels with
    | Some j => Some j
    | None => if String.eqb s' s then Some (length labels) else None
    end.
Proof.
  induction labels as [|x xs IH]; simpl.
  - change (py_eq (VStr s') (VStr s)) with (String.eqb s' s).
    now destruct (String.eqb s' s).
  - destruct (py_same x (VStr s)); [reflexivity|].
    rewrite IH. destruct (find_pos (VStr s) xs); [reflexivity|].
    now destruct (String.eqb s' s).
Qed.

Lemma cell_set_nth j v r k :
  (j < length r)%nat ->
  cell (set_nth j v r) k = if Nat.eqb k j then v else cell r k.
Proof.
  unfold cell. revert j k. induction r as [|x r IH]; intros j k Hj;
    simpl in Hj; [lia|].
  destruct j as [|j'], k as [|k']; simpl; try reflexivity.
  apply IH. lia.
Qed.

Lemma cell_app r x k :
  cell (r ++ [x]) k
  = if (k <? length r)%nat then cell r k
    else if Nat.eqb k (length r) then x else nan.
Proof.
  unfold cell. revert k. induction r as [|y r IH]; intros k; simpl.
  - destruct k as [|[|k']]; reflexivity.
  - destruct k as [|k']; [reflexivity|]. rewrite IH. reflexivity.
Qed.

Lemma nth_masked (g : bool * list pyval -> list pyval)
      (mask : list bool) (rows : list (list pyval)) i :
  length mask = length rows -> (i < length rows)%nat ->
  nth i (map g (combine mask rows)) [] = g (nth i mask false, nth i rows []).
Proof.
  revert mask i. induction rows as [|r rs IH]; intros [|m ms] i Hm Hi;
    simpl in *; try lia.
  destruct i as [|i']; [reflexivity|]. apply IH; lia.
Qed.

(** The cell of row [i] under the label [s], when there is such a label. *)
Definition get (p : DataFrame) (i : nat) (s : string) : option pyval :=
  option_map (fun j => cell (nth i (data p) []) j) (find_pos (VStr s) (columns p)).

Definition default (c : option pyval) : pyval :=
  match c with Some x => x | None => nan end.

(** One write into the pivot, read back. *)
Lemma loc_set_get df date_col item_col n p mask ds value i s :
  shaped df date_col item_col n p ->
  length mask = n -> (i < n)%nat ->
  get (loc_set p mask (VStr ds) value) i s
  = if String.eqb s ds
    then Some (if nth i mask false then value else default (get p i ds))
    else get p i s.
Proof.
  intros [_ Hnd Hi Hr Hw] Hmask Hlt.
  assert (Hrow : length (nth i (data p) []) = length (columns p)).
  { rewrite Forall_forall in Hw. apply Hw, nth_In. lia. }
  unfold get, loc_set.
  destruct (find_pos (VStr ds) (columns p)) as [j|] eqn:Ej; cbn [columns data].
  - rewrite nth_masked by lia. cbn [fst snd].
    pose proof (find_pos_lt _ _ Ej) as Hj.
    destruct (String.eqb s ds) eqn:Es.
    + apply String.eqb_eq in Es. subst s. rewrite Ej. cbn [option_map default].
      destruct (nth i mask false); [|reflexivity].
      rewrite cell_set_nth by lia. now rewrite Nat.eqb_refl.
    + destruct (find_pos (VStr s) (columns p)) as [k|] eqn:Ek; [|reflexivity].
      cbn [option_map]. destruct (nth i mask false); [|reflexivity].
      rewrite cell_set_nth by lia.
      destruct (Nat.eqb k j) eqn:Ekj; [|reflexivity].
      apply Nat.eqb_eq in Ekj. subst k.
      pose proof (find_pos_text_at _ _ Ej) as A.
      pose proof (find_pos_text_at _ _ Ek) as B.
      rewrite A in B. injection B as ->.
      now rewrite String.eqb_refl in Es.
  - rewrite nth_masked by lia. cbn [fst snd].
    rewrite find_pos_app.
    destruct (String.eqb s ds) eqn:Es.
    + apply String.eqb_eq in Es. subst s. rewrite Ej, String.eqb_refl.
      cbn [option_map default]. rewrite cell_app, Hrow, Nat.ltb_irrefl.
      now rewrite Nat.eqb_refl.
    + rewrite String.eqb_sym, Es.
      destruct (find_pos (VStr s) (columns p)) as [k|] eqn:Ek; [|reflexivity].
      cbn [option_map]. rewrite cell_app, Hrow.
      pose proof (find_pos_lt _ _ Ek) as Hk.
      apply Nat.ltb_lt in Hk. now rewrite Hk.
Qed.

(** The entries of [unique] differ from one another. *)
Lemma unique_acc_distinct seen l :
  ForallOrdPairs (fun a b => py_same b a = false) (unique_acc seen l)
  /\ Forall (fun x => existsb (py_same x) seen = false) (unique_acc seen l).
Proof.
  revert seen. induction l as [|x l IH]; intros seen; simpl.
  - split; constructor.
  - destruct (existsb (py_same x) seen) eqn:E; [apply IH|].
    destruct (IH (x :: seen)) as (Hp & Hs). split.
    + constructor; [|exact Hp].
      eapply Forall_impl; [|exact Hs].
      intros y Hy. simpl in Hy. now apply orb_false_iff in Hy.
    + constructor; [exact E|].
      eapply Forall_impl; [|exact Hs].
      intros y Hy. simpl in Hy. now apply orb_false_iff in Hy.
Qed.

Lemma unique_later_differ l i :
  (i < length (unique l))%nat ->
  unique l = (firstn i (unique l) ++ nth i (unique l) nan
                :: skipn (S i) (unique l))%list
  /\ Forall (fun k => py_eq (nth i (unique l) nan) k = false)
            (skipn (S i) (unique l)).
Proof.
  intros Hi.
  destruct (unique_acc_distinct [] l) as (Hp & _). fold (unique l) in Hp.
  revert i Hi. induction Hp as [|x xs Hx Hxs IH]; intros i Hi; simpl in Hi;
    [lia|].
  destruct i as [|i'].
  - split; [reflexivity|]. cbn [nth skipn].
    eapply Forall_impl; [|exact Hx].
    intros k Hk. destruct (py_eq x k) eqn:E; [|reflexivity].
    rewrite py_eq_sym in E. apply py_eq_same in E. congruence.
  - destruct (IH i') as (Hsplit & Hrest); [lia|].
    split; [|exact Hrest].
    change (x :: xs = x :: (firstn i' xs ++ nth i' xs nan
                              :: skipn (S i') xs)%list).
    now f_equal.
Qed.

(** *** One date of the pivot *)

(** The value an item gets at a date: that of the first row of the date
    that carries the item. *)
Definition found (df : DataFrame) (item_col value_col : string)
           (date_data : list (list pyval)) (item : pyval) : option pyval :=
  match filter (fun r => py_eq (Metrics.row_get df r (VStr item_col)) item)
               date_data with
  | [] => None
  | r :: _ => Some (Metrics.row_get df r (VStr value_col))
  end.

(** The effect of one turn of the inner loop on one cell. *)
Definition upd (m : option pyval) (same : bool) (c : option pyval)
  : option pyval :=
  match m with
  | None => c
  | Some v => Some (if same then v else default c)
  end.

Lemma upd_others ks (m : pyval -> option pyval) (same : pyval -> bool) v :
  Forall (fun k => same k = false) ks ->
  fold_left (fun c k => upd (m k) (same k) c) ks (Some v) = Some v.
Proof.
  induction 1 as [|k ks Hk _ IH]; simpl; [reflexivity|].
  rewrite Hk. unfold upd at 2. destruct (m k); exact IH.
Qed.

Lemma upd_own ks1 k0 ks2 (m : pyval -> option pyval) (same : pyval -> bool) v c :
  m k0 = Some v -> same k0 = true ->
  Forall (fun k => same k = false) ks2 ->
  fold_left (fun c k => upd (m k) (same k) c) (ks1 ++ k0 :: ks2) c = Some v.
Proof.
  intros Hm Hs Hrest. rewrite fold_left_app. simpl.
  rewrite Hm, Hs. unfold upd at 2. now apply upd_others.
Qed.

Section OneTable.
Variable df : DataFrame.
Variables date_col item_col value_col : string.
Variable rest0 : list string.
Variable cols : list string.
Hypothesis value_cols :
  filter (fun c => negb (String.eqb c date_col || String.eqb c item_col)) cols
  = value_col :: rest0.

Let items := unique (col_values df (VStr item_col)).
Let n := length items.

(** A pivot on the way: shaped, and with its item column untouched. *)
Definition sound (p : DataFrame) : Prop :=
  shaped df date_col item_col n p /\ iloc_col 0 p = items.

Lemma sound_item_pos p : sound p -> find_pos (VStr item_col) (columns p) = Some O.
Proof.
  intros ([(rest & Hc & _) _ _ _ _] & _). rewrite Hc. cbn [find_pos].
  change (py_same (VStr item_col) (VStr item_col))
    with (String.eqb item_col item_col).
  now rewrite String.eqb_refl.
Qed.

Lemma sound_item_cell p i :
  sound p -> cell (nth i (data p) []) 0 = nth i items nan.
Proof.
  intros (_ & Hitems). rewrite <- Hitems. unfold iloc_col.
  change (cell (nth i (data p) []) 0
          = nth i (map (fun r => cell r 0) (data p)) (cell [] 0)).
  now rewrite (map_nth (fun r => cell r 0)).
Qed.

Lemma fill_item_get date_data dt p item i s :
  In dt (col_values df (VStr date_col)) ->
  date_str_of dt <> item_col ->
  sound p -> (i < n)%nat ->
  get (fill_item df item_col value_col date_data (date_str_of dt) p item) i s
  = if String.eqb s (date_str_of dt)
    then upd (found df item_col value_col date_data item)
             (py_eq (nth i items nan) item) (get p i (date_str_of dt))
    else get p i s.
Proof.
  intros Hdt Hne Hp Hi. unfold fill_item, found, Metrics.row_get.
  destruct (filter _ date_data) as [|r rs].
  - unfold upd. now destruct (String.eqb s (date_str_of dt)) eqn:E;
      [apply String.eqb_eq in E; subst|].
  - destruct Hp as (Hsh & Hitems).
    rewrite (@loc_set_get df date_col item_col n p _ (date_str_of dt) _ i s Hsh);
      [|rewrite length_map; now destruct Hsh|exact Hi].
    destruct (String.eqb s (date_str_of dt)); [|reflexivity].
    unfold upd. f_equal.
    assert (Hrows : (i < length (data p))%nat) by (destruct Hsh; lia).
    rewrite (nth_indep _ false (py_eq (cell [] 0) item))
      by (rewrite length_map; exact Hrows).
    rewrite (sound_item_pos (conj Hsh Hitems)).
    rewrite (map_nth (fun pr => py_eq (cell pr 0) item)).
    now rewrite (@sound_item_cell p i (conj Hsh Hitems)).
Qed.

Lemma fill_item_sound date_data dt p item :
  In dt (col_values df (VStr date_col)) ->
  date_str_of dt <> item_col ->
  sound p ->
  sound (fill_item df item_col value_col date_data (date_str_of dt) p item).
Proof.
  intros Hdt Hne (Hsh & Hitems). split.
  - now apply fill_item_shaped.
  - rewrite <- Hitems. now apply (@fill_item_items df date_col item_col n).
Qed.

Lemma fill_items_get date_data dt ks p i s :
  In dt (col_values df (VStr date_col)) ->
  date_str_of dt <> item_col ->
  sound p -> (i < n)%nat ->
  let q := fold_left (fill_item df item_col value_col date_data (date_str_of dt))
                     ks p in
  sound q
  /\ get q i s
     = if String.eqb s (date_str_of dt)
       then fold_left (fun c k => upd (found df item_col value_col date_data k)
                                      (py_eq (nth i items nan) k) c)
                      ks (get p i (date_str_of dt))
       else get p i s.
Proof.
  intros Hdt Hne Hp Hi. revert p Hp.
  induction ks as [|k ks IH]; intros p Hp; cbn [fold_left].
  - split; [exact Hp|].
    now destruct (String.eqb s (date_str_of dt)) eqn:E;
      [apply String.eqb_eq in E; subst|].
  - destruct (IH _ (@fill_item_sound date_data dt p k Hdt Hne Hp))
      as (Hq & Hget).
    split; [exact Hq|]. rewrite Hget.
    rewrite (@fill_item_get date_data dt p k i s Hdt Hne Hp Hi).
    rewrite (@fill_item_get date_data dt p k i (date_str_of dt) Hdt Hne Hp Hi).
    rewrite String.eqb_refl.
    now destruct (String.eqb s (date_str_of dt)).
Qed.

(** The rows of a date. *)
Definition rows_of (dt : pyval) : list (list pyval) :=
  filter (fun r => py_eq (Metrics.row_get df r (VStr date_col)) dt) (data df).

Lemma fill_date_get dt p i s :
  In dt (col_values df (VStr date_col)) ->
  date_str_of dt <> item_col ->
  sound p -> (i < n)%nat ->
  sound (fill_date df cols date_col item_col p dt)
  /\ get (fill_date df cols date_col item_col p dt) i s
     = if String.eqb s (date_str_of dt)
       then fold_left (fun c k => upd (found df item_col value_col (rows_of dt) k)
                                      (py_eq (nth i items nan) k) c)
                      items (get p i (date_str_of dt))
       else get p i s.
Proof.
  intros Hdt Hne Hp Hi. unfold fill_date. rewrite value_cols.
  assert (Hks : col_values p (VStr item_col) = items).
  { unfold col_values. rewrite (sound_item_pos Hp). now destruct Hp. }
  rewrite Hks.
  assert (Hrows : filter (fun r =>
                    match find_pos (VStr date_col) (columns df) with
                    | Some j => py_eq (cell r j) dt
                    | None => false
                    end) (data df) = rows_of dt).
  { unfold rows_of, Metrics.row_get. apply filter_ext. intros r.
    destruct (find_pos (VStr date_col) (columns df)) as [j|] eqn:Ej;
      [reflexivity|].
    exfalso. unfold col_values in Hdt. now rewrite Ej in Hdt. }
  rewrite Hrows.
  apply (@fill_items_get (rows_of dt) dt items p i s Hdt Hne Hp Hi).
Qed.

(** *** All the dates *)

Lemma fill_dates_get dates p i s :
  (forall dt, In dt dates ->
     In dt (col_values df (VStr date_col)) /\ date_str_of dt <> item_col) ->
  NoDup (map date_str_of dates) ->
  sound p -> (i < n)%nat ->
  let q := fold_left (fill_date df cols date_col item_col) dates p in
  (~ In s (map date_str_of dates) -> get q i s = get p i s)
  /\ (forall dt, In dt dates -> s = date_str_of dt ->
        get q i s
        = fold_left (fun c k => upd (found df item_col value_col (rows_of dt) k)
                                    (py_eq (nth i items nan) k) c)
                    items (get p i s)).
Proof.
  intros Hall Hnd Hp Hi. revert p Hp Hall Hnd.
  induction dates as [|d ds IH]; intros p Hp Hall Hnd; cbn [fold_left].
  - split; [reflexivity|intros dt []].
  - destruct (Hall d (or_introl eq_refl)) as (Hd & Hne).
    destruct (@fill_date_get d p i s Hd Hne Hp Hi) as (Hq & Hget).
    cbn [map] in Hnd. apply NoDup_cons_iff in Hnd. destruct Hnd as (Hfresh & Hnd).
    destruct (IH _ Hq (fun dt H => Hall dt (or_intror H)) Hnd) as (Hout & Hin).
    split.
    + intros Hs. cbn [map] in Hs.
      rewrite Hout by (intros H; apply Hs; now right).
      rewrite Hget.
      destruct (String.eqb s (date_str_of d)) eqn:E; [|reflexivity].
      apply String.eqb_eq in E. exfalso. apply Hs. now left.
    + intros dt [<-|Hdt] Hs.
      * subst s. rewrite Hout by exact Hfresh.
        rewrite Hget. now rewrite String.eqb_refl.
      * rewrite (Hin dt Hdt Hs). rewrite Hget.
        destruct (String.eqb s (date_str_of d)) eqn:E; [|reflexivity].
        apply String.eqb_eq in E. exfalso. apply Hfresh.
        rewrite <- E, Hs. now apply in_map.
Qed.

End OneTable.

Lemma first_of_filters {A : Type} (f g : A -> bool) (l : list A) :
  hd_error (filter g (filter f l)) = find (fun x => f x && g x) l.
Proof.
  induction l as [|x l IH]; simpl; [reflexivity|].
  destruct (f x); simpl; [|exact IH].
  destruct (g x); simpl; [reflexivity|exact IH].
Qed.

End PivotValues.

(** [convert_em_to_sina_format], case 2 (lines 1329-1354): the values of
    the pivot built from a long table.  When the dates of the date
    column print as different labels, none of them as the label of the item
    column, the cell of an item under a date is the value, in the first
    value column, of the first row of the table that carries this date and
    this item (read as the same value). *)
Theorem long_pivot_takes_first_value
  (df t : Pandas.DataFrame) (cols : list string)
  (date_col item_col value_col : string) (others : list string)
  (i : nat) (dt : Pandas.pyval) (r : list Pandas.pyval) :
  Pandas.distinct_labels df ->
  Pandas.df_empty df = false ->
  Normalizer.str_labels (Pandas.columns df) = Some cols ->
  Normalizer.shape_of df cols = Normalizer.Long date_col ->
  Normalizer.choose_item_col df cols date_col = Some item_col ->
  item_col <> "" ->
  filter (fun c => negb (String.eqb c date_col || String.eqb c item_col)) cols
  = value_col :: others ->
  NoDup (map Normalizer.date_str_of
             (Pandas.unique (Pandas.col_values df (Pandas.VStr date_col)))) ->
  (forall d, In d (Pandas.col_values df (Pandas.VStr date_col)) ->
             Normalizer.date_str_of d <> item_col) ->
  Normalizer.convert_em_to_sina_format (Some df) = Pandas.Returns t ->
  let items := Pandas.unique (Pandas.col_values df (Pandas.VStr item_col)) in
  (i < length items)%nat ->
  In dt (Pandas.unique (Pandas.col_values df (Pandas.VStr date_col))) ->
  find (fun row =>
          Pandas.py_eq (Metrics.row_get df row (Pandas.VStr date_col)) dt
          && Pandas.py_eq (Metrics.row_get df row (Pandas.VStr item_col))
                          (nth i items Pandas.nan)) (Pandas.data df)
  = Some r ->
  exists j,
    Pandas.find_pos (Pandas.VStr (Normalizer.date_str_of dt)) (Pandas.columns t)
    = Some j
    /\ Reading.same_value
         (Pandas.cell (nth i (Pandas.data t) []) j)
         (Metrics.row_get df r (Pandas.VStr value_col)).
Proof.
  intros _ Hne Hcols Hshape Hic Hname Hvalue Hprint Hitem Hrun items Hi Hdt Hfind.
  unfold Normalizer.convert_em_to_sina_format in Hrun.
  rewrite Hne, Hcols, Hshape in Hrun. injection Hrun as <-.
  unfold Normalizer.pivot_long. rewrite Hic.
  assert (Htruthy : Normalizer.truthy (Some item_col) = true).
  { simpl. destruct (String.eqb item_col "") eqn:E; [|reflexivity].
    apply String.eqb_eq in E. contradiction. }
  rewrite Htruthy.
  change (Pandas.mkDF [Pandas.VStr item_col] None
            (Pandas.range_index
               (length (Pandas.unique (Pandas.col_values df (Pandas.VStr item_col)))))
            None
            (map (fun u => [u])
                 (Pandas.unique (Pandas.col_values df (Pandas.VStr item_col)))))
    with (Normalizer.items_only df item_col).
  set (dates := Pandas.unique (Pandas.col_values df (Pandas.VStr date_col))) in *.
  assert (Hstart : PivotValues.sound df date_col item_col
                     (Normalizer.items_only df item_col)).
  { split; [apply PivotFacts.items_only_shaped|].
    unfold Normalizer.items_only, Pandas.iloc_col. cbn [Pandas.data].
    rewrite map_map. cbn. apply map_id. }
  assert (Hall : forall d, In d dates ->
            In d (Pandas.col_values df (Pandas.VStr date_col))
            /\ Normalizer.date_str_of d <> item_col).
  { intros d Hd. apply PivotFacts.unique_In in Hd. split; [exact Hd|].
    now apply Hitem. }
  pose proof (@PivotValues.fill_dates_get df date_col item_col value_col others
                cols Hvalue dates (Normalizer.items_only df item_col) i
                (Normalizer.date_str_of dt) Hall Hprint Hstart Hi) as Hget.
  cbv zeta in Hget. destruct Hget as (_ & Hget).
  specialize (Hget dt Hdt eq_refl).
  set (q := fold_left _ dates _) in *.
  assert (Hnone : PivotValues.get (Normalizer.items_only df item_col) i
                    (Normalizer.date_str_of dt) = None).
  { unfold PivotValues.get, Normalizer.items_only. cbn [Pandas.columns Pandas.find_pos].
    change (Pandas.py_same (Pandas.VStr item_col)
              (Pandas.VStr (Normalizer.date_str_of dt)))
      with (String.eqb item_col (Normalizer.date_str_of dt)).
    destruct (String.eqb item_col (Normalizer.date_str_of dt)) eqn:E;
      [|reflexivity].
    apply String.eqb_eq in E. exfalso.
    apply (proj2 (Hall dt Hdt)). now symmetry. }
  rewrite Hnone in Hget.
  destruct (PivotValues.unique_later_differ
              (Pandas.col_values df (Pandas.VStr item_col)) Hi)
    as (Hsplit & Hlater).
  fold items in Hsplit, Hlater.
  pose proof (find_some _ _ Hfind) as (_ & Hboth).
  apply andb_true_iff in Hboth. destruct Hboth as (_ & Hown).
  apply CellFacts.py_eq_refl_of in Hown.
  assert (Hfound : PivotValues.found df item_col value_col
                     (PivotValues.rows_of df date_col dt)
                     (nth i items Pandas.nan)
                   = Some (Metrics.row_get df r (Pandas.VStr value_col))).
  { unfold PivotValues.found, PivotValues.rows_of.
    rewrite <- PivotValues.first_of_filters in Hfind.
    destruct (filter _ (filter _ (Pandas.data df))) as [|r' rs];
      [discriminate Hfind|].
    cbn [hd_error] in Hfind. now injection Hfind as ->. }
  fold items in Hget.
  set (F := fun (c : option Pandas.pyval) (k : Pandas.pyval) => _) in Hget.
  rewrite Hsplit in Hget. subst F.
  rewrite (@PivotValues.upd_own _ _ _
             (PivotValues.found df item_col value_col
                                (PivotValues.rows_of df date_col dt))
             (Pandas.py_eq (nth i items Pandas.nan))
             _ None Hfound Hown Hlater) in Hget.
  unfold PivotValues.get in Hget.
  destruct (Pandas.find_pos (Pandas.VStr (Normalizer.date_str_of dt))
                            (Pandas.columns q)) as [j|];
    [|discriminate Hget].
  cbn [option_map] in Hget. injection Hget as Hcell.
  exists j. split; [reflexivity|].
  rewrite Hcell. apply CellFacts.same_value_refl.
Qed.

Lemma long_pivot_layout_witness :
  length (Pandas.data (Normalizer.pivot_long Samples.long_statement
                         ["REPORT_DATE"; "ITEM_NAME"; "AMOUNT"] "REPORT_DATE"))
  = 2%nat.
Proof.
  destruct (@long_pivot_layout
              Samples.long_statement
              (Normalizer.pivot_long Samples.long_statement
                 ["REPORT_DATE"; "ITEM_NAME"; "AMOUNT"] "REPORT_DATE")
              ["REPORT_DATE"; "ITEM_NAME"; "AMOUNT"] "REPORT_DATE" "ITEM_NAME")
    as (_ & _ & _ & Hrows & _).
  - unfold Pandas.distinct_labels. vm_compute.
    repeat constructor; simpl; intuition discriminate.
  - reflexivity.
  - reflexivity.
  - reflexivity.
  - reflexivity.
  - discriminate.
  - reflexivity.
  - exact Hrows.
Defined.

Lemma long_pivot_takes_first_value_witness :
  exists j,
    Pandas.find_pos (Pandas.VStr "20231231")
      (Pandas.columns (Normalizer.pivot_long Samples.long_statement
                         ["REPORT_DATE"; "ITEM_NAME"; "AMOUNT"] "REPORT_DATE"))
    = Some j
    /\ Reading.same_value
         (Pandas.cell
            (nth 0 (Pandas.data (Normalizer.pivot_long Samples.long_statement
                                   ["REPORT_DATE"; "ITEM_NAME"; "AMOUNT"]
                                   "REPORT_DATE")) []) j)
         (Pandas.VInt 1000).
Proof.
  apply (@long_pivot_takes_first_value
           Samples.long_statement
           (Normalizer.pivot_long Samples.long_statement
              ["REPORT_DATE"; "ITEM_NAME"; "AMOUNT"] "REPORT_DATE")
           ["REPORT_DATE"; "ITEM_NAME"; "AMOUNT"] "REPORT_DATE" "ITEM_NAME"
           "AMOUNT" [] 0%nat (Pandas.VStr "2023-12-31")
           [Pandas.VStr "2023-12-31"; Pandas.VStr "营业收入"; Pandas.VInt 1000]).
  - unfold Pandas.distinct_labels. vm_compute.
    repeat constructor; simpl; intuition discriminate.
  - reflexivity.
  - reflexivity.
  - reflexivity.
  - reflexivity.
  - discriminate.
  - reflexivity.
  - vm_compute. repeat constructor; simpl; intuition discriminate.
  - intros d Hd. vm_compute in Hd.
    repeat (destruct Hd as [<-|Hd]; [vm_compute; discriminate|]).
    destruct Hd.
  - reflexivity.
  - simpl. lia.
  - vm_compute. now left.
  - reflexivity.
Defined.

(** ** The extractor and the growth table *)

Module ExtractorFacts.
Import PyStr PyFloat Pandas Dates Metrics.

Definition text_label (l : pyval) : Prop := exists s, l = VStr s.
Definition number_label (l : pyval) : Prop := exists z, l = VInt z.

Lemma range_index_numbers n : Forall number_label (range_index n).
Proof.
  unfold range_index. apply Forall_forall. intros l Hl.
  apply in_map_iff in Hl. destruct Hl as (i & <- & _). now eexists.
Qed.

Lemma stringified_first_cells df :
  Forall (fun r => r <> []) (data df) ->
  Forall text_label (iloc_col 0 (stringify_first_col df)).
Proof.
  intros Hrows. unfold iloc_col, stringify_first_col. cbn [data].
  rewrite map_map. rewrite Forall_map.
  eapply Forall_impl; [|exact Hrows].
  intros [|c t] Hr; [contradiction|]. now eexists.
Qed.

Lemma rename_keeps_text old s labels :
  Forall text_label labels ->
  Forall text_label (map (fun c => if py_same c old then VStr s else c) labels).
Proof.
  intros H. rewrite Forall_map. eapply Forall_impl; [|exact H].
  intros c Hc. destruct (py_same c old); [now eexists|exact Hc].
Qed.

(** The frame the lookups run on has text for column labels and numbers
    for row labels, when the statement has full rows numbered by integers
    and a column axis without a name, or named by a text. *)
Lemma located_frame_labels df0 df project_col :
  rectangular df0 ->
  (forall l, columns_name df0 = Some l -> text_label l) ->
  Forall number_label (index df0) ->
  locate_project_col (stringify_first_col (stringify_labels df0))
  = Returns (df, project_col) ->
  Forall text_label (columns df) /\ Forall number_label (index df).
Proof.
  intros (_ & Hwide) Hname Hindex.
  set (s := stringify_first_col (stringify_labels df0)).
  assert (Hs : Forall text_label (columns s) /\ Forall number_label (index s)).
  { split; [|exact Hindex]. cbn. rewrite Forall_map.
    apply Forall_forall. intros l _. now eexists. }
  unfold locate_project_col.
  destruct (find _ project_col_candidates);
    [intros H; injection H as <- _; exact Hs|].
  destruct (existsb _ statement_terms);
    [intros H; injection H as <- _; exact Hs|].
  destruct (existsb is_date_text (hd [] (data s)));
    [|intros H; injection H as <- _; exact Hs].
  unfold turn_table, reset_index.
  set (t1 := mkDF _ _ _ _ _).
  destruct (label_in (reset_index_label t1) (columns t1)); [discriminate|].
  cbn [bind]. intros H. injection H as <- _.
  cbn [rename_column columns index]. split; [|apply range_index_numbers].
  apply rename_keeps_text. constructor.
  - unfold reset_index_label. subst t1. cbn [index_name columns transpose].
    change (columns_name s) with (columns_name df0).
    destruct (columns_name df0) as [l|]; [now apply Hname|].
    destruct (label_in _ _); now eexists.
  - subst t1. cbn [columns transpose data].
    change (length (columns s)) with (length (columns df0)).
    destruct (columns df0) as [|c cs] eqn:Ec; cbn; [constructor|].
    apply stringified_first_cells. cbn [stringify_labels data].
    eapply Forall_impl; [|exact Hwide].
    intros r Hr Hnil. subst r. discriminate Hr.
Qed.

Section Extractor.
Context {D : DateOps}.

(** What the extractor went through when it returns figures. *)
Lemma get_financial_metrics_inv x rev prof dates :
  get_financial_metrics x = Returns (Some (rev, prof, dates)) ->
  exists df0 df project_col rr pr ms,
    x = Some df0
    /\ locate_project_col (stringify_first_col (stringify_labels df0))
       = Returns (df, project_col)
    /\ ms = (if label_in (VStr "日期") (columns df)
             then metrics_by_date_column df rr pr
             else metrics_by_period df project_col rr pr)
    /\ ms <> []
    /\ rev = map (fun r => m_revenue (snd r)) (sorted_series false ms)
    /\ prof = map (fun r => m_profit (snd r)) (sorted_series false ms)
    /\ dates = map fst (sorted_series false ms).
Proof.
  unfold get_financial_metrics.
  destruct x as [df0|]; [|discriminate].
  destruct (df_empty df0); [discriminate|].
  destruct (locate_project_col _) as [[df project_col]|e] eqn:Eloc;
    [|discriminate].
  cbn [bind].
  destruct (find_row df project_col revenue_patterns) as [[rr|]|e];
    cbn [bind]; try discriminate.
  - destruct (find_row df project_col Metrics.profit_patterns) as [[pr|]|e];
      cbn [bind]; try discriminate.
    destruct (if label_in _ _ then _ else _) as [|m ms'] eqn:Ems;
      [discriminate|].
    intros H. injection H as <- <- <-.
    exists df0, df, project_col, rr, pr, (m :: ms').
    split; [reflexivity|]. split; [exact Eloc|].
    split; [now symmetry|]. split; [discriminate|].
    repeat split.
  - destruct (find_row df project_col Metrics.profit_patterns) as [[pr|]|e];
      cbn [bind]; discriminate.
Qed.

Lemma sorted_series_length asc ms :
  length (sorted_series asc ms) = length ms.
Proof.
  unfold sorted_series.
  rewrite <- (Permutation_length (sort_values_perm asc _)).
  now rewrite length_combine, to_datetime_length, length_map, Nat.min_id.
Qed.

Lemma sorted_series_values asc ms r :
  In r (sorted_series asc ms) -> In (snd r) ms.
Proof.
  unfold sorted_series. intros H.
  apply (Permutation_in _ (Permutation_sym (sort_values_perm asc _))) in H.
  destruct r as [d m]. now apply in_combine_r in H.
Qed.

(** The rows were found in the frame the lookups ran on. *)
Lemma get_financial_metrics_rows df0 df project_col rev prof dates :
  locate_project_col (stringify_first_col (stringify_labels df0))
  = Returns (df, project_col) ->
  get_financial_metrics (Some df0) = Returns (Some (rev, prof, dates)) ->
  exists rr, find_row df project_col revenue_patterns = Returns (Some rr).
Proof.
  intros Hloc. unfold get_financial_metrics.
  destruct (df_empty df0); [discriminate|].
  rewrite Hloc. cbn [bind].
  destruct (find_row df project_col revenue_patterns) as [[rr|]|e];
    cbn [bind]; try discriminate.
  - intros _. now exists rr.
  - destruct (find_row df project_col Metrics.profit_patterns) as [[pr|]|e];
      cbn [bind]; discriminate.
Qed.

(** With a [日期] column in a frame labelled by text and numbered by
    integers, nothing but [nan] comes out. *)
Lemma date_branch_all_nan df0 df project_col rev prof dates :
  Forall text_label (columns df) -> Forall number_label (index df) ->
  locate_project_col (stringify_first_col (stringify_labels df0))
  = Returns (df, project_col) ->
  label_in (VStr "日期") (columns df) = true ->
  get_financial_metrics (Some df0) = Returns (Some (rev, prof, dates)) ->
  rev = repeat FNaN (length dates) /\ prof = repeat FNaN (length dates).
Proof.
  intros Hc Hi Hloc Hlabel H.
  destruct (get_financial_metrics_inv _ H)
    as (df0' & df' & pc & rr & pr & ms & E & Hloc' & Hms & _ & -> & -> & ->).
  injection E as <-. rewrite Hloc in Hloc'. injection Hloc' as <- <-.
  rewrite Hlabel in Hms. subst ms.
  pose proof (@LookupFacts.date_column_branch_all_nan df rr pr Hc Hi) as Hall.
  rewrite length_map, sorted_series_length.
  split.
  - apply (@MetricsFacts.sorted_series_constant D m_revenue).
    eapply Forall_impl; [|exact Hall]. now intros m (Hr & _).
  - apply (@MetricsFacts.sorted_series_constant D m_profit).
    eapply Forall_impl; [|exact Hall]. now intros m (_ & Hp).
Qed.

End Extractor.

End ExtractorFacts.

(** [get_financial_metrics] (lines 184-312): what it returns when it
    returns figures, on a statement whose lookups run on a frame with
    distinct labels.  The three lists have one length, at least 1, and the
    periods come newest first, those without a readable date last. *)
Theorem metrics_lists_go_together
  (D : Dates.DateOps) (df0 df : Pandas.DataFrame) (project_col : Pandas.pyval)
  (revenue profit : list PyFloat.pyfloat) (dates : list (option Z)) :
  Metrics.locate_project_col
    (Metrics.stringify_first_col (Metrics.stringify_labels df0))
  = Pandas.Returns (df, project_col) ->
  Pandas.distinct_labels df ->
  Metrics.get_financial_metrics (Some df0)
  = Pandas.Returns (Some (revenue, profit, dates)) ->
  length revenue = length dates
  /\ length profit = length dates
  /\ (1 <= length dates)%nat
  /\ StronglySorted (Dates.key_le false) dates.
Proof.
  intros _ _ H.
  destruct (ExtractorFacts.get_financial_metrics_inv _ H)
    as (df0' & df' & pc & rr & pr & ms & _ & _ & _ & Hms & -> & -> & ->).
  rewrite !length_map, ExtractorFacts.sorted_series_length.
  repeat split.
  - destruct ms; [contradiction|simpl; lia].
  - apply GrowthFacts.sorted_keys, Dates.sort_values_sorted.
Qed.

Lemma metrics_lists_go_together_witness :
  StronglySorted (Dates.key_le false) [Some 20231231; Some 20221231].
Proof.
  destruct (@metrics_lists_go_together DatesFacts.simple_dates
              Examples.income_statement
              (Metrics.stringify_first_col
                 (Metrics.stringify_labels Examples.income_statement))
              (Pandas.VStr "项目")
              [PyFloat.FFin (1000 # 1); PyFloat.FFin (800 # 1)]
              [PyFloat.FFin (200 # 1); PyFloat.FFin (150 # 1)]
              [Some 20231231; Some 20221231])
    as (_ & _ & _ & Hsorted).
  - reflexivity.
  - unfold Pandas.distinct_labels. vm_compute.
    repeat constructor; simpl; intuition discriminate.
  - vm_compute. reflexivity.
  - exact Hsorted.
Defined.

(** [get_financial_metrics], the branch for dates in the column labels
    (lines 269-293), on a frame with distinct labels: every figure returned
    is a number, none is [nan]. *)
Theorem period_branch_returns_numbers
  (D : Dates.DateOps) (df0 df : Pandas.DataFrame) (project_col : Pandas.pyval)
  (revenue profit : list PyFloat.pyfloat) (dates : list (option Z)) :
  Metrics.locate_project_col
    (Metrics.stringify_first_col (Metrics.stringify_labels df0))
  = Pandas.Returns (df, project_col) ->
  Pandas.distinct_labels df ->
  Pandas.label_in (Pandas.VStr "日期") (Pandas.columns df) = false ->
  Metrics.get_financial_metrics (Some df0)
  = Pandas.Returns (Some (revenue, profit, dates)) ->
  Forall (fun x => PyFloat.is_nan x = false) revenue
  /\ Forall (fun x => PyFloat.is_nan x = false) profit.
Proof.
  intros Hloc _ Hlabel H.
  destruct (ExtractorFacts.get_financial_metrics_inv _ H)
    as (df0' & df' & pc & rr & pr & ms & E & Hloc' & Hms & _ & -> & -> & _).
  injection E as <-. rewrite Hloc in Hloc'. injection Hloc' as <- <-.
  rewrite Hlabel in Hms. subst ms.
  pose proof (MetricsFacts.metrics_by_period_present df project_col rr pr) as Hall.
  rewrite Forall_forall in Hall.
  split; rewrite Forall_map; apply Forall_forall; intros r Hr;
    apply ExtractorFacts.sorted_series_values in Hr; now apply Hall in Hr.
Qed.

Lemma period_branch_returns_numbers_witness :
  Forall (fun x => PyFloat.is_nan x = false)
         [PyFloat.FFin (1000 # 1); PyFloat.FFin (800 # 1)].
Proof.
  apply (@period_branch_returns_numbers DatesFacts.simple_dates
           Examples.income_statement
           (Metrics.stringify_first_col
              (Metrics.stringify_labels Examples.income_statement))
           (Pandas.VStr "项目")
           [PyFloat.FFin (1000 # 1); PyFloat.FFin (800 # 1)]
           [PyFloat.FFin (200 # 1); PyFloat.FFin (150 # 1)]
           [Some 20231231; Some 20221231]).
  - reflexivity.
  - unfold Pandas.distinct_labels. vm_compute.
    repeat constructor; simpl; intuition discriminate.
  - reflexivity.
  - vm_compute. reflexivity.
Defined.

(** [get_financial_metrics], the branch for a frame with a [日期] column
    (lines 263-266): whatever the statement holds, every revenue and every
    net profit returned is [nan], when the rows of the statement are full
    and numbered by integers, its column axis has no name or a text for
    name, and the frame the lookups run on has distinct labels.  The two rows found are labelled by
    the column names and are aligned on the row numbers. *)
Theorem date_branch_returns_no_number
  (D : Dates.DateOps) (df0 df : Pandas.DataFrame) (project_col : Pandas.pyval)
  (revenue profit : list PyFloat.pyfloat) (dates : list (option Z)) :
  Pandas.rectangular df0 ->
  (forall l, Pandas.columns_name df0 = Some l -> exists s, l = Pandas.VStr s) ->
  Forall (fun l => exists z, l = Pandas.VInt z) (Pandas.index df0) ->
  Metrics.locate_project_col
    (Metrics.stringify_first_col (Metrics.stringify_labels df0))
  = Pandas.Returns (df, project_col) ->
  Pandas.distinct_labels df ->
  Pandas.label_in (Pandas.VStr "日期") (Pandas.columns df) = true ->
  Metrics.get_financial_metrics (Some df0)
  = Pandas.Returns (Some (revenue, profit, dates)) ->
  revenue = repeat PyFloat.FNaN (length dates)
  /\ profit = repeat PyFloat.FNaN (length dates).
Proof.
  intros Hrect Hname Hindex Hloc _ Hlabel H.
  destruct (ExtractorFacts.located_frame_labels Hrect Hname Hindex Hloc)
    as (Hc & Hi).
  exact (@ExtractorFacts.date_branch_all_nan D df0 df project_col
           revenue profit dates Hc Hi Hloc Hlabel H).
Qed.

Lemma date_branch_returns_no_number_witness :
  [PyFloat.FNaN; PyFloat.FNaN] = repeat PyFloat.FNaN (length [@None Z; None])
  /\ [PyFloat.FNaN; PyFloat.FNaN] = repeat PyFloat.FNaN (length [@None Z; None]).
Proof.
  apply (@date_branch_returns_no_number DatesFacts.simple_dates
           Examples.dates_in_rows
           (match Metrics.locate_project_col
                    (Metrics.stringify_first_col
                       (Metrics.stringify_labels Examples.dates_in_rows)) with
            | Pandas.Returns (d, _) => d
            | Pandas.Raises _ => Pandas.empty_frame
            end)
           (Pandas.VStr "日期")).
  - split; [reflexivity|]. repeat constructor.
  - intros l Hl. discriminate Hl.
  - repeat constructor; eexists; reflexivity.
  - vm_compute. reflexivity.
  - unfold Pandas.distinct_labels. vm_compute.
    repeat constructor; simpl; intuition discriminate.
  - vm_compute. reflexivity.
  - vm_compute. reflexivity.
Defined.

Module GrowthTable.
Import PyFloat Pandas Dates Metrics.

(** The growth charts raise [ValueError] or nothing. *)
Lemma growth_charts_cases g :
  growth_charts g = Returns tt \/ growth_charts g = Raises ValueError.
Proof.
  unfold growth_charts, plt_bar, plt_pie.
  repeat match goal with
         | |- context [if ?c then _ else _] => destruct c; simpl
         end; auto.
Qed.

Section Table.
Context {D : DateOps}.

Lemma plot_one_period rev prof dates :
  (length rev < 2)%nat ->
  plot_financial_metrics (Some rev) (Some prof) dates = Returns None.
Proof.
  intros H. unfold plot_financial_metrics.
  apply Nat.ltb_lt in H. now rewrite H.
Qed.

(** Two periods: every drawing call is given as many labels as values. *)
Lemma plot_two_periods rev prof dates :
  length rev = 2%nat -> length prof = 2%nat -> length dates = 2%nat ->
  exists g,
    financial_data rev prof dates = Returns g
    /\ plot_financial_metrics (Some rev) (Some prof) dates
       = Returns (Some (mean_dropna (g_revenue_growth g),
                        mean_dropna (g_profit_growth g))).
Proof.
  intros Hr Hp Hd.
  destruct (@GrowthFacts.financial_data_returns D rev prof dates)
    as (g & Hg & Hgd & Hgr & Hgp); [lia|lia|].
  destruct (GrowthFacts.financial_data_inv _ _ _ Hg)
    as (_ & _ & _ & Har & Hap & _).
  exists g. split; [exact Hg|].
  rewrite Hr in Hgd, Hgr, Hgp.
  unfold plot_financial_metrics. rewrite Hr, Hg. simpl.
  unfold plt_plot. rewrite ?Hgd, ?Hgr, ?Hgp. simpl.
  rewrite ?Hgd, ?Hgr, ?Hgp. simpl.
  now rewrite Har, Hap.
Qed.

(** Three periods or more: after line 411 there is one label less than
    there are values, and line 484 draws the values over the labels. *)
Lemma plot_three_periods rev prof dates :
  (3 <= length rev)%nat ->
  length prof = length rev -> length dates = length rev ->
  plot_financial_metrics (Some rev) (Some prof) dates = Raises ValueError.
Proof.
  intros H3 Hp Hd.
  destruct (@GrowthFacts.financial_data_returns D rev prof dates Hp Hd)
    as (g & Hg & Hgd & Hgr & Hgp).
  unfold plot_financial_metrics.
  destruct (length rev <? 2)%nat eqn:E; [apply Nat.ltb_lt in E; lia|].
  rewrite Hg. cbn [bind]. rewrite Hgd, E.
  unfold plt_plot at 1 2. rewrite Hgr, Hgp, length_seq, Nat.eqb_refl.
  cbn [bind].
  destruct (3 <=? length rev)%nat eqn:E3; [|apply Nat.leb_gt in E3; lia].
  destruct (growth_charts_cases g) as [-> | ->]; cbn [bind]; [|reflexivity].
  unfold plt_plot at 1.
  assert (Hl : length (tl (g_dates g)) = (length rev - 1)%nat).
  { destruct (g_dates g); simpl in *; lia. }
  rewrite Hl, Hgr.
  destruct (Nat.eqb_spec (length rev - 1) (length rev)); [lia|reflexivity].
Qed.

End Table.

End GrowthTable.

(** [get_financial_metrics] then [plot_financial_metrics] (lines 303-508),
    as [app] chains them, on a statement whose lookups run on a frame with
    distinct labels: the lists the extractor returns can always be put in
    one frame.  With one period the growth step gives up and returns
    nothing.  With two periods it returns the averages of the two growth
    columns.  With three periods or more it raises [ValueError]: at the
    latest at line 484, where the trend is drawn over the labels of
    line 411, one less than there are values. *)
Theorem growth_step_on_metrics_output
  (D : Dates.DateOps) (df0 df : Pandas.DataFrame) (project_col : Pandas.pyval)
  (revenue profit : list PyFloat.pyfloat) (dates : list (option Z)) :
  Metrics.locate_project_col
    (Metrics.stringify_first_col (Metrics.stringify_labels df0))
  = Pandas.Returns (df, project_col) ->
  Pandas.distinct_labels df ->
  Metrics.get_financial_metrics (Some df0)
  = Pandas.Returns (Some (revenue, profit, dates)) ->
  (length dates = 1%nat ->
   Metrics.plot_financial_metrics (Some revenue) (Some profit) dates
   = Pandas.Returns None)
  /\ (length dates = 2%nat ->
      exists g,
        Metrics.financial_data revenue profit dates = Pandas.Returns g
        /\ Metrics.plot_financial_metrics (Some revenue) (Some profit) dates
           = Pandas.Returns
               (Some (Metrics.mean_dropna (Metrics.g_revenue_growth g),
                      Metrics.mean_dropna (Metrics.g_profit_growth g))))
  /\ ((3 <= length dates)%nat ->
      Metrics.plot_financial_metrics (Some revenue) (Some profit) dates
      = Pandas.Raises Pandas.ValueError).
Proof.
  intros _ _ H.
  destruct (ExtractorFacts.get_financial_metrics_inv _ H)
    as (df0' & df' & pc & rr & pr & ms & _ & _ & _ & Hms & -> & -> & ->).
  set (s := Metrics.sorted_series false ms).
  rewrite length_map. split; [|split].
  - intros H1. apply GrowthTable.plot_one_period. rewrite length_map. lia.
  - intros H2. apply GrowthTable.plot_two_periods; now rewrite !length_map.
  - intros H3. apply GrowthTable.plot_three_periods; rewrite !length_map;
      [exact H3|reflexivity|reflexivity].
Qed.

Lemma growth_step_on_metrics_output_witness :
  Metrics.plot_financial_metrics (D := DatesFacts.simple_dates)
    (Some [PyFloat.FFin (1200 # 1); PyFloat.FFin (1000 # 1);
           PyFloat.FFin (800 # 1)])
    (Some [PyFloat.FFin (240 # 1); PyFloat.FFin (200 # 1);
           PyFloat.FFin (150 # 1)])
    [Some 20231231; Some 20221231; Some 20211231]
  = Pandas.Raises Pandas.ValueError.
Proof.
  destruct (@growth_step_on_metrics_output DatesFacts.simple_dates
              Examples.income_three_years
              (Metrics.stringify_first_col
                 (Metrics.stringify_labels Examples.income_three_years))
              (Pandas.VStr "项目")
              [PyFloat.FFin (1200 # 1); PyFloat.FFin (1000 # 1);
               PyFloat.FFin (800 # 1)]
              [PyFloat.FFin (240 # 1); PyFloat.FFin (200 # 1);
               PyFloat.FFin (150 # 1)]
              [Some 20231231; Some 20221231; Some 20211231])
    as (_ & _ & Hmany).
  - reflexivity.
  - unfold Pandas.distinct_labels. vm_compute.
    repeat constructor; simpl; intuition discriminate.
  - vm_compute. reflexivity.
  - apply Hmany. simpl. lia.
Defined.

(** ** The order of the ratio table *)

Module RatioOrder.
Import PyStr PyFloat Pandas Metrics Ratios.

Lemma compare_lt_trans a b c :
  String.compare a b = Lt -> String.compare b c = Lt -> String.compare a c = Lt.
Proof.
  revert b c. induction a as [|x a IH]; intros [|y b] [|z c]; simpl;
    try discriminate; try reflexivity.
  unfold Ascii.compare.
  destruct (N.compare_spec (N_of_ascii x) (N_of_ascii y)) as [Exy|Lxy|Gxy];
    try discriminate;
    destruct (N.compare_spec (N_of_ascii y) (N_of_ascii z)) as [Eyz|Lyz|Gyz];
    try discriminate; intros Hab Hbc.
  - rewrite Exy, Eyz, N.compare_refl. now apply (IH b c).
  - rewrite Exy. apply N.compare_lt_iff in Lyz. now rewrite Lyz.
  - rewrite <- Eyz. apply N.compare_lt_iff in Lxy. now rewrite Lxy.
  - assert (H : (N_of_ascii x < N_of_ascii z)%N) by lia.
    apply N.compare_lt_iff in H. now rewrite H.
Qed.

(** [b] comes before [a] in the order of Python on texts (the order of
    the code points, which is the order of the UTF-8 bytes). *)
Definition newer (a b : string) : Prop := String.compare b a = Lt.

Definition not_older (a b : string) : Prop := String.leb b a = true.

Lemma not_older_cases a b : not_older a b <-> newer a b \/ a = b.
Proof.
  unfold not_older, newer, String.leb.
  destruct (String.compare b a) eqn:E.
  - apply String.compare_eq_iff in E. subst. tauto.
  - tauto.
  - split; [discriminate|]. intros [H| ->]; [discriminate|].
    pose proof (String.compare_antisym b b) as A.
    rewrite E in A. discriminate A.
Qed.

Lemma not_older_trans a b c : not_older a b -> not_older b c -> not_older a c.
Proof.
  rewrite !not_older_cases. intros [H1| ->] [H2| ->]; auto.
  left. unfold newer in *. now apply (compare_lt_trans c b a).
Qed.

Lemma insert_desc_sorted s l :
  StronglySorted not_older l -> StronglySorted not_older (insert_desc s l).
Proof.
  induction 1 as [|x l Hs IH Hall]; simpl.
  - constructor; constructor.
  - destruct (String.leb x s) eqn:E.
    + constructor; [now constructor|].
      constructor; [exact E|].
      eapply Forall_impl; [|exact Hall].
      intros y Hy. now apply (@not_older_trans s x y).
    + constructor; [exact IH|].
      apply Forall_forall. intros y Hy.
      apply RatiosFacts.insert_desc_In in Hy. destruct Hy as [->|Hy].
      * destruct (String.leb_total x s) as [H|H]; [congruence|exact H].
      * rewrite Forall_forall in Hall. now apply Hall.
Qed.

Lemma sort_desc_sorted l : StronglySorted not_older (sort_desc l).
Proof.
  induction l as [|x l IH]; simpl; [constructor|].
  now apply insert_desc_sorted.
Qed.

Lemma insert_desc_nodup s l :
  ~ In s l -> NoDup l -> NoDup (insert_desc s l).
Proof.
  intros Hs Hl. revert Hs. induction Hl as [|x l Hx Hl IH]; simpl; intros Hs.
  - constructor; [exact Hs|constructor].
  - destruct (String.leb x s).
    + constructor; [exact Hs|]. now constructor.
    + constructor.
      * intros H. apply RatiosFacts.insert_desc_In in H.
        destruct H as [->|H]; [apply Hs; now left|contradiction].
      * apply IH. intros H. apply Hs. now right.
Qed.

Lemma sort_desc_nodup l : NoDup l -> NoDup (sort_desc l).
Proof.
  induction 1 as [|x l Hx Hl IH]; simpl; [constructor|].
  apply insert_desc_nodup; [|exact IH].
  intros H. apply Hx. now apply (proj1 (RatiosFacts.sort_desc_In x l)).
Qed.

Lemma strictly_sorted l :
  StronglySorted not_older l -> NoDup l -> StronglySorted newer l.
Proof.
  induction 1 as [|x l Hs IH Hall]; intros Hnd; [constructor|].
  apply NoDup_cons_iff in Hnd. destruct Hnd as (Hx & Hnd).
  constructor; [now apply IH|].
  apply Forall_forall. intros y Hy.
  rewrite Forall_forall in Hall. specialize (Hall y Hy).
  apply not_older_cases in Hall. destruct Hall as [H| ->]; [exact H|].
  contradiction.
Qed.

(** The common dates, newest first, none twice. *)
Lemma common_dates_descend bs_dates is_dates :
  StronglySorted newer (common_dates bs_dates is_dates).
Proof.
  unfold common_dates. apply strictly_sorted.
  - apply sort_desc_sorted.
  - apply sort_desc_nodup, NoDup_nodup.
Qed.

Lemma sorted_filter {A : Type} (R : A -> A -> Prop) (f : A -> bool) l :
  StronglySorted R l -> StronglySorted R (filter f l).
Proof.
  induction 1 as [|x l Hs IH Hall]; simpl; [constructor|].
  destruct (f x); [|exact IH].
  constructor; [exact IH|].
  apply Forall_forall. intros y Hy. apply filter_In in Hy.
  rewrite Forall_forall in Hall. now apply Hall.
Qed.

(** The dates of the rows are the common dates that gave a row. *)
Lemma ratio_dates bs ist ar er pr dates :
  map r_date (flat_map (ratio_for_date bs ist ar er pr) dates)
  = filter (fun d => match ratio_for_date bs ist ar er pr d with
                     | [] => false
                     | _ => true
                     end) dates.
Proof.
  induction dates as [|d ds IH]; simpl; [reflexivity|].
  rewrite map_app, IH.
  unfold ratio_for_date at 1 3.
  destruct (notna _ && notna _ && notna _); [|reflexivity].
  destruct (float_of_cell _); [|reflexivity].
  destruct (float_of_cell _); [|reflexivity].
  destruct (float_of_cell _); reflexivity.
Qed.

Lemma get_financial_ratios_inv bs0 is0 rows :
  get_financial_ratios (Some bs0) (Some is0) = Some rows ->
  exists ar er pr,
    rows = flat_map (ratio_for_date (as_text bs0) (as_text is0) ar er pr)
                    (common_dates (period_labels (as_text bs0))
                                  (period_labels (as_text is0)))
    /\ rows <> [].
Proof.
  unfold get_financial_ratios.
  destruct (df_empty bs0 || df_empty is0); [discriminate|].
  destruct (common_dates _ _) as [|d ds] eqn:Ed; [discriminate|].
  destruct (asset_rows _) as [|ar ?]; [discriminate|].
  destruct (equity_rows _) as [|er ?]; [discriminate|].
  destruct (profit_rows _) as [|pr ?]; [discriminate|].
  destruct (flat_map _ (d :: ds)) as [|r rs] eqn:Er; [discriminate|].
  intros H. injection H as <-.
  exists ar, er, pr. split; [now symmetry|discriminate].
Qed.

End RatioOrder.

(** [get_financial_ratios] (lines 510-729): the rows of a ratio table
    computed from statements with distinct labels.
    There is at least one; each stands for a reporting date that labels a
    column, other than the first, of both statements; the dates come
    newest first in the order of Python on texts, and no date comes
    twice. *)
Theorem ratio_rows_newest_first
  (bs0 is0 : Pandas.DataFrame) (rows : list Ratios.ratio_row) :
  Pandas.distinct_labels bs0 -> Pandas.distinct_labels is0 ->
  Ratios.get_financial_ratios (Some bs0) (Some is0) = Some rows ->
  rows <> []
  /\ StronglySorted (fun a b => String.compare b a = Lt)
                    (map Ratios.r_date rows)
  /\ forall row, In row rows ->
       In (Ratios.r_date row) (Ratios.period_labels (Ratios.as_text bs0))
       /\ In (Ratios.r_date row) (Ratios.period_labels (Ratios.as_text is0)).
Proof.
  intros _ _ H.
  destruct (RatioOrder.get_financial_ratios_inv _ _ H)
    as (ar & er & pr & -> & Hne).
  split; [exact Hne|]. split.
  - rewrite RatioOrder.ratio_dates.
    apply RatioOrder.sorted_filter, RatioOrder.common_dates_descend.
  - intros row Hrow.
    apply (in_map Ratios.r_date) in Hrow.
    rewrite RatioOrder.ratio_dates in Hrow.
    apply filter_In in Hrow. destruct Hrow as (Hd & _).
    now apply RatiosFacts.common_dates_In in Hd.
Qed.

Lemma ratio_rows_newest_first_witness :
  StronglySorted (fun a b => String.compare b a = Lt) ["20231231"; "20221231"].
Proof.
  destruct (@ratio_rows_newest_first
              Samples.balance_sheet_two_years Samples.income_statement_two_years
              (match Ratios.get_financial_ratios
                       (Some Samples.balance_sheet_two_years)
                       (Some Samples.income_statement_two_years) with
               | Some rows => rows
               | None => []
               end))
    as (_ & Hsorted & _).
  - unfold Pandas.distinct_labels. vm_compute.
    repeat constructor; simpl; intuition discriminate.
  - unfold Pandas.distinct_labels. vm_compute.
    repeat constructor; simpl; intuition discriminate.
  - vm_compute. reflexivity.
  - exact Hsorted.
Defined.

(* ================================================================== *)
(** ** The loader *)

Module LoaderFacts.
Import PyStr PyFloat Pandas Metrics Loader.

Lemma turn_statement_turned f :
  columns_name f = None ->
  label_in (VStr "index") (index f) = false ->
  turn_statement (stringify_labels f) = Returns (turned_statement f).
Proof.
  intros Hn Hi. unfold turn_statement, reset_index, reset_index_label.
  cbn [transpose stringify_labels index_name columns_name columns index data].
  rewrite Hn, Hi, Hi. cbn [bind].
  unfold rename_column, turned_statement.
  cbn [columns columns_name index index_name data map].
  rewrite !length_map.
  f_equal. f_equal.
  - change (py_same (VStr "index") (VStr "index")) with true. cbn iota.
    f_equal. now apply NormalizerFacts.rename_absent.
  - pose proof (NormalizerFacts.rows_with_labels
                  (map (fun l => VStr (py_str l)) (columns f))
                  (fun j => iloc_col j (stringify_labels f)) 0) as H.
    rewrite length_map in H. rewrite H.
    apply map_ext_in. intros j Hj. apply in_seq in Hj.
    rewrite Nat.sub_0_r. f_equal.
    rewrite (nth_indep _ nan (VStr (py_str nan)))
      by (rewrite length_map; lia).
    now rewrite (map_nth (fun l => VStr (py_str l))).
Qed.

Lemma turned_statement_rectangular f :
  rectangular f -> rectangular (turned_statement f).
Proof.
  intros (Hi & Hw). split; cbn [turned_statement index data columns].
  - unfold range_index. now rewrite !length_map, !length_seq.
  - apply Forall_forall. intros r Hr.
    apply in_map_iff in Hr. destruct Hr as (j & <- & _).
    cbn [length]. unfold iloc_col. now rewrite length_map, Hi.
Qed.

Lemma turned_statement_cell f i j :
  (i < length (columns f))%nat ->
  cell (nth i (data (turned_statement f)) []) (S j)
  = cell (nth j (data f) []) i.
Proof.
  intros Hi. cbn [turned_statement data].
  rewrite (nth_indep _ [] (VStr (py_str (nth (length (columns f)) (columns f) nan))
                             :: iloc_col (length (columns f)) f))
    by now rewrite length_map, length_seq.
  rewrite (map_nth (fun j => VStr (py_str (nth j (columns f) nan)) :: iloc_col j f)).
  rewrite seq_nth by exact Hi. cbn [Nat.add].
  unfold cell at 1. cbn [nth]. unfold iloc_col.
  transitivity (nth j (map (fun r => cell r i) (data f)) (cell [] i)).
  - f_equal. now destruct i.
  - apply (map_nth (fun r => cell r i)).
Qed.

Lemma turned_statement_label f i :
  (i < length (columns f))%nat ->
  cell (nth i (data (turned_statement f)) []) 0
  = VStr (py_str (nth i (columns f) nan)).
Proof.
  intros Hi. cbn [turned_statement data].
  rewrite (nth_indep _ [] (VStr (py_str (nth (length (columns f)) (columns f) nan))
                             :: iloc_col (length (columns f)) f))
    by now rewrite length_map, length_seq.
  rewrite (map_nth (fun j => VStr (py_str (nth j (columns f) nan)) :: iloc_col j f)).
  rewrite seq_nth by exact Hi. reflexivity.
Qed.

(** A file that is read is turned; the others give no statement. *)
Lemma turn_if_read_stored d path :
  (forall f, file_at d path = Table f ->
             columns_name f = None
             /\ label_in (VStr "index") (index f) = false) ->
  turn_if_read (read_statement d path)
  = Returns (match file_at d path with
             | Table f => Some (turned_statement f)
             | Absent | Unreadable _ => None
             end).
Proof.
  intros H. unfold read_statement.
  destruct (file_at d path) as [|e|f]; try reflexivity.
  destruct (H f eq_refl) as (Hn & Hi).
  cbn [turn_if_read]. now rewrite (turn_statement_turned f Hn Hi).
Qed.

End LoaderFacts.

(** [load_existing_reports] (lines 137-182): what it returns.  When the
    files it reads have an unnamed column axis and no row labelled
    ['index'], the loader does not raise; without the directory of the stock
    it returns no statement; otherwise each statement is there exactly when
    its own file is there and can be read, whatever happens to the other
    file, and then it is the file turned: its first column is labelled
    [日期], it has one row per column of the file, that starts with the
    label of the column as text and goes on with the cells of the column
    (read as the same values). *)
Theorem load_turns_each_file (d : Loader.disk) (stock_code : string) :
  (forall path f, Loader.file_at d path = Loader.Table f ->
     Pandas.columns_name f = None
     /\ Pandas.label_in (Pandas.VStr "index") (Pandas.index f) = false
     /\ Pandas.rectangular f) ->
  exists bs ist,
    Loader.load_existing_reports d stock_code = Pandas.Returns (bs, ist)
    /\ (Loader.dir_exists d (Loader.reports_dir stock_code) = false ->
        bs = None /\ ist = None)
    /\ (Loader.dir_exists d (Loader.reports_dir stock_code) = true ->
        forall path o,
          (path, o) = (Loader.bs_file stock_code, bs)
          \/ (path, o) = (Loader.is_file stock_code, ist) ->
          match Loader.file_at d path with
          | Loader.Table f =>
              exists t,
                o = Some t
                /\ Pandas.columns t = Pandas.VStr "日期" :: Pandas.index f
                /\ Pandas.rectangular t
                /\ length (Pandas.data t) = length (Pandas.columns f)
                /\ forall i j,
                     (i < length (Pandas.columns f))%nat ->
                     Pandas.cell (nth i (Pandas.data t) []) 0
                     = Pandas.VStr (Pandas.py_str (nth i (Pandas.columns f) Pandas.nan))
                     /\ Reading.same_value
                          (Pandas.cell (nth i (Pandas.data t) []) (S j))
                          (Pandas.cell (nth j (Pandas.data f) []) i)
          | Loader.Absent | Loader.Unreadable _ => o = None
          end).
Proof.
  intros Hfiles.
  assert (Hturn : forall path,
            Loader.turn_if_read (Loader.read_statement d path)
            = Pandas.Returns (match Loader.file_at d path with
                              | Loader.Table f => Some (Loader.turned_statement f)
                              | _ => None
                              end)).
  { intros path. apply LoaderFacts.turn_if_read_stored.
    intros f Hf. destruct (Hfiles path f Hf) as (Hn & Hi & _). now split. }
  unfold Loader.load_existing_reports.
  destruct (Loader.dir_exists d (Loader.reports_dir stock_code)) eqn:Hdir;
    cbn [negb].
  2:{ exists None, None. split; [reflexivity|].
      split; [now intros _|discriminate]. }
  rewrite !Hturn. cbn [Pandas.bind].
  eexists _, _. split; [reflexivity|].
  split; [discriminate|]. intros _ path o Hpo.
  assert (Ho : o = match Loader.file_at d path with
                   | Loader.Table f => Some (Loader.turned_statement f)
                   | _ => None
                   end).
  { destruct Hpo as [E|E]; injection E as -> ->; reflexivity. }
  clear Hpo. subst o.
  destruct (Loader.file_at d path) as [|e|f] eqn:Hf; try reflexivity.
  destruct (Hfiles path f Hf) as (_ & _ & Hrect).
  exists (Loader.turned_statement f). split; [reflexivity|].
  split; [reflexivity|].
  split; [now apply LoaderFacts.turned_statement_rectangular|].
  split.
  { cbn [Loader.turned_statement Pandas.data]. now rewrite length_map, length_seq. }
  intros i j Hi. split.
  - now apply LoaderFacts.turned_statement_label.
  - rewrite LoaderFacts.turned_statement_cell by exact Hi.
    apply CellFacts.same_value_refl.
Qed.

Lemma load_turns_each_file_witness :
  exists bs ist,
    Loader.load_existing_reports Samples.saved_statements "600519"
    = Pandas.Returns (bs, ist).
Proof.
  destruct (@load_turns_each_file Samples.saved_statements "600519")
    as (bs & ist & Hload & _).
  - intros path f. unfold Samples.saved_statements. cbn.
    destruct (String.eqb path "reports/600519/income_statement.csv").
    + intros H. injection H as <-.
      split; [reflexivity|]. split; [reflexivity|].
      split; [reflexivity|repeat constructor].
    + destruct (String.eqb path "reports/600519/balance_sheet.csv");
        intros H; discriminate H.
  - exists bs, ist. exact Hload.
Defined.

Module PipelineFacts.
Import PyStr PyFloat Pandas Metrics Loader.

Lemma label_in_renamed old s labels :
  label_in old labels = true ->
  label_in (VStr s) (map (fun c => if py_same c old then VStr s else c) labels)
  = true.
Proof.
  unfold label_in. induction labels as [|c l IH]; cbn [map existsb];
    [discriminate|].
  destruct (py_same c old) eqn:E; cbn [orb].
  - intros _. change (py_same (VStr s) (VStr s)) with (String.eqb s s).
    now rewrite String.eqb_refl.
  - intros H. rewrite (IH H). apply orb_true_r.
Qed.

Lemma label_in_stringified s labels :
  label_in (VStr s) labels = true ->
  label_in (VStr s) (map (fun l => VStr (py_str l)) labels) = true.
Proof.
  unfold label_in. induction labels as [|c l IH]; cbn [map existsb];
    [discriminate|].
  intros H. apply orb_true_iff in H. destruct H as [H|H].
  - assert (E : find_pos (VStr s) [c] = Some O)
      by (cbn [find_pos]; now rewrite H).
    apply PivotValues.find_pos_text_at in E. cbn [nth] in E. subst c.
    cbn [py_str]. change (py_same (VStr s) (VStr s)) with (String.eqb s s).
    now rewrite String.eqb_refl.
  - rewrite (IH H). apply orb_true_r.
Qed.

Lemma absent_label_has_no_place l labels :
  label_in l labels = false -> find_pos l labels = None.
Proof.
  unfold label_in. induction labels as [|c cs IH]; cbn [existsb find_pos];
    [reflexivity|].
  intros H. apply orb_false_iff in H. destruct H as (Hc & Hcs).
  now rewrite Hc, (IH Hcs).
Qed.

(** Whatever the rows of the file are called, a loaded statement has a
    column labelled [日期]. *)
Lemma turn_statement_inv f t :
  columns_name f = None ->
  turn_statement f = Returns t ->
  label_in (VStr "日期") (columns t) = true
  /\ index t = range_index (length (columns f))
  /\ columns_name t = index_name f
  /\ length (columns t) = S (length (index f))
  /\ data t = map (fun p : pyval * list pyval => fst p :: snd p)
                  (combine (columns f)
                           (map (fun j => iloc_col j f)
                                (seq 0 (length (columns f))))).
Proof.
  intros Hn. unfold turn_statement, reset_index, reset_index_label.
  cbn [transpose index_name columns_name columns index data].
  rewrite Hn.
  destruct (label_in (VStr "index") (index f)) eqn:Hi.
  - destruct (label_in (VStr "level_0") (index f)); cbn [bind]; [discriminate|].
    intros H. injection H as <-.
    cbn [rename_column columns index columns_name data].
    repeat split.
    + cbn [map]. change (py_same (VStr "level_0") (VStr "index")) with false.
      cbn iota. unfold label_in. cbn [existsb].
      change (py_same (VStr "level_0") (VStr "日期")) with false. cbn [orb].
      now apply label_in_renamed.
    + cbn [length]. now rewrite length_map.
  - rewrite Hi. cbn [bind]. intros H. injection H as <-.
    cbn [rename_column columns index columns_name data].
    repeat split.
    cbn [length]. now rewrite length_map.
Qed.

Lemma turn_statement_rectangular f t :
  columns_name f = None -> rectangular f ->
  turn_statement f = Returns t -> rectangular t.
Proof.
  intros Hn (Hi & Hw) Ht.
  destruct (@turn_statement_inv f t Hn Ht) as (_ & Hindex & _ & Hcols & Hdata).
  split.
  - rewrite Hindex, Hdata. unfold range_index.
    rewrite !length_map, length_combine, length_map, !length_seq. lia.
  - rewrite Hdata, Hcols. apply Forall_forall. intros r Hr.
    apply in_map_iff in Hr. destruct Hr as ([l c] & <- & Hin).
    apply in_combine_r in Hin. apply in_map_iff in Hin.
    destruct Hin as (j & <- & _).
    cbn [fst snd length]. unfold iloc_col. now rewrite length_map, Hi.
Qed.

Lemma locate_cases df1 df project_col :
  locate_project_col df1 = Returns (df, project_col) ->
  df = df1 \/ project_col = VStr "日期".
Proof.
  unfold locate_project_col.
  destruct (find _ project_col_candidates);
    [intros H; injection H as <- _; now left|].
  destruct (existsb _ statement_terms);
    [intros H; injection H as <- _; now left|].
  destruct (existsb is_date_text (hd [] (data df1)));
    [|intros H; injection H as <- _; now left].
  destruct (turn_table df1); cbn [bind]; [|discriminate].
  intros H. injection H as _ <-. now right.
Qed.

(** What the loader returned for the income statement. *)
Lemma loaded_income_statement d stock_code bs ist f :
  load_existing_reports d stock_code = Returns (bs, Some ist) ->
  file_at d (is_file stock_code) = Table f ->
  turn_statement (stringify_labels f) = Returns ist.
Proof.
  unfold load_existing_reports.
  destruct (negb (dir_exists d (reports_dir stock_code))); [discriminate|].
  destruct (turn_if_read (read_statement d (bs_file stock_code)));
    cbn [bind]; [|discriminate].
  unfold read_statement at 1. intros H Hf. rewrite Hf in H.
  cbn [turn_if_read] in H.
  destruct (turn_statement (stringify_labels f)); cbn [bind] in H;
    [|discriminate H].
  now injection H as _ <-.
Qed.

End PipelineFacts.

(** [load_existing_reports] then [get_financial_metrics], as [app] chains
    them (lines 1905 and 1947): no figure comes out of a loaded income
    statement.  Whatever file is read (rows as wide as its header, an
    unnamed column axis, an index that has no name or a text for name), if
    the extractor returns figures for the loaded statement, every revenue
    and every net profit among them is [nan].  The loaded statement always
    has a column [日期], so the extractor aligns the rows it found on the
    row numbers, or has turned the table and looks for a column that is
    not there. *)
Theorem loaded_statement_gives_no_number
  (D : Dates.DateOps) (d : Loader.disk) (stock_code : string)
  (bs : option Pandas.DataFrame) (ist f df : Pandas.DataFrame)
  (project_col : Pandas.pyval)
  (revenue profit : list PyFloat.pyfloat) (dates : list (option Z)) :
  Loader.load_existing_reports d stock_code = Pandas.Returns (bs, Some ist) ->
  Loader.file_at d (Loader.is_file stock_code) = Loader.Table f ->
  Pandas.rectangular f ->
  Pandas.columns_name f = None ->
  (forall l, Pandas.index_name f = Some l -> exists s, l = Pandas.VStr s) ->
  Metrics.locate_project_col
    (Metrics.stringify_first_col (Metrics.stringify_labels ist))
  = Pandas.Returns (df, project_col) ->
  Pandas.distinct_labels ist -> Pandas.distinct_labels df ->
  Metrics.get_financial_metrics (Some ist)
  = Pandas.Returns (Some (revenue, profit, dates)) ->
  revenue = repeat PyFloat.FNaN (length dates)
  /\ profit = repeat PyFloat.FNaN (length dates).
Proof.
  intros Hload Hfile Hrect Hname Hiname Hloc _ _ Hrun.
  pose proof (@PipelineFacts.loaded_income_statement d stock_code bs ist f
                Hload Hfile) as Hturn.
  assert (Hname' : Pandas.columns_name (Metrics.stringify_labels f) = None)
    by exact Hname.
  assert (Hrect' : Pandas.rectangular (Metrics.stringify_labels f)).
  { destruct Hrect as (Hi & Hw). split; [exact Hi|].
    cbn [Metrics.stringify_labels Pandas.data Pandas.columns].
    now rewrite length_map. }
  destruct (@PipelineFacts.turn_statement_inv (Metrics.stringify_labels f) ist
              Hname' Hturn)
    as (Hdate & Hindex & Hcname & _ & _).
  pose proof (@PipelineFacts.turn_statement_rectangular
                (Metrics.stringify_labels f) ist Hname' Hrect' Hturn)
    as Hrect_ist.
  assert (Hlabels : Forall ExtractorFacts.text_label (Pandas.columns df)
                    /\ Forall ExtractorFacts.number_label (Pandas.index df)).
  { apply (@ExtractorFacts.located_frame_labels ist df project_col Hrect_ist).
    - intros l Hl. rewrite Hcname in Hl. now apply Hiname.
    - rewrite Hindex. apply ExtractorFacts.range_index_numbers.
    - exact Hloc. }
  destruct Hlabels as (Hc & Hi).
  destruct (Pandas.label_in (Pandas.VStr "日期") (Pandas.columns df)) eqn:Hlabel.
  - exact (@ExtractorFacts.date_branch_all_nan D ist df project_col
             revenue profit dates Hc Hi Hloc Hlabel Hrun).
  - exfalso.
    destruct (@PipelineFacts.locate_cases _ df project_col Hloc) as [->| ->].
    + cbn [Metrics.stringify_first_col Metrics.stringify_labels Pandas.columns]
        in Hlabel.
      rewrite (@PipelineFacts.label_in_stringified "日期" (Pandas.columns ist)
                 Hdate) in Hlabel.
      discriminate Hlabel.
    + destruct (@ExtractorFacts.get_financial_metrics_rows D ist df
                  (Pandas.VStr "日期") revenue profit dates Hloc Hrun)
        as (rr & Hrr).
      unfold Metrics.find_row in Hrr.
      rewrite (@PipelineFacts.absent_label_has_no_place
                 (Pandas.VStr "日期") (Pandas.columns df) Hlabel) in Hrr.
      discriminate Hrr.
Qed.

Lemma loaded_statement_gives_no_number_witness :
  [PyFloat.FNaN; PyFloat.FNaN] = repeat PyFloat.FNaN (length [@None Z; None])
  /\ [PyFloat.FNaN; PyFloat.FNaN] = repeat PyFloat.FNaN (length [@None Z; None]).
Proof.
  apply (@loaded_statement_gives_no_number DatesFacts.simple_dates
           Samples.saved_statements "600519" None
           (Loader.turned_statement Samples.income_file)
           Samples.income_file
           (match Metrics.locate_project_col
                    (Metrics.stringify_first_col
                       (Metrics.stringify_labels
                          (Loader.turned_statement Samples.income_file))) with
            | Pandas.Returns (t, _) => t
            | Pandas.Raises _ => Pandas.empty_frame
            end)
           (Pandas.VStr "日期")).
  - vm_compute. reflexivity.
  - reflexivity.
  - split; [reflexivity|repeat constructor].
  - reflexivity.
  - intros l Hl. discriminate Hl.
  - vm_compute. reflexivity.
  - unfold Pandas.distinct_labels. vm_compute.
    repeat constructor; simpl; intuition discriminate.
  - unfold Pandas.distinct_labels. vm_compute.
    repeat constructor; simpl; intuition discriminate.
  - vm_compute. reflexivity.
Defined.

(* ================================================================== *)
(** ** The download from the second provider *)

Module EMFacts.
Import PyStr Pandas Normalizer DownloadEM.

Definition gave_nothing (a : string * Download.fetched) : Prop :=
  usable (snd a) = None.

(** Every source asked comes after sources that gave nothing. *)
Lemma first_usable_asked attempts asked found name :
  first_usable attempts = (asked, found) -> In name asked ->
  exists before f after,
    attempts = (before ++ (name, f) :: after)%list
    /\ Forall gave_nothing before.
Proof.
  revert asked found. induction attempts as [|[n f] rest IH];
    intros asked found; cbn [first_usable].
  - intros H. injection H as <- _. intros [].
  - destruct (usable f) as [df|] eqn:Ef.
    + intros H. injection H as <- _. intros [<-|[]].
      exists [], f, rest. split; [reflexivity|constructor].
    + destruct (first_usable rest) as [asked' found'] eqn:Er.
      intros H. injection H as <- _. intros [<-|Hin].
      * exists [], f, rest. split; [reflexivity|constructor].
      * destruct (IH asked' found' eq_refl Hin) as (before & g & after & -> & Hb).
        exists ((n, f) :: before), g, after. split; [reflexivity|].
        constructor; [exact Ef|exact Hb].
Qed.

(** The frame taken is that of the first source that answers. *)
Lemma first_usable_found attempts asked df :
  first_usable attempts = (asked, Some df) ->
  exists before name f after,
    attempts = (before ++ (name, f) :: after)%list
    /\ Forall gave_nothing before
    /\ usable f = Some df
    /\ asked = (map fst before ++ [name])%list.
Proof.
  revert asked. induction attempts as [|[n f] rest IH]; intros asked;
    cbn [first_usable].
  - discriminate.
  - destruct (usable f) as [df'|] eqn:Ef.
    + intros H. injection H as <- <-.
      exists [], n, f, rest. repeat split; [constructor|exact Ef].
    + destruct (first_usable rest) as [asked' found'] eqn:Er.
      intros H. injection H as <- ->.
      destruct (IH asked' eq_refl) as (before & name & g & after & -> & Hb & Hg & ->).
      exists ((n, f) :: before), name, g, after.
      repeat split; [constructor; [exact Ef|exact Hb]|exact Hg].
Qed.

Lemma usable_not_empty f df : usable f = Some df -> df_empty df = false.
Proof.
  destruct f as [e| |d]; cbn; try discriminate.
  destruct (df_empty d) eqn:E; [discriminate|].
  intros H. now injection H as <-.
Qed.

Lemma em_file_path_place s stock_code report_type :
  String.prefix "financial_data/" (file_path s stock_code report_type) = true.
Proof.
  unfold file_path, Download.data_dir. cbn. apply TextFacts.prefix_empty.
Qed.

(** *** The test for a date column *)

Lemma any_date_label_found labels cols :
  any_date_label labels = Returns true ->
  str_labels labels = Some cols ->
  exists c, In c cols /\ contains "DATE" c = true.
Proof.
  revert cols. induction labels as [|l ls IH]; intros cols; cbn; [discriminate|].
  destruct l as [|z|r|c]; try discriminate.
  cbn [str_label].
  destruct (str_labels ls) as [cs|] eqn:Els; [|discriminate].
  destruct (contains "DATE" c) eqn:Ec.
  - intros _ H. injection H as <-. exists c. split; [now left|exact Ec].
  - intros Ha H. injection H as <-.
    destruct (IH cs Ha eq_refl) as (c' & Hin & Hc').
    exists c'. split; [now right|exact Hc'].
Qed.

Lemma label_in_text s labels cols :
  label_in (VStr s) labels = true ->
  str_labels labels = Some cols -> In s cols.
Proof.
  revert cols. unfold label_in.
  induction labels as [|l ls IH]; intros cols; cbn [existsb str_labels];
    [discriminate|].
  destruct l as [|z|r|c]; cbn [str_label]; try discriminate.
  destruct (str_labels ls) as [cs|]; [|discriminate].
  intros H E. injection E as <-.
  apply orb_true_iff in H. destruct H as [H|H].
  - change (py_same (VStr c) (VStr s)) with (String.eqb c s) in H.
    apply String.eqb_eq in H. now left.
  - right. now apply IH.
Qed.

Lemma date_label_is_date_name c : contains "DATE" c = true -> is_date_name c = true.
Proof. intros H. unfold is_date_name. now rewrite H. Qed.

(** A table that passes the test of the downloader is a long table for
    the normalizer. *)
Lemma needs_conversion_long df cols :
  needs_conversion df = Returns true ->
  str_labels (columns df) = Some cols ->
  exists date_col, shape_of df cols = Long date_col.
Proof.
  intros Hgate Hcols.
  assert (Hdate : exists c, In c cols /\ is_date_name c = true).
  { unfold needs_conversion in Hgate.
    destruct (label_in (VStr "REPORT_DATE") (columns df)) eqn:Hr.
    - exists "REPORT_DATE". split; [|reflexivity].
      now apply (label_in_text "REPORT_DATE" (columns df)).
    - destruct (any_date_label_found _ Hgate Hcols) as (c & Hin & Hc).
      exists c. split; [exact Hin|now apply date_label_is_date_name]. }
  destruct Hdate as (c & Hin & Hc).
  unfold shape_of.
  destruct (filter is_date_name cols) as [|d ds] eqn:Ef.
  - assert (H : In c (filter is_date_name cols))
      by (apply filter_In; now split).
    rewrite Ef in H. contradiction.
  - now exists d.
Qed.

(** What goes into [report_data]: the statement itself, or its pivot. *)
Lemma converted_cases df t :
  df_empty df = false ->
  converted df = Returns t ->
  (needs_conversion df = Returns false /\ t = df)
  \/ (exists cols date_col,
        str_labels (columns df) = Some cols
        /\ shape_of df cols = Long date_col
        /\ t = pivot_long df cols date_col).
Proof.
  intros He. unfold converted.
  destruct (needs_conversion df) as [[|]|e] eqn:Hgate; cbn [bind];
    [| |discriminate].
  - unfold convert_em_to_sina_format. rewrite He.
    destruct (str_labels (columns df)) as [cols|] eqn:Hcols; [|discriminate].
    destruct (needs_conversion_long df Hgate Hcols) as (date_col & Hshape).
    rewrite Hshape. intros H. injection H as <-.
    right. now exists cols, date_col.
  - intros H. injection H as <-. now left.
Qed.

(** *** The three statements *)

Lemma fetch_inv s stock_code r report_type r' found :
  fetch s stock_code r report_type = (r', found) ->
  exists asked,
    first_usable (attempts s stock_code report_type) = (asked, found)
    /\ calls r' = (calls r ++ map (fun name => (report_type, name)) asked)%list
    /\ written r' = written r /\ report_data r' = report_data r
    /\ successful_downloads r' = successful_downloads r
    /\ failed r' = failed r.
Proof.
  unfold fetch.
  destruct (first_usable (attempts s stock_code report_type)) as [asked f].
  intros H. injection H as <- <-. exists asked. repeat split.
Qed.

(** What holds of the run while the statements are kept. *)
Record kept_well (s : sources) (stock_code : string)
       (statements : list (string * option DataFrame)) (r : run) : Prop := {
  kw_count : failed r = None -> successful_downloads r = length (report_data r);
  kw_files : forall path df, In (path, df) (written r) ->
      exists report_type,
        In (report_type, Some df) statements
        /\ path = file_path s stock_code report_type;
  kw_data : forall k t, In (k, t) (report_data r) ->
      exists df,
        In (k, Some df) statements
        /\ In (file_path s stock_code k, df) (written r)
        /\ converted df = Returns t
}.

Lemma kept_well_more s stock_code statements x r :
  kept_well s stock_code statements r ->
  kept_well s stock_code (x :: statements) r.
Proof.
  intros [H1 H2 H3]. constructor; [exact H1| |].
  - intros path df Hin. destruct (H2 path df Hin) as (rt & Hrt & Hp).
    exists rt. split; [now right|exact Hp].
  - intros k t Hin. destruct (H3 k t Hin) as (df & Hdf & Hw & Hc).
    exists df. split; [now right|]. now split.
Qed.

Lemma keep_well s stock_code statements r report_type found :
  (forall f, ~ In (report_type, f) statements) ->
  kept_well s stock_code statements r ->
  kept_well s stock_code ((report_type, found) :: statements)
            (keep s stock_code r (report_type, found)).
Proof.
  intros Hnew Hr. cbn [keep].
  destruct (failed r) as [e|] eqn:Hf; [now apply kept_well_more|].
  destruct found as [df|]; [|now apply kept_well_more].
  destruct Hr as [H1 H2 H3].
  assert (Hfresh : forall t, ~ In (report_type, t) (report_data r)).
  { intros t Hin. destruct (H3 _ _ Hin) as (d & Hd & _). now apply Hnew in Hd. }
  destruct (Download.to_csv (base s) _ df) as [e|].
  { apply kept_well_more. constructor; cbn [failed written report_data];
      [discriminate|exact H2|exact H3]. }
  destruct (converted df) as [t|e] eqn:Hc.
  - rewrite (DownloadInvariants.dict_set_fresh _ _ _ Hfresh).
    constructor; cbn [failed written report_data successful_downloads].
    + intros _. rewrite length_app. cbn [length]. rewrite (H1 Hf). lia.
    + intros path d Hin. apply in_app_iff in Hin. destruct Hin as [Hin|[E|[]]].
      * destruct (H2 path d Hin) as (rt & Hrt & Hp).
        exists rt. split; [now right|exact Hp].
      * injection E as <- <-. exists report_type. split; [now left|reflexivity].
    + intros k t' Hin. apply in_app_iff in Hin. destruct Hin as [Hin|[E|[]]].
      * destruct (H3 k t' Hin) as (d & Hd & Hw & Hcd).
        exists d. split; [now right|]. split; [|exact Hcd].
        apply in_app_iff. now left.
      * injection E as <- <-. exists df. split; [now left|].
        split; [|exact Hc]. apply in_app_iff. right. now left.
  - constructor; cbn [failed written report_data successful_downloads].
    + discriminate.
    + intros path d Hin. apply in_app_iff in Hin. destruct Hin as [Hin|[E|[]]].
      * destruct (H2 path d Hin) as (rt & Hrt & Hp).
        exists rt. split; [now right|exact Hp].
      * injection E as <- <-. exists report_type. split; [now left|reflexivity].
    + intros k t' Hin. destruct (H3 k t' Hin) as (d & Hd & Hw & Hcd).
      exists d. split; [now right|]. split; [|exact Hcd].
      apply in_app_iff. now left.
Qed.

Lemma keep_calls s stock_code r statement :
  calls (keep s stock_code r statement) = calls r.
Proof.
  destruct statement as [report_type [df|]]; cbn [keep];
    destruct (failed r); try reflexivity.
  destruct (Download.to_csv (base s) _ df); [reflexivity|].
  destruct (converted df); reflexivity.
Qed.

Lemma keep_count s stock_code r statement :
  (successful_downloads (keep s stock_code r statement)
   <= S (successful_downloads r))%nat.
Proof.
  destruct statement as [report_type [df|]]; cbn [keep];
    destruct (failed r); try (cbn; lia).
  destruct (Download.to_csv (base s) _ df); [cbn; lia|].
  destruct (converted df); cbn; lia.
Qed.

(** The run of the whole function, laid out. *)
Lemma run_inv s stock_code :
  exists r1 r2 r3 bs ist cf,
    fetch s stock_code (mkRun [] [] [] O None) "资产负债表" = (r1, bs)
    /\ fetch s stock_code r1 "利润表" = (r2, ist)
    /\ fetch s stock_code r2 "现金流量表" = (r3, cf)
    /\ let r := fold_left (keep s stock_code)
                          [("资产负债表", bs); ("利润表", ist); ("现金流量表", cf)] r3 in
       download_financial_reports_em s stock_code
       = match failed r with
         | Some _ => (None, "未知", r)
         | None =>
             if (0 <? successful_downloads r)%nat
             then (Some (report_data r),
                   fst (Download.stock_name_of (base s) stock_code
                          (Download.mkRun O [] [] [])), r)
             else (None,
                   fst (Download.stock_name_of (base s) stock_code
                          (Download.mkRun O [] [] [])), r)
         end.
Proof.
  unfold download_financial_reports_em.
  destruct (fetch s stock_code (mkRun [] [] [] O None) "资产负债表")
    as [r1 bs] eqn:E1.
  destruct (fetch s stock_code r1 "利润表") as [r2 ist] eqn:E2.
  destruct (fetch s stock_code r2 "现金流量表") as [r3 cf] eqn:E3.
  exists r1, r2, r3, bs, ist, cf.
  split; [reflexivity|]. split; [exact E2|]. split; [exact E3|].
  reflexivity.
Qed.

End EMFacts.

Module EMRun.
Import PyStr Pandas Normalizer DownloadEM.

(** The run after the three statements were asked for and kept. *)
Lemma run_facts s stock_code :
  exists a1 a2 a3 bs ist cf r,
    first_usable (attempts s stock_code "资产负债表") = (a1, bs)
    /\ first_usable (attempts s stock_code "利润表") = (a2, ist)
    /\ first_usable (attempts s stock_code "现金流量表") = (a3, cf)
    /\ calls r = (map (fun n => ("资产负债表", n)) a1
                    ++ map (fun n => ("利润表", n)) a2
                    ++ map (fun n => ("现金流量表", n)) a3)%list
    /\ EMFacts.kept_well s stock_code
         [("现金流量表", cf); ("利润表", ist); ("资产负债表", bs)] r
    /\ (successful_downloads r <= 3)%nat
    /\ r = fold_left (keep s stock_code)
                     [("资产负债表", bs); ("利润表", ist); ("现金流量表", cf)]
                     (mkRun (calls r) [] [] O None)
    /\ download_financial_reports_em s stock_code
       = match failed r with
         | Some _ => (None, "未知", r)
         | None =>
             if (0 <? successful_downloads r)%nat
             then (Some (report_data r),
                   fst (Download.stock_name_of (base s) stock_code
                          (Download.mkRun O [] [] [])), r)
             else (None,
                   fst (Download.stock_name_of (base s) stock_code
                          (Download.mkRun O [] [] [])), r)
         end.
Proof.
  destruct (EMFacts.run_inv s stock_code)
    as (r1 & r2 & r3 & bs & ist & cf & E1 & E2 & E3 & Hrun).
  cbv zeta in Hrun.
  destruct (EMFacts.fetch_inv _ _ _ _ E1) as (a1 & F1 & C1 & W1 & D1 & N1 & X1).
  destruct (EMFacts.fetch_inv _ _ _ _ E2) as (a2 & F2 & C2 & W2 & D2 & N2 & X2).
  destruct (EMFacts.fetch_inv _ _ _ _ E3) as (a3 & F3 & C3 & W3 & D3 & N3 & X3).
  cbn [calls written report_data successful_downloads failed app] in *.
  set (r := fold_left (keep s stock_code) _ r3) in *.
  assert (Hr3 : r3 = mkRun (calls r3) [] [] O None).
  { destruct r3 as [c w d n f]. cbn in *. congruence. }
  assert (Hcalls : calls r = calls r3).
  { subst r. cbn [fold_left]. now rewrite !EMFacts.keep_calls. }
  exists a1, a2, a3, bs, ist, cf, r.
  split; [exact F1|]. split; [exact F2|]. split; [exact F3|].
  split.
  { rewrite Hcalls, C3, C2, C1. now rewrite <- app_assoc. }
  assert (H0 : EMFacts.kept_well s stock_code [] r3).
  { rewrite Hr3. constructor; cbn [failed written report_data successful_downloads].
    - reflexivity.
    - intros path df [].
    - intros k t []. }
  split.
  { subst r. cbn [fold_left].
    apply EMFacts.keep_well.
    { intros f [H|[H|[]]]; discriminate H. }
    apply EMFacts.keep_well.
    { intros f [H|[]]. discriminate H. }
    apply EMFacts.keep_well; [intros f []|exact H0]. }
  split.
  { subst r. cbn [fold_left].
    pose proof (EMFacts.keep_count s stock_code r3 ("资产负债表", bs)) as K1.
    pose proof (EMFacts.keep_count s stock_code
                  (keep s stock_code r3 ("资产负债表", bs)) ("利润表", ist)) as K2.
    pose proof (EMFacts.keep_count s stock_code
                  (keep s stock_code (keep s stock_code r3 ("资产负债表", bs))
                        ("利润表", ist)) ("现金流量表", cf)) as K3.
    rewrite Hr3 in K1 at 2. cbn [successful_downloads] in K1. lia. }
  split; [|exact Hrun].
  rewrite Hcalls. now rewrite <- Hr3.
Qed.

End EMRun.

(** [download_financial_reports_em] (lines 1028-1265): the sources of a
    statement are tried in order.  A function of a provider is called for a
    statement only when every source before it gave nothing for that
    statement (it raised, or returned nothing or an empty table); and a
    file written holds what the first source that answered returned for
    one of the three statements. *)
Theorem em_sources_are_tried_in_order
  (s : DownloadEM.sources) (stock_code : string) :
  let '(_, _, r) := DownloadEM.download_financial_reports_em s stock_code in
  (forall report_type name,
      In (report_type, name) (DownloadEM.calls r) ->
      exists before f after,
        DownloadEM.attempts s stock_code report_type
        = (before ++ (name, f) :: after)%list
        /\ Forall (fun a => DownloadEM.usable (snd a) = None) before)
  /\ (forall path df,
        In (path, df) (DownloadEM.written r) ->
        exists report_type before name f after,
          In report_type Download.report_types
          /\ path = DownloadEM.file_path s stock_code report_type
          /\ DownloadEM.attempts s stock_code report_type
             = (before ++ (name, f) :: after)%list
          /\ Forall (fun a => DownloadEM.usable (snd a) = None) before
          /\ DownloadEM.usable f = Some df).
Proof.
  destruct (EMRun.run_facts s stock_code)
    as (a1 & a2 & a3 & bs & ist & cf & r & F1 & F2 & F3 & Hcalls & Hkept & _ & _ & ->).
  assert (Hgoal :
    (forall report_type name,
        In (report_type, name) (DownloadEM.calls r) ->
        exists before f after,
          DownloadEM.attempts s stock_code report_type
          = (before ++ (name, f) :: after)%list
          /\ Forall (fun a => DownloadEM.usable (snd a) = None) before)
    /\ (forall path df,
          In (path, df) (DownloadEM.written r) ->
          exists report_type before name f after,
            In report_type Download.report_types
            /\ path = DownloadEM.file_path s stock_code report_type
            /\ DownloadEM.attempts s stock_code report_type
               = (before ++ (name, f) :: after)%list
            /\ Forall (fun a => DownloadEM.usable (snd a) = None) before
            /\ DownloadEM.usable f = Some df)).
  { split.
    - intros report_type name Hin. rewrite Hcalls in Hin.
      rewrite !in_app_iff, !in_map_iff in Hin.
      destruct Hin as [(n & E & Hn)|[(n & E & Hn)|(n & E & Hn)]];
        injection E as <- <-.
      + exact (@EMFacts.first_usable_asked _ _ _ _ F1 Hn).
      + exact (@EMFacts.first_usable_asked _ _ _ _ F2 Hn).
      + exact (@EMFacts.first_usable_asked _ _ _ _ F3 Hn).
    - intros path df Hin.
      destruct (EMFacts.kw_files Hkept _ _ Hin) as (rt & Hrt & ->).
      destruct Hrt as [E|[E|[E|[]]]]; injection E as <- ->.
      + destruct (@EMFacts.first_usable_found _ _ _ F3)
          as (before & name & f & after & Ha & Hb & Hf & _).
        exists "现金流量表", before, name, f, after.
        split; [cbn; tauto|]. now repeat split.
      + destruct (@EMFacts.first_usable_found _ _ _ F2)
          as (before & name & f & after & Ha & Hb & Hf & _).
        exists "利润表", before, name, f, after.
        split; [cbn; tauto|]. now repeat split.
      + destruct (@EMFacts.first_usable_found _ _ _ F1)
          as (before & name & f & after & Ha & Hb & Hf & _).
        exists "资产负债表", before, name, f, after.
        split; [cbn; tauto|]. now repeat split. }
  destruct (DownloadEM.failed r); [exact Hgoal|].
  destruct (0 <? DownloadEM.successful_downloads r)%nat; exact Hgoal.
Qed.

(** [download_financial_reports_em], lines 1179-1256: what is returned.
    When statements are returned, nothing was raised while they were kept;
    their number is the number reported, between 1 and 3; each is filed
    under one of the three report types, its file was written under
    [financial_data/], and it is the table that was written, either
    unchanged (no label holds [DATE]) or pivoted as a long table: from this
    function the normalizer never leaves a table as it is and never turns
    one. *)
Theorem em_statements_are_kept_or_pivoted
  (s : DownloadEM.sources) (stock_code stock_name : string)
  (data : list (string * Pandas.DataFrame)) (r : DownloadEM.run) :
  DownloadEM.download_financial_reports_em s stock_code
  = (Some data, stock_name, r) ->
  DownloadEM.failed r = None
  /\ data = DownloadEM.report_data r
  /\ DownloadEM.successful_downloads r = length data
  /\ (1 <= length data <= 3)%nat
  /\ forall k t, In (k, t) data ->
       In k Download.report_types
       /\ exists df,
            In (DownloadEM.file_path s stock_code k, df) (DownloadEM.written r)
            /\ String.prefix "financial_data/"
                             (DownloadEM.file_path s stock_code k) = true
            /\ Pandas.df_empty df = false
            /\ ((DownloadEM.needs_conversion df = Pandas.Returns false /\ t = df)
                \/ exists cols date_col,
                     Normalizer.str_labels (Pandas.columns df) = Some cols
                     /\ Normalizer.shape_of df cols = Normalizer.Long date_col
                     /\ t = Normalizer.pivot_long df cols date_col).
Proof.
  destruct (EMRun.run_facts s stock_code)
    as (a1 & a2 & a3 & bs & ist & cf & r' & F1 & F2 & F3 & _ & Hkept & Hle & _ & ->).
  destruct (DownloadEM.failed r') eqn:Hf; [discriminate|].
  destruct (0 <? DownloadEM.successful_downloads r')%nat eqn:Hpos;
    [|discriminate].
  intros H. injection H as <- _ <-.
  pose proof (EMFacts.kw_count Hkept Hf) as Hcount.
  apply Nat.ltb_lt in Hpos.
  split; [exact Hf|]. split; [reflexivity|]. split; [exact Hcount|].
  split; [lia|].
  intros k t Hin.
  destruct (EMFacts.kw_data Hkept _ _ Hin) as (df & Hdf & Hw & Hc).
  assert (Hfetched : In k Download.report_types /\ Pandas.df_empty df = false).
  { destruct Hdf as [E|[E|[E|[]]]]; injection E as <- ->.
    - destruct (@EMFacts.first_usable_found _ _ _ F3) as (? & ? & f & ? & _ & _ & Hu & _).
      split; [cbn; tauto|exact (@EMFacts.usable_not_empty _ _ Hu)].
    - destruct (@EMFacts.first_usable_found _ _ _ F2) as (? & ? & f & ? & _ & _ & Hu & _).
      split; [cbn; tauto|exact (@EMFacts.usable_not_empty _ _ Hu)].
    - destruct (@EMFacts.first_usable_found _ _ _ F1) as (? & ? & f & ? & _ & _ & Hu & _).
      split; [cbn; tauto|exact (@EMFacts.usable_not_empty _ _ Hu)]. }
  destruct Hfetched as (Hk & Hne).
  split; [exact Hk|]. exists df.
  split; [exact Hw|]. split; [apply EMFacts.em_file_path_place|].
  split; [exact Hne|].
  exact (@EMFacts.converted_cases df t Hne Hc).
Qed.

Lemma em_statements_are_kept_or_pivoted_witness :
  DownloadEM.failed
    (snd (DownloadEM.download_financial_reports_em Samples.em_sources "600519"))
  = None.
Proof.
  destruct (@em_statements_are_kept_or_pivoted
              Samples.em_sources "600519" "贵州茅台"
              (match fst (fst (DownloadEM.download_financial_reports_em
                                 Samples.em_sources "600519")) with
               | Some data => data
               | None => []
               end)
              (snd (DownloadEM.download_financial_reports_em
                      Samples.em_sources "600519")))
    as (Hfailed & _).
  - vm_compute. reflexivity.
  - exact Hfailed.
Defined.

(** [download_financial_reports_em], lines 1179-1265: a failure while the
    statements are kept loses all of them.  Take a balance sheet that was
    fetched, written and converted.  If then the file of the income
    statement cannot be written, or its conversion raises, the function
    returns no statement at all and the name [未知], although the file of
    the balance sheet is written and the balance sheet was stored. *)
Theorem em_failure_loses_kept_statements
  (s : DownloadEM.sources) (stock_code : string)
  (bs t ist : Pandas.DataFrame) :
  snd (DownloadEM.first_usable (DownloadEM.attempts s stock_code "资产负债表"))
  = Some bs ->
  Download.to_csv (DownloadEM.base s)
    (DownloadEM.file_path s stock_code "资产负债表") bs = None ->
  DownloadEM.converted bs = Pandas.Returns t ->
  snd (DownloadEM.first_usable (DownloadEM.attempts s stock_code "利润表"))
  = Some ist ->
  (Download.to_csv (DownloadEM.base s)
     (DownloadEM.file_path s stock_code "利润表") ist <> None
   \/ exists e, DownloadEM.converted ist = Pandas.Raises e) ->
  let '(data, stock_name, r) :=
    DownloadEM.download_financial_reports_em s stock_code in
  data = None /\ stock_name = "未知"
  /\ In (DownloadEM.file_path s stock_code "资产负债表", bs) (DownloadEM.written r)
  /\ DownloadEM.report_data r = [("资产负债表", t)].
Proof.
  intros Hbs Hsave Hconv Hist Hfail.
  destruct (EMRun.run_facts s stock_code)
    as (a1 & a2 & a3 & bs' & ist' & cf & r & F1 & F2 & F3 & _ & _ & _ & Hr & ->).
  rewrite F1 in Hbs. rewrite F2 in Hist. cbn [snd] in Hbs, Hist. subst bs' ist'.
  assert (Hrun : DownloadEM.failed r <> None
                 /\ In (DownloadEM.file_path s stock_code "资产负债表", bs)
                       (DownloadEM.written r)
                 /\ DownloadEM.report_data r = [("资产负债表", t)]).
  { rewrite Hr. cbn [fold_left DownloadEM.keep DownloadEM.failed].
    rewrite Hsave, Hconv.
    cbn [DownloadEM.failed DownloadEM.written DownloadEM.report_data
         DownloadEM.calls DownloadEM.successful_downloads app].
    change (Download.dict_set "资产负债表" t []) with [("资产负债表", t)].
    destruct Hfail as [Hw|(e & He)].
    - destruct (Download.to_csv (DownloadEM.base s) _ ist) as [e|];
        [|contradiction].
      cbn [DownloadEM.keep DownloadEM.failed DownloadEM.written
           DownloadEM.report_data].
      destruct cf; (split; [discriminate|]; split; [now left|reflexivity]).
    - destruct (Download.to_csv (DownloadEM.base s) _ ist) as [e'|].
      + cbn [DownloadEM.keep DownloadEM.failed DownloadEM.written
             DownloadEM.report_data].
        destruct cf; (split; [discriminate|]; split; [now left|reflexivity]).
      + rewrite He.
        cbn [DownloadEM.keep DownloadEM.failed DownloadEM.written
             DownloadEM.report_data].
        destruct cf; (split; [discriminate|]; split; [now left|reflexivity]). }
  destruct Hrun as (Hf & Hw & Hd).
  destruct (DownloadEM.failed r); [|contradiction].
  repeat split; assumption.
Qed.

Lemma em_failure_loses_kept_statements_witness :
  fst (fst (DownloadEM.download_financial_reports_em
              Samples.em_sources_disk_full "600519")) = None.
Proof.
  pose proof (@em_failure_loses_kept_statements
                Samples.em_sources_disk_full "600519"
                Samples.long_statement
                (Normalizer.pivot_long Samples.long_statement
                   ["REPORT_DATE"; "ITEM_NAME"; "AMOUNT"] "REPORT_DATE")
                Examples.income_statement) as H.
  destruct (DownloadEM.download_financial_reports_em
              Samples.em_sources_disk_full "600519") as [[data name] r].
  apply H.
  - reflexivity.
  - reflexivity.
  - reflexivity.
  - reflexivity.
  - left. discriminate.
Defined.

Module PlaceFacts.
Import Download.

Lemma sina_written_place w stock_code :
  forall p df,
    In (p, df) (written (snd (download_financial_reports w stock_code))) ->
    String.prefix "financial_data/" p = true.
Proof.
  unfold download_financial_reports.
  destruct (stock_name_of w stock_code (mkRun O [] [] [])) as [name r0] eqn:En.
  set (one := download_one w stock_code (get_stock_prefix stock_code ++ stock_code)).
  assert (H0 : DownloadInvariants.consistent [] r0).
  { destruct (DownloadFacts.stock_name_of_fresh _ _ En) as (Hn & Hd & Hw).
    constructor.
    - now rewrite Hn, Hd.
    - now rewrite Hw, Hd.
    - intros k df Hin. rewrite Hd in Hin. contradiction.
    - intros p df Hin. rewrite Hw in Hin. contradiction. }
  unfold report_types. cbn [fold_left]. fold one.
  assert (H3 : DownloadInvariants.consistent
                 ["现金流量表"; "利润表"; "资产负债表"]
                 (one (one (one r0 "资产负债表") "利润表") "现金流量表")).
  { apply DownloadInvariants.download_one_consistent.
    { simpl. intros [H|[H|[]]]; discriminate H. }
    apply DownloadInvariants.download_one_consistent.
    { simpl. intros [H|[]]. discriminate H. }
    apply DownloadInvariants.download_one_consistent; [intros []|exact H0]. }
  destruct (0 <? _)%nat; cbn [snd show written];
    exact (DownloadInvariants.written_place H3).
Qed.

Lemma not_under_reports p other :
  String.prefix "financial_data/" p = true ->
  p <> Loader.bs_file other /\ p <> Loader.is_file other.
Proof.
  intros Hp. split; intros ->; discriminate Hp.
Qed.

End PlaceFacts.

(** [download_financial_reports] and [download_financial_reports_em]
    against [load_existing_reports] (lines 103, 1181, 1201, 1221 and
    146-159): neither download writes a file the loader reads.  Whatever
    the providers answer and whatever stock the loader is asked for, no
    file written is the balance sheet or the income statement under
    [reports/]. *)
Theorem downloads_are_never_loaded
  (w : Download.world) (s : DownloadEM.sources) (stock_code other : string) :
  (forall path df,
      In (path, df)
         (Download.written (snd (Download.download_financial_reports w stock_code))) ->
      path <> Loader.bs_file other /\ path <> Loader.is_file other)
  /\ (forall path df,
        In (path, df)
           (DownloadEM.written
              (snd (DownloadEM.download_financial_reports_em s stock_code))) ->
        path <> Loader.bs_file other /\ path <> Loader.is_file other).
Proof.
  split.
  - intros path df Hin. apply PlaceFacts.not_under_reports.
    exact (PlaceFacts.sina_written_place w stock_code path df Hin).
  - intros path df Hin. apply PlaceFacts.not_under_reports.
    destruct (EMRun.run_facts s stock_code)
      as (a1 & a2 & a3 & bs & ist & cf & r & _ & _ & _ & _ & Hkept & _ & _ & Hrun).
    rewrite Hrun in Hin.
    assert (Hr : In (path, df) (DownloadEM.written r)).
    { destruct (DownloadEM.failed r); [exact Hin|].
      destruct (0 <? _)%nat; exact Hin. }
    destruct (EMFacts.kw_files Hkept _ _ Hr) as (rt & _ & ->).
    apply EMFacts.em_file_path_place.
Qed.

(* ================================================================== *)
(** ** The ratios of loaded statements *)

Module SubstringFacts.
Import PyStr.





End SubstringFacts.

Module LoadedRatios.
Import PyStr PyFloat Pandas Metrics Ratios Loader.





End LoadedRatios.



(* ================================================================== *)
(** ** The rows of the ratio charts *)

Module ChartFacts.
Import Ratios RatioChart.

Lemma sorted_app {A : Type} (R : A -> A -> Prop) (l1 l2 : list A) :
  StronglySorted R (l1 ++ l2) ->
  StronglySorted R l1
  /\ (forall x y, In x l1 -> In y l2 -> R x y).
Proof.
  induction l1 as [|a l1 IH]; cbn [app]; intros H.
  - split; [constructor|intros x y []].
  - apply StronglySorted_inv in H. destruct H as (Hs & Hall).
    destruct (IH Hs) as (H1 & H2).
    rewrite Forall_app in Hall. destruct Hall as (Ha1 & Ha2).
    split; [now constructor|].
    intros x y [<-|Hx] Hy.
    + rewrite Forall_forall in Ha2. now apply Ha2.
    + now apply H2.
Qed.

Lemma sorted_snoc {A : Type} (R : A -> A -> Prop) (l : list A) (x : A) :
  StronglySorted R l -> Forall (fun y => R y x) l ->
  StronglySorted R (l ++ [x]).
Proof.
  induction 1 as [|a l Hs IH Hall]; cbn [app]; intros Hx.
  - constructor; constructor.
  - apply Forall_cons_iff in Hx. destruct Hx as (Hax & Hlx).
    constructor; [now apply IH|].
    rewrite Forall_app. split; [exact Hall|now constructor].
Qed.

Lemma sorted_rev {A : Type} (R : A -> A -> Prop) (l : list A) :
  StronglySorted R l -> StronglySorted (fun a b => R b a) (rev l).
Proof.
  induction 1 as [|a l Hs IH Hall]; cbn [rev]; [constructor|].
  apply sorted_snoc; [exact IH|].
  rewrite Forall_forall in *. intros y Hy. apply Hall.
  now apply in_rev.
Qed.

(** The first rows of a table in descending order come before the
    rows left out. *)
Lemma first_rows_first (R : string -> string -> Prop) rows n :
  StronglySorted R (map r_date rows) ->
  StronglySorted R (map r_date (firstn n rows))
  /\ (forall x y, In x (firstn n rows) -> In y (skipn n rows) ->
                  R (r_date x) (r_date y)).
Proof.
  intros Hs. rewrite <- (firstn_skipn n rows), map_app in Hs.
  destruct (@sorted_app _ R _ _ Hs) as (H1 & H2).
  split; [exact H1|].
  intros x y Hx Hy. apply H2; now apply in_map.
Qed.

End ChartFacts.

(** [get_financial_ratios] then [plot_financial_ratios] (lines 752-765,
    825 and 976), as [app] chains them.  On a ratio table computed from
    statements with distinct labels: with one row nothing is drawn; from
    two rows on the trend charts show at most 15 periods, oldest first,
    and every period left out is older than every period shown; the
    charts of the latest period show the newest period of the table. *)
Theorem ratio_charts_show_the_newest_periods
  (bs0 is0 : Pandas.DataFrame) (rows : list Ratios.ratio_row) :
  Pandas.distinct_labels bs0 -> Pandas.distinct_labels is0 ->
  Ratios.get_financial_ratios (Some bs0) (Some is0) = Some rows ->
  (length rows = 1%nat -> RatioChart.plot_financial_ratios (Some rows) = None)
  /\ ((2 <= length rows)%nat ->
      exists c,
        RatioChart.plot_financial_ratios (Some rows) = Some c
        /\ length (RatioChart.df_plot c) = Nat.min 15 (length rows)
        /\ StronglySorted (fun a b => String.compare a b = Lt)
                          (map Ratios.r_date (RatioChart.df_plot c))
        /\ (forall x y,
              In x (RatioChart.df_plot c) -> In y rows ->
              ~ In y (RatioChart.df_plot c) ->
              String.compare (Ratios.r_date y) (Ratios.r_date x) = Lt)
        /\ exists latest,
             RatioChart.latest_data c = Some latest
             /\ In latest rows
             /\ forall y, In y rows -> y <> latest ->
                   String.compare (Ratios.r_date y) (Ratios.r_date latest) = Lt).
Proof.
  intros _ _ H.
  destruct (RatioOrder.get_financial_ratios_inv _ _ H)
    as (ar & er & pr & Hrows & Hne).
  assert (Hsorted : StronglySorted RatioOrder.newer (map Ratios.r_date rows)).
  { rewrite Hrows, RatioOrder.ratio_dates.
    apply RatioOrder.sorted_filter, RatioOrder.common_dates_descend. }
  clear Hrows H. split.
  - intros H1. unfold RatioChart.plot_financial_ratios. now rewrite H1.
  - intros H2. unfold RatioChart.plot_financial_ratios.
    destruct (length rows <? 2)%nat eqn:E; [apply Nat.ltb_lt in E; lia|].
    eexists. split; [reflexivity|].
    cbn [RatioChart.df_plot RatioChart.latest_data].
    set (kept := if (15 <? length rows)%nat then firstn 15 rows else rows).
    assert (Hkept : exists n, kept = firstn n rows
                              /\ length kept = Nat.min 15 (length rows)).
    { subst kept. destruct (15 <? length rows)%nat eqn:E15.
      - apply Nat.ltb_lt in E15. exists 15%nat.
        split; [reflexivity|]. rewrite length_firstn. lia.
      - apply Nat.ltb_ge in E15. exists (length rows).
        split; [now rewrite firstn_all|lia]. }
    destruct Hkept as (n & Hn & Hlen). rewrite Hn in *.
    destruct (@ChartFacts.first_rows_first RatioOrder.newer rows n Hsorted)
      as (Hfirst & Hrest).
    split; [now rewrite length_rev|].
    split.
    { rewrite map_rev.
      exact (@ChartFacts.sorted_rev _ RatioOrder.newer _ Hfirst). }
    split.
    { intros x y Hx Hy Hny. apply in_rev in Hx.
      apply (Hrest x y Hx).
      rewrite <- (firstn_skipn n rows) in Hy. apply in_app_iff in Hy.
      destruct Hy as [Hy|Hy]; [|exact Hy].
      exfalso. apply Hny. now apply in_rev in Hy. }
    destruct rows as [|latest rest]; [contradiction|].
    exists latest. split; [reflexivity|]. split; [now left|].
    intros y [<-|Hy] Hneq; [contradiction|].
    cbn [map] in Hsorted. apply StronglySorted_inv in Hsorted.
    destruct Hsorted as (_ & Hall). rewrite Forall_forall in Hall.
    apply Hall. now apply in_map.
Qed.

Lemma ratio_charts_show_the_newest_periods_witness :
  exists c,
    RatioChart.plot_financial_ratios
      (Ratios.get_financial_ratios (Some Samples.balance_sheet_two_years)
                                   (Some Samples.income_statement_two_years))
    = Some c
    /\ length (RatioChart.df_plot c) = 2%nat.
Proof.
  destruct (@ratio_charts_show_the_newest_periods
              Samples.balance_sheet_two_years Samples.income_statement_two_years
              (match Ratios.get_financial_ratios
                       (Some Samples.balance_sheet_two_years)
                       (Some Samples.income_statement_two_years) with
               | Some rows => rows
               | None => []
               end))
    as (_ & Hmany).
  - unfold Pandas.distinct_labels. vm_compute.
    repeat constructor; simpl; intuition discriminate.
  - unfold Pandas.distinct_labels. vm_compute.
    repeat constructor; simpl; intuition discriminate.
  - vm_compute. reflexivity.
  - destruct Hmany as (c & Hc & Hlen & _); [vm_compute; lia|].
    exists c. split; [exact Hc|exact Hlen].
Defined.

(* ================================================================== *)
(** ** Saving the yearly statements *)

Module AnnualFacts.
Import PyStr Pandas Metrics DownloadAnnual.

Lemma append_cancel (a b c : string) : (a ++ b = a ++ c)%string -> b = c.
Proof.
  induction a as [|x a IH]; cbn; [trivial|].
  intros H. injection H as H. now apply IH.
Qed.

Lemma prefix_of_append (a b : string) : String.prefix a (a ++ b) = true.
Proof.
  induction a as [|x a IH]; simpl; [apply TextFacts.prefix_empty|].
  destruct (ascii_dec x x); [exact IH|contradiction].
Qed.

Lemma origin_more stock_code statements x file :
  origin stock_code statements file ->
  origin stock_code (x :: statements) file.
Proof.
  intros (name & df0 & Hin & Hrest). exists name, df0.
  split; [now right|exact Hrest].
Qed.

Lemma save_body_origin w stock_code statements name df0 r r1 raised :
  In (name, Some df0) statements -> df_empty df0 = false ->
  Forall (origin stock_code statements) (written r) ->
  save_body w stock_code name (stringify_labels df0) r = (r1, raised) ->
  Forall (origin stock_code statements) (written r1)
  /\ has_valid_data r1 = has_valid_data r.
Proof.
  intros Hin Hne Hr. unfold save_body.
  assert (Hraw : origin stock_code statements
                   (raw_path stock_code name, stringify_labels df0)).
  { exists name, df0. split; [exact Hin|]. split; [exact Hne|]. now left. }
  destruct (label_in _ _).
  - destruct (Download.to_csv (base w) (raw_path stock_code name) _).
    { intros H. injection H as <- _. now split. }
    destruct (set_index _ _) as [indexed|e] eqn:Ei.
    + destruct (Download.to_csv (base w) (processed_path stock_code name) _).
      * intros H. injection H as <- _. split; [|reflexivity].
        cbn [add written]. apply Forall_app. split; [exact Hr|now constructor].
      * intros H. injection H as <- _. split; [|reflexivity].
        cbn [add written]. rewrite !Forall_app.
        split; [split; [exact Hr|now constructor]|].
        constructor; [|constructor].
        exists name, df0. split; [exact Hin|]. split; [exact Hne|].
        right. split; [reflexivity|]. now exists indexed.
    + intros H. injection H as <- _. split; [|reflexivity].
      cbn [add written]. apply Forall_app. split; [exact Hr|now constructor].
  - destruct (Download.to_csv (base w) (raw_path stock_code name) _).
    + intros H. injection H as <- _. now split.
    + intros H. injection H as <- _. split; [|reflexivity].
      cbn [add written]. apply Forall_app. split; [exact Hr|now constructor].
Qed.

(** One statement: the files have an origin, and valid data is noted
    exactly when the table is not empty. *)
Lemma save_statement_origin w stock_code statements r name found :
  Forall (origin stock_code statements) (written r) ->
  Forall (origin stock_code ((name, found) :: statements))
         (written (save_statement w stock_code r (name, found)))
  /\ (has_valid_data (save_statement w stock_code r (name, found)) = true
      <-> has_valid_data r = true \/ valid found).
Proof.
  intros Hr.
  assert (Hr' : Forall (origin stock_code ((name, found) :: statements))
                       (written r)).
  { eapply Forall_impl; [|exact Hr]. intros f. apply origin_more. }
  cbn [save_statement].
  destruct found as [df0|].
  2:{ split; [exact Hr'|]. split; [now left|].
      intros [H|(df & E & _)]; [exact H|discriminate E]. }
  destruct (df_empty df0) eqn:Hne.
  { split; [exact Hr'|]. split; [now left|].
    intros [H|(df & E & He)]; [exact H|].
    injection E as <-. congruence. }
  destruct (save_body w stock_code name (stringify_labels df0)
                      (mkRun (written r) true)) as [r1 raised] eqn:Eb.
  destruct (@save_body_origin w stock_code ((name, Some df0) :: statements)
              name df0 (mkRun (written r) true) r1 raised
              (or_introl eq_refl) Hne Hr' Eb) as (H1 & Hv).
  cbn [has_valid_data] in Hv.
  assert (Hvalid : valid (Some df0)) by (now exists df0).
  destruct raised.
  - destruct (Download.to_csv (base w) (raw_path stock_code name) _).
    + split; [exact H1|]. split; [now right|now intros _].
    + cbn [add written has_valid_data]. split.
      * apply Forall_app. split; [exact H1|].
        constructor; [|constructor].
        exists name, df0. split; [now left|]. split; [exact Hne|]. now left.
      * split; [now right|now intros _].
  - split; [exact H1|]. split; [now right|now intros _].
Qed.

Lemma sina_fallback_origin w stock_code (P : string * DataFrame -> Prop)
      r report_type :
  In report_type Download.report_types ->
  Forall (fun f => P f \/ from_sina w stock_code f) (written r) ->
  (has_valid_data r = true -> written r <> []) ->
  let r' := sina_fallback w stock_code r report_type in
  Forall (fun f => P f \/ from_sina w stock_code f) (written r')
  /\ (has_valid_data r' = true -> written r' <> [])
  /\ (written r <> [] -> written r' <> [])
  /\ (has_valid_data r = true -> has_valid_data r' = true).
Proof.
  intros Hrt Hr Hv. unfold sina_fallback.
  destruct (Download.stock_financial_report_sina _ _ _) as [e| |df] eqn:Es;
    cbv zeta; try now repeat split.
  destruct (df_empty df) eqn:He; [now repeat split|].
  destruct (Download.to_csv _ _ df); [now repeat split|].
  cbn [written has_valid_data].
  assert (Hnil : forall l : list (string * DataFrame),
            (l ++ [(processed_path stock_code (Download.file_type report_type), df)])%list
            <> []) by (intros [|? ?]; discriminate).
  split; [|now repeat split].
  apply Forall_app. split; [exact Hr|].
  constructor; [|constructor]. right.
  exists report_type. now repeat split.
Qed.

(** The whole stage. *)
Lemma save_annual_facts
  (w : DownloadAnnual.world) (stock_code : string)
  (balance_sheet income_statement cash_flow : option Pandas.DataFrame) :
  let statements := [("cash_flow", cash_flow);
                     ("income_statement", income_statement);
                     ("balance_sheet", balance_sheet)] in
  let '(ok, r) := DownloadAnnual.save_annual_reports w stock_code
                    balance_sheet income_statement cash_flow in
  (ok = true <->
     DownloadAnnual.makedirs w (Loader.reports_dir stock_code) = None
     /\ (DownloadAnnual.valid balance_sheet
         \/ DownloadAnnual.valid income_statement
         \/ DownloadAnnual.valid cash_flow
         \/ DownloadAnnual.written r <> []))
  /\ Forall (fun file => DownloadAnnual.origin stock_code statements file
                         \/ DownloadAnnual.from_sina w stock_code file)
            (DownloadAnnual.written r)
  /\ ((forall path df,
         Download.to_csv (DownloadAnnual.base w) path df <> None) ->
      DownloadAnnual.written r = []).
Proof.
  cbv zeta. unfold DownloadAnnual.save_annual_reports.
  destruct (DownloadAnnual.makedirs w (Loader.reports_dir stock_code)) as [e|].
  { split; [split; [discriminate|intros (H & _); discriminate H]|].
    split; [constructor|reflexivity]. }
  set (r0 := DownloadAnnual.mkRun [] false).
  cbn [fold_left].
  destruct (@AnnualFacts.save_statement_origin w stock_code [] r0
              "balance_sheet" balance_sheet (Forall_nil _)) as (O1 & V1).
  set (r1 := DownloadAnnual.save_statement w stock_code r0
               ("balance_sheet", balance_sheet)) in *.
  destruct (@AnnualFacts.save_statement_origin w stock_code _ r1
              "income_statement" income_statement O1) as (O2 & V2).
  set (r2 := DownloadAnnual.save_statement w stock_code r1
               ("income_statement", income_statement)) in *.
  destruct (@AnnualFacts.save_statement_origin w stock_code _ r2
              "cash_flow" cash_flow O2) as (O3 & V3).
  set (r3 := DownloadAnnual.save_statement w stock_code r2
               ("cash_flow", cash_flow)) in *.
  assert (Hvalid : DownloadAnnual.has_valid_data r3 = true
                   <-> DownloadAnnual.valid balance_sheet
                       \/ DownloadAnnual.valid income_statement
                       \/ DownloadAnnual.valid cash_flow).
  { rewrite V3, V2, V1. cbn [DownloadAnnual.has_valid_data r0].
    split; [intros [[[H|H]|H]|H]; [discriminate H|tauto..]|tauto]. }
  assert (Hfail : (forall path df,
                      Download.to_csv (DownloadAnnual.base w) path df <> None) ->
                  forall r name found,
                    DownloadAnnual.written r = [] ->
                    DownloadAnnual.written
                      (DownloadAnnual.save_statement w stock_code r (name, found))
                    = []).
  { intros Hno r name found Hr. cbn [DownloadAnnual.save_statement].
    destruct found as [df0|]; [|exact Hr].
    destruct (Pandas.df_empty df0); [exact Hr|].
    unfold DownloadAnnual.save_body.
    destruct (Pandas.label_in _ _);
      (destruct (Download.to_csv (DownloadAnnual.base w)
                   (DownloadAnnual.raw_path stock_code name) _) eqn:E;
       [exact Hr|now apply Hno in E]). }
  destruct (DownloadAnnual.has_valid_data r3) eqn:Hv.
  - split; [split; [intros _; split; [reflexivity|]|intros _; exact Hv]|].
    { destruct (proj1 Hvalid eq_refl) as [H|[H|H]]; tauto. }
    split.
    { eapply Forall_impl; [|exact O3]. intros f Hf. now left. }
    intros Hno. subst r3 r2 r1.
    repeat apply (Hfail Hno). reflexivity.
  - assert (Hnone : ~ (DownloadAnnual.valid balance_sheet
                       \/ DownloadAnnual.valid income_statement
                       \/ DownloadAnnual.valid cash_flow)).
    { intros H. apply Hvalid in H. discriminate H. }
    assert (Hempty : DownloadAnnual.written r3 = []).
    { subst r3 r2 r1. clear -Hnone.
      assert (Hskip : forall r name found,
                ~ DownloadAnnual.valid found ->
                DownloadAnnual.save_statement w stock_code r (name, found) = r).
      { intros r name found Hn. cbn [DownloadAnnual.save_statement].
        destruct found as [df0|]; [|reflexivity].
        destruct (Pandas.df_empty df0) eqn:E; [reflexivity|].
        exfalso. apply Hn. now exists df0. }
      rewrite !Hskip by tauto. reflexivity. }
    unfold Download.report_types. cbn [fold_left].
    set (P := DownloadAnnual.origin stock_code
                [("cash_flow", cash_flow); ("income_statement", income_statement);
                 ("balance_sheet", balance_sheet)]).
    assert (S0 : Forall (fun f => P f \/ DownloadAnnual.from_sina w stock_code f)
                        (DownloadAnnual.written r3)
                 /\ (DownloadAnnual.has_valid_data r3 = true ->
                     DownloadAnnual.written r3 <> [])).
    { rewrite Hempty, Hv. split; [constructor|discriminate]. }
    destruct S0 as (F0 & N0).
    destruct (@AnnualFacts.sina_fallback_origin w stock_code P r3 "资产负债表"
                (or_introl eq_refl) F0 N0) as (F1 & N1 & K1 & M1).
    set (s1 := DownloadAnnual.sina_fallback w stock_code r3 "资产负债表") in *.
    destruct (@AnnualFacts.sina_fallback_origin w stock_code P s1 "利润表"
                (or_intror (or_introl eq_refl)) F1 N1) as (F2 & N2 & K2 & M2).
    set (s2 := DownloadAnnual.sina_fallback w stock_code s1 "利润表") in *.
    destruct (@AnnualFacts.sina_fallback_origin w stock_code P s2 "现金流量表"
                (or_intror (or_intror (or_introl eq_refl))) F2 N2)
      as (F3 & N3 & K3 & M3).
    set (s3 := DownloadAnnual.sina_fallback w stock_code s2 "现金流量表") in *.
    split; [|split; [exact F3|]].
    + split.
      * intros H. split; [reflexivity|]. right. right. right. now apply N3.
      * intros (_ & [H|[H|[H|H]]]); try (exfalso; apply Hnone; tauto).
        destruct (DownloadAnnual.has_valid_data s3) eqn:E; [reflexivity|].
        exfalso. apply H. subst s3 s2 s1.
        clear -Hempty E. revert E.
        unfold DownloadAnnual.sina_fallback.
        repeat match goal with
               | |- context [Download.stock_financial_report_sina ?a ?b ?c] =>
                   destruct (Download.stock_financial_report_sina a b c)
               | |- context [Pandas.df_empty ?d] => destruct (Pandas.df_empty d)
               | |- context [Download.to_csv ?a ?b ?c] =>
                   destruct (Download.to_csv a b c)
               end;
          cbn [DownloadAnnual.has_valid_data DownloadAnnual.written];
          try discriminate; intros _; exact Hempty.
    + intros Hno. subst s3 s2 s1.
      unfold DownloadAnnual.sina_fallback.
      repeat match goal with
             | |- context [Download.stock_financial_report_sina ?a ?b ?c] =>
                 destruct (Download.stock_financial_report_sina a b c)
             | |- context [Pandas.df_empty ?d] => destruct (Pandas.df_empty d)
             | |- context [Download.to_csv ?a ?b ?c] =>
                 let E := fresh "E" in
                 destruct (Download.to_csv a b c) eqn:E;
                 [|now apply Hno in E]
             end; exact Hempty.
Qed.

End AnnualFacts.

(** The end of [download_annual_reports_em] (lines 1677-1835): the value
    returned says that a table was obtained, not that it was saved.  When
    the directory can be made, the function returns [True] as soon as one of
    the three tables acquired is not empty, whatever happens to the
    files; only when none is does the result depend on a file, written by
    the fallback on the first provider.  Every file written comes from a
    table that is not empty: it is a statement as it was acquired, that
    statement turned with its report dates as header, or a table of the
    fallback.  If no file can be written, none is, and [True] is still
    returned for a table that is not empty. *)
Theorem annual_success_is_not_saving
  (w : DownloadAnnual.world) (stock_code : string)
  (balance_sheet income_statement cash_flow : option Pandas.DataFrame) :
  let statements := [("cash_flow", cash_flow);
                     ("income_statement", income_statement);
                     ("balance_sheet", balance_sheet)] in
  let '(ok, r) := DownloadAnnual.save_annual_reports w stock_code
                    balance_sheet income_statement cash_flow in
  (ok = true <->
     DownloadAnnual.makedirs w (Loader.reports_dir stock_code) = None
     /\ (DownloadAnnual.valid balance_sheet
         \/ DownloadAnnual.valid income_statement
         \/ DownloadAnnual.valid cash_flow
         \/ DownloadAnnual.written r <> []))
  /\ Forall (fun file => DownloadAnnual.origin stock_code statements file
                         \/ DownloadAnnual.from_sina w stock_code file)
            (DownloadAnnual.written r)
  /\ ((forall path df,
         Download.to_csv (DownloadAnnual.base w) path df <> None) ->
      DownloadAnnual.written r = []).
Proof.
  exact (AnnualFacts.save_annual_facts w stock_code
           balance_sheet income_statement cash_flow).
Qed.

Module AnnualPaths.
Import PyStr Pandas Metrics DownloadAnnual.

Definition names : list string := ["balance_sheet"; "income_statement"; "cash_flow"].

(** Among the files of the three statements, the one called as the
    loader calls it is the turned statement of that name. *)
Lemma processed_file_origin stock_code statements n t :
  (forall name df0, In (name, Some df0) statements -> In name names) ->
  In n names ->
  origin stock_code statements (processed_path stock_code n, t) ->
  exists df0 indexed,
    In (n, Some df0) statements /\ df_empty df0 = false
    /\ set_index (VStr "REPORT_DATE") (stringify_labels df0) = Returns indexed
    /\ t = transpose indexed.
Proof.
  intros Hnames Hn (name & df0 & Hin & Hne & Hcase).
  specialize (Hnames name df0 Hin). cbn [fst snd] in Hcase.
  destruct Hcase as [(Hp & _)|(Hp & indexed & Hi & Ht)].
  - exfalso. unfold processed_path, raw_path in Hp.
    apply AnnualFacts.append_cancel in Hp.
    cbn in Hn, Hnames.
    destruct Hn as [<-|[<-|[<-|[]]]];
      destruct Hnames as [<-|[<-|[<-|[]]]]; discriminate Hp.
  - assert (E : n = name).
    { unfold processed_path in Hp. apply AnnualFacts.append_cancel in Hp.
      cbn in Hn, Hnames.
      destruct Hn as [<-|[<-|[<-|[]]]];
        destruct Hnames as [<-|[<-|[<-|[]]]];
        try reflexivity; discriminate Hp. }
    subst name. now exists df0, indexed.
Qed.

Lemma sina_file_origin w stock_code report_type t :
  In report_type Download.report_types ->
  from_sina w stock_code
            (processed_path stock_code (Download.file_type report_type), t) ->
  Download.stock_financial_report_sina (base w)
    (Download.get_stock_prefix stock_code ++ stock_code) report_type
  = Download.FetchFrame t.
Proof.
  intros Hrt (rt & Hin & Hp & Hs & _). cbn [fst snd] in Hp, Hs.
  assert (E : report_type = rt).
  { unfold processed_path in Hp. apply AnnualFacts.append_cancel in Hp.
    cbn in Hrt, Hin.
    destruct Hrt as [<-|[<-|[<-|[]]]];
      destruct Hin as [<-|[<-|[<-|[]]]];
      try reflexivity; discriminate Hp. }
  now subst rt.
Qed.

End AnnualPaths.

(** The end of [download_annual_reports_em] against
    [load_existing_reports] (lines 1703, 1740, 1821 and 146-159): what the
    loader will read.  The balance sheet (income statement) under
    [reports/] is written either from the table acquired for that
    statement, which then is not empty, has a column [REPORT_DATE] and is
    written turned, with its report dates as header; or as the table the
    first provider returned for that statement. *)
Theorem annual_files_for_the_loader
  (w : DownloadAnnual.world) (stock_code : string)
  (balance_sheet income_statement cash_flow : option Pandas.DataFrame) :
  let r := snd (DownloadAnnual.save_annual_reports w stock_code
                  balance_sheet income_statement cash_flow) in
  let written_from :=
    fun (report_type : string) (found : option Pandas.DataFrame)
        (t : Pandas.DataFrame) =>
      (exists df0 indexed,
          found = Some df0 /\ Pandas.df_empty df0 = false
          /\ DownloadAnnual.set_index (Pandas.VStr "REPORT_DATE")
               (Metrics.stringify_labels df0) = Pandas.Returns indexed
          /\ t = Pandas.transpose indexed)
      \/ Download.stock_financial_report_sina (DownloadAnnual.base w)
           (Download.get_stock_prefix stock_code ++ stock_code) report_type
         = Download.FetchFrame t in
  (forall t, In (Loader.bs_file stock_code, t) (DownloadAnnual.written r) ->
             written_from "资产负债表" balance_sheet t)
  /\ (forall t, In (Loader.is_file stock_code, t) (DownloadAnnual.written r) ->
                written_from "利润表" income_statement t).
Proof.
  cbv zeta.
  pose proof (AnnualFacts.save_annual_facts w stock_code
                balance_sheet income_statement cash_flow) as H.
  cbv zeta in H.
  destruct (DownloadAnnual.save_annual_reports w stock_code
              balance_sheet income_statement cash_flow) as [ok r].
  destruct H as (_ & Hfiles & _). cbn [snd].
  rewrite Forall_forall in Hfiles.
  assert (Hnames : forall name df0,
            In (name, Some df0)
               [("cash_flow", cash_flow); ("income_statement", income_statement);
                ("balance_sheet", balance_sheet)] ->
            In name AnnualPaths.names).
  { intros name df0 [E|[E|[E|[]]]]; injection E as <- _; cbn; tauto. }
  split; intros t Hin; destruct (Hfiles _ Hin) as [Ho|Hs].
  - left.
    destruct (@AnnualPaths.processed_file_origin stock_code _ "balance_sheet" t
                Hnames (or_introl eq_refl) Ho)
      as (df0 & indexed & Hdf & Hne & Hi & Ht).
    exists df0, indexed.
    destruct Hdf as [E|[E|[E|[]]]]; try discriminate E.
    injection E as ->. now repeat split.
  - right.
    exact (@AnnualPaths.sina_file_origin w stock_code "资产负债表" t
             (or_introl eq_refl) Hs).
  - left.
    destruct (@AnnualPaths.processed_file_origin stock_code _ "income_statement" t
                Hnames (or_intror (or_introl eq_refl)) Ho)
      as (df0 & indexed & Hdf & Hne & Hi & Ht).
    exists df0, indexed.
    destruct Hdf as [E|[E|[E|[]]]]; try discriminate E.
    injection E as ->. now repeat split.
  - right.
    exact (@AnnualPaths.sina_file_origin w stock_code "利润表" t
             (or_intror (or_introl eq_refl)) Hs).
Qed.
